(** * VoteFlow-AI: campaign wizard, payment verification and live telemetry

    A shallow embedding of the client-side orchestration code of the
    VoteFlow-AI frontend:

    - [DashboardJsx]: [frontend/src/components/Dashboard/Dashboard.jsx]
      (the execution console: bounded log, telemetry handler, uploads);
    - [Part001]: the second revision of the console ([unnamed/part_001]),
      which adds a noise filter to [addLog] and the [qr_ready] event;
    - [PaymentModal]: the campaign wizard ([unnamed/part_000]): plan
      selection, PDF ingestion, message composition, payment verification
      and the quota record kept in [localStorage];
    - [Interleaved]: the same wizard with its [async] handlers cut at
      their [await]s, so that the operator and the replies of the backend
      interleave;
    - [DevConfig]: the developer-bypass configuration
      ([frontend/src/context/AuthContext.jsx], imported by the wizard as
      [../config/devConfig]);
    - [App]: the plan that [frontend/src/App.jsx] hands to the wizard.

    JavaScript strings are modelled as [string] (sequences of 8-bit code
    units); React state is a record that every handler maps to the state
    after all of its [setX] calls have been applied; [localStorage] is a
    [gmap] from keys to stored values; the clock ([Date.now()]) and the
    replies of the backend are inputs of the handlers. The pictographs
    that open some of the literal log lines in the source are left out of
    the literals. *)

From Stdlib Require Import ZArith Lia List Bool Ascii String DecimalString.
From stdpp Require Import gmap strings list.
Import ListNotations.

#[local] Open Scope string_scope.
#[local] Open Scope list_scope.
#[local] Open Scope Z_scope.

(* ===================================================================== *)
(** * The JavaScript built-ins the source relies on *)
(* ===================================================================== *)

Module JS.

(** The double quote and the line feed. *)
Definition DQUOTE : ascii := ascii_of_nat 34.
Definition LF : ascii := ascii_of_nat 10.

(** Code units of a string. *)
Definition chars (s : string) : list ascii := list_ascii_of_string s.
Definition str (l : list ascii) : string := string_of_list_ascii l.

Definition code (c : ascii) : nat := nat_of_ascii c.

Definition in_range (lo hi : nat) (c : ascii) : bool :=
  (Nat.leb lo (code c)) && (Nat.leb (code c) hi).

(** [\d] and its complement [\D] (no unicode flag). *)
Definition is_digit (c : ascii) : bool := in_range 48 57 c.
(** [[a-zA-Z0-9]] *)
Definition is_alnum (c : ascii) : bool :=
  in_range 97 122 c || in_range 65 90 c || in_range 48 57 c.

(** White space and line terminators stripped by [String.prototype.trim]
    among the code units below 256: TAB, LF, VT, FF, CR, SP, NBSP. *)
Definition is_ws (c : ascii) : bool :=
  in_range 9 13 c || Nat.eqb (code c) 32 || Nat.eqb (code c) 160.

Fixpoint drop_ws (l : list ascii) : list ascii :=
  match l with
  | c :: l' => if is_ws c then drop_ws l' else l
  | [] => []
  end.

(** [s.trim()] *)
Definition trim_chars (l : list ascii) : list ascii :=
  rev (drop_ws (rev (drop_ws l))).
Definition trim (s : string) : string := str (trim_chars (chars s)).

(** Truthiness of a string: the empty string is the only falsy one. *)
Definition truthy (s : string) : bool :=
  match s with EmptyString => false | _ => true end.

(** [a || b] on a possibly [undefined] string. *)
Definition or_else (a : option string) (b : string) : string :=
  match a with
  | Some s => if truthy s then s else b
  | None => b
  end.

(** [s.toLowerCase()] on code units below 256: A-Z, and the Latin-1
    capitals U+00C0..U+00DE except the multiplication sign U+00D7. *)
Definition lower_char (c : ascii) : ascii :=
  if in_range 65 90 c
     || (in_range 192 222 c && negb (Nat.eqb (code c) 215))
  then ascii_of_nat (code c + 32) else c.
Definition toLowerCase (s : string) : string :=
  str (map lower_char (chars s)).

Fixpoint starts_with (p l : list ascii) : bool :=
  match p, l with
  | [], _ => true
  | a :: p', b :: l' => Ascii.eqb a b && starts_with p' l'
  | _ :: _, [] => false
  end.

(** [s.endsWith(suffix)] *)
Definition endsWith (s suffix : string) : bool :=
  starts_with (rev (chars suffix)) (rev (chars s)).

(** [s.includes(needle)] *)
Fixpoint includes_chars (needle l : list ascii) : bool :=
  starts_with needle l
  || match l with
     | [] => false
     | _ :: l' => includes_chars needle l'
     end.
Definition includes (s needle : string) : bool :=
  includes_chars (chars needle) (chars s).

(** [s.split(sep)] for a one-character separator: the result always has
    [1 + number of separators] pieces, possibly empty ones. *)
Fixpoint split_chars (sep : ascii) (l : list ascii) : list (list ascii) :=
  match l with
  | [] => [[]]
  | c :: l' =>
      if Ascii.eqb c sep then [] :: split_chars sep l'
      else match split_chars sep l' with
           | cur :: rest => (c :: cur) :: rest
           | [] => [[c]]
           end
  end.
Definition split (sep : ascii) (s : string) : list string :=
  map str (split_chars sep (chars s)).

(** [s.replace(/c/g, '')]: delete every code unit satisfying [p]. *)
Definition remove_all (p : ascii -> bool) (s : string) : string :=
  str (List.filter (fun c => negb (p c)) (chars s)).

(** [arr.slice(-n)]: the last [n] elements (all of them when there are
    fewer). *)
Definition slice_last {A} (n : nat) (l : list A) : list A :=
  skipn (length l - n) l.

(** [arr.slice(0, end)]: a negative [end] counts from the end of the
    array, and the result is clamped to the array. *)
Definition slice_to {A} (e : Z) (l : list A) : list A :=
  let len := Z.of_nat (length l) in
  let stop := if e <? 0 then Z.max (len + e) 0 else Z.min e len in
  firstn (Z.to_nat stop) l.

(** [s.replace(/c/g, rep)] for a one-character pattern. *)
Definition replace_char (c : ascii) (rep : string) (s : string) : string :=
  str (flat_map (fun x => if Ascii.eqb x c then chars rep else [x]) (chars s)).

(** [a || b] on strings. *)
Definition or_str (a b : string) : string := if truthy a then a else b.

Definition dec_digit (c : ascii) : option Z :=
  if is_digit c then Some (Z.of_nat (code c) - 48) else None.
Definition hex_digit (c : ascii) : option Z :=
  if is_digit c then Some (Z.of_nat (code c) - 48)
  else if in_range 97 102 c then Some (Z.of_nat (code c) - 87)
  else if in_range 65 70 c then Some (Z.of_nat (code c) - 55)
  else None.

(** The value of the longest prefix of digits; [None] when there is no
    digit at all. *)
Fixpoint digits_value (base : Z) (digit : ascii -> option Z)
    (l : list ascii) (acc : option Z) : option Z :=
  match l with
  | c :: l' =>
      match digit c with
      | Some d =>
          digits_value base digit l'
            (Some (base * (match acc with Some a => a | None => 0 end) + d))
      | None => acc
      end
  | [] => acc
  end.

(** [parseInt(s)] without a radix; [None] is [NaN]. *)
Definition parseInt (s : string) : option Z :=
  let l := drop_ws (chars s) in
  let '(neg, l) :=
    match l with
    | "-"%char :: l' => (true, l')
    | "+"%char :: l' => (false, l')
    | _ => (false, l)
    end in
  let v :=
    match l with
    | "0"%char :: "x"%char :: l' => digits_value 16 hex_digit l' None
    | "0"%char :: "X"%char :: l' => digits_value 16 hex_digit l' None
    | _ => digits_value 10 dec_digit l None
    end in
  match v with
  | Some n => Some (if neg : bool then - n else n)
  | None => None
  end.

(** [arr.slice(0, end)] with an [end] that may be [undefined]: without
    an end the slice runs to the end of the array. *)
Definition slice_upto {A} (e : option Z) (l : list A) : list A :=
  match e with
  | Some e => slice_to e l
  | None => l
  end.

(** [n > m] where [m] may be [undefined]: a comparison with [undefined]
    is false. *)
Definition gt_opt (n : Z) (m : option Z) : bool :=
  match m with
  | Some m => n >? m
  | None => false
  end.

(** A numeric field as it reads from a parsed JSON object: absent
    ([undefined]), [null], or a number. *)
Inductive field :=
| Absent
| Null
| Val (z : Z).

(** A number during a computation: an integer or [NaN]. *)
Inductive number :=
| Num (z : Z)
| NaN.

(** A property that may be [undefined], as a field. *)
Definition of_option (o : option Z) : field :=
  match o with Some z => Val z | None => Absent end.

(** The value of a field in arithmetic: [undefined] is [NaN], [null]
    is 0. *)
Definition toNumber (f : field) : number :=
  match f with
  | Val z => Num z
  | Null => Num 0
  | Absent => NaN
  end.

(** [x - k] *)
Definition minus (x : number) (k : Z) : number :=
  match x with Num z => Num (z - k) | NaN => NaN end.

(** [Math.max(0, x)]: [NaN] as soon as an argument is [NaN]. *)
Definition max0 (x : number) : number :=
  match x with Num z => Num (Z.max 0 z) | NaN => NaN end.

(** A computed number after [JSON.stringify] and [JSON.parse]: [NaN] is
    written as [null]. *)
Definition stored (x : number) : field :=
  match x with Num z => Val z | NaN => Null end.

(** Decimal rendering of an integer inside a template literal. *)
Definition of_Z (z : Z) : string := NilEmpty.string_of_int (Z.to_int z).

(** [`${x}`] of a number that may be [undefined]. *)
Definition of_opt_Z (o : option Z) : string :=
  match o with
  | Some z => of_Z z
  | None => "undefined"
  end.

End JS.

(* ===================================================================== *)
(** * Regular expressions, as far as the source uses them *)
(* ===================================================================== *)

(** A backtracking matcher in continuation-passing style, the way the
    language definition gives the meaning of a pattern: a matcher takes
    the rest of the input and a continuation that decides whether the
    remainder of the pattern matches what is left. *)
Module RegExp.

Inductive pattern :=
| Char (c : ascii)                         (* a literal character *)
| Class (p : ascii -> bool)                (* a character class [[...]] *)
| Seq (r1 r2 : pattern)                    (* concatenation *)
| Repeat (r : pattern) (min max : nat).    (* the greedy quantifier [{min,max}] *)

Definition matcher := list ascii -> (list ascii -> bool) -> bool.

(** [r{lo,hi}]: try one more iteration first (greedy), and fall back to
    the continuation once the minimum has been reached. *)
Fixpoint repeat_matcher (body : matcher) (lo hi : nat) : matcher :=
  fun input k =>
    match hi with
    | O => match lo with O => k input | S _ => false end
    | S hi' =>
        body input (fun rest => repeat_matcher body (Nat.pred lo) hi' rest k)
        || match lo with O => k input | S _ => false end
    end.

Fixpoint compile (r : pattern) : matcher :=
  match r with
  | Char c => fun input k =>
      match input with
      | x :: rest => Ascii.eqb x c && k rest
      | [] => false
      end
  | Class p => fun input k =>
      match input with
      | x :: rest => p x && k rest
      | [] => false
      end
  | Seq r1 r2 => fun input k =>
      compile r1 input (fun rest => compile r2 rest k)
  | Repeat r lo hi => repeat_matcher (compile r) lo hi
  end.

Definition at_end (rest : list ascii) : bool :=
  match rest with [] => true | _ :: _ => false end.

(** [/^r$/.test(s)] (no flags): the match starts at the first code unit
    and must use up the whole string. *)
Definition test_whole (r : pattern) (s : string) : bool :=
  compile r (JS.chars s) at_end.

(** [/^r/.test(s)] *)
Definition test_prefix (r : pattern) (s : string) : bool :=
  compile r (JS.chars s) (fun _ => true).

(** The literal [s] as a pattern followed by [r]. *)
Definition literal_then (s : string) (r : pattern) : pattern :=
  fold_right (fun c acc => Seq (Char c) acc) r (JS.chars s).

End RegExp.

(* ===================================================================== *)
(** * Data shared by the two revisions of the execution console *)
(* ===================================================================== *)

(** The counters object [{ total, sent, failed, progress }]. *)
Record Stats := mkStats {
  st_total : Z;
  st_sent : Z;
  st_failed : Z;
  st_progress : Z
}.

(** What the clock gives at the moment a handler runs:
    [Date.now()] and [new Date().toLocaleTimeString('en-US', ...)]. *)
Record Clock := mkClock {
  now : Z;
  timeString : string
}.

(** One line of the terminal: [{ id, timestamp, message, type }].
    [message] is [None] when the caller passed [undefined]. *)
Record LogEntry := mkLogEntry {
  log_id : Z;
  log_timestamp : string;
  log_message : option string;
  log_type : string
}.

(** A parsed telemetry frame [data = JSON.parse(event.data)]; a field
    that is absent from the frame reads as [undefined] ([None]). *)
Record Frame := mkFrame {
  data_type : string;
  data_message : option string;
  data_log_type : option string;
  data_stats : option Stats
}.

(** [{ NAME, MOBILE }] *)
Record Voter := mkVoter {
  NAME : string;
  MOBILE : string
}.

(** The [File] picked in a file input: its [name], its [size] in bytes
    and the text that [file.text()] resolves to. *)
Record File := mkFile {
  file_name : string;
  file_size : Z;
  file_text : string
}.

(** The updater passed to [setLogs] by [addLog]:
    [prev => [...prev.slice(-50), entry]]. *)
Definition pushLog (entry : LogEntry) (prev : list LogEntry) : list LogEntry :=
  JS.slice_last 50 prev ++ [entry].

(** The default value of [addLog]'s second parameter, [type = 'info']. *)
Definition type_or_info (t : option string) : string :=
  match t with Some s => s | None => "info" end.

(* ===================================================================== *)
(** * Dashboard.jsx *)
(* ===================================================================== *)

Module DashboardJsx.

Inductive Request :=
| ExtractPdf (file : File)             (* POST /api/extract-pdf *)
| UploadExcel (file : File).           (* POST /api/upload-excel *)

(** The [data] member of a successful extraction reply. *)
Record PdfData := mkPdfData {
  pdf_voters : list Voter;
  total_count : Z;
  with_mobile : Z;
  pdf_log : list string
}.

(** The outcome of [fetch] and [res.json()]: an exception with its
    [e.message], or a body of the shape the backend documents. *)
Inductive PdfReply :=
| PdfThrows (message : string)
| PdfBody (success : bool) (data : PdfData) (detail : option string).

Inductive ExcelReply :=
| ExcelThrows (message : string)
| ExcelBody (success : bool) (voters : list Voter) (detail : option string).

(** The [useState] cells of [Dashboard] that the handlers below read or
    write, and the requests sent so far ([sent], oldest first). [stats]
    is [None] after [setStats(undefined)]. *)
Record State := mkState {
  connected : bool;
  isRunning : bool;
  logs : list LogEntry;
  stats : option Stats;
  extractedVoters : list Voter;
  isExtracting : bool;
  sent : list Request
}.

Definition initial : State :=
  {| connected := false; isRunning := false; logs := [];
     stats := Some (mkStats 0 0 0 0); extractedVoters := [];
     isExtracting := false; sent := [] |}.

Definition setConnected (b : bool) (s : State) : State :=
  mkState b (isRunning s) (logs s) (stats s) (extractedVoters s)
    (isExtracting s) (sent s).
Definition setIsRunning (b : bool) (s : State) : State :=
  mkState (connected s) b (logs s) (stats s) (extractedVoters s)
    (isExtracting s) (sent s).
Definition setLogs (f : list LogEntry -> list LogEntry) (s : State) : State :=
  mkState (connected s) (isRunning s) (f (logs s)) (stats s) (extractedVoters s)
    (isExtracting s) (sent s).
Definition setStats (v : option Stats) (s : State) : State :=
  mkState (connected s) (isRunning s) (logs s) v (extractedVoters s)
    (isExtracting s) (sent s).
Definition setExtractedVoters (v : list Voter) (s : State) : State :=
  mkState (connected s) (isRunning s) (logs s) (stats s) v
    (isExtracting s) (sent s).
Definition setIsExtracting (b : bool) (s : State) : State :=
  mkState (connected s) (isRunning s) (logs s) (stats s) (extractedVoters s)
    b (sent s).
Definition fetch (r : Request) (s : State) : State :=
  mkState (connected s) (isRunning s) (logs s) (stats s) (extractedVoters s)
    (isExtracting s) (sent s ++ [r]).

(** [addLog(message, type = 'info')] *)
Definition addLog (clk : Clock) (message : option string) (type : option string)
    (s : State) : State :=
  let timestamp := timeString clk in
  setLogs (pushLog {| log_id := now clk; log_timestamp := timestamp;
                      log_message := message;
                      log_type := type_or_info type |}) s.

(** [ws.onopen] *)
Definition onopen (clk : Clock) (s : State) : State :=
  addLog clk (Some "WebSocket connected - receiving live updates") (Some "success")
    (setConnected true s).

(** [ws.onmessage] *)
Definition onmessage (clk : Clock) (data : Frame) (s : State) : State :=
  if String.eqb (data_type data) "log" then
    let s := addLog clk (data_message data) (data_log_type data) s in
    match data_stats data with
    | Some v => setStats (Some v) s
    | None => s
    end
  else if String.eqb (data_type data) "stats" then
    setStats (data_stats data) s
  else if String.eqb (data_type data) "complete" then
    addLog clk (Some "Campaign completed!") (Some "success") (setIsRunning false s)
  else if String.eqb (data_type data) "error" then
    addLog clk (data_message data) (Some "error") s
  else if String.eqb (data_type data) "qr_waiting" then
    addLog clk (Some "Check browser - Scan WhatsApp QR code") (Some "warning") s
  else if String.eqb (data_type data) "whatsapp_ready" then
    addLog clk (Some "WhatsApp connected!") (Some "success") s
  else s.

(** [ws.onclose] *)
Definition onclose (clk : Clock) (s : State) : State :=
  addLog clk (Some "WebSocket disconnected") (Some "warning")
    (setConnected false s).

(** Frames are handled one at a time, in the order the socket delivers
    them; each frame is handled at its own clock reading. *)
Definition deliver (frames : list (Clock * Frame)) (s : State) : State :=
  fold_left (fun s cf => onmessage (fst cf) (snd cf) s) frames s.

(** [`${x}`] of a possibly [undefined] string. *)
Definition show (x : option string) : string :=
  match x with Some s => s | None => "undefined" end.

(** [lines.forEach(l => addLog(l, 'info'))]; the [k]-th call of [addLog]
    in a handler reads the clock [clk k]. *)
Fixpoint addLogs (clk : nat -> Clock) (k : nat) (lines : list string)
    (s : State) : State :=
  match lines with
  | [] => s
  | l :: rest => addLogs clk (S k) rest (addLog (clk k) (Some l) (Some "info") s)
  end.

(** The success branch shared by the two PDF paths. *)
Definition extracted (clk : nat -> Clock) (k : nat) (data : PdfData)
    (s : State) : State :=
  let s := setExtractedVoters (pdf_voters data) s in
  let s := addLog (clk k)
             (Some ("Extracted " ++ JS.of_Z (total_count data) ++ " voters ("
                    ++ JS.of_Z (with_mobile data) ++ " with mobile)")%string)
             (Some "success") s in
  addLogs clk (S k) (pdf_log data) s.

(** [handleFileUpload]: the PDF upload of the console. *)
Definition handleFileUpload (clk : nat -> Clock) (file : option File)
    (reply : PdfReply) (s : State) : State :=
  match file with
  | None => s
  | Some file =>
      if negb (JS.endsWith (file_name file) ".pdf") then
        addLog (clk 0%nat) (Some "Please upload a PDF file") (Some "error") s
      else
        let s := setIsExtracting true s in
        let s := addLog (clk 0%nat)
                   (Some ("Uploading " ++ file_name file ++ "...")%string) (Some "info") s in
        let s := fetch (ExtractPdf file) s in
        let s :=
          match reply with
          | PdfBody true data _ => extracted clk 1 data s
          | PdfBody false _ detail =>
              addLog (clk 1%nat) (Some ("Extraction failed: " ++ show detail)%string)
                (Some "error") s
          | PdfThrows message =>
              addLog (clk 1%nat) (Some ("Upload error: " ++ message)%string) (Some "error") s
          end in
        setIsExtracting false s
  end.

(** ** The CSV branch of [handleQuickUpload]
    (the same text in Dashboard.jsx and in unnamed/part_001) *)

(** [parts[i].replace(/\D/g, '')] *)
Definition digitsOnly (part : string) : string :=
  JS.remove_all (fun c => negb (JS.is_digit c)) part.

(** [phone.length === 10 && /^[6-9]/.test(phone)] *)
Definition phoneOk (phone : string) : bool :=
  Nat.eqb (String.length phone) 10
  && RegExp.test_prefix (RegExp.Class (JS.in_range 54 57)) phone.

(** The loop [for (let i = 1; i < parts.length; i++)], entered with the
    fields from index [i] on; the first hit is pushed and ends the loop. *)
Fixpoint scanParts (name : string) (parts : list string) (voters : list Voter)
    : list Voter :=
  match parts with
  | [] => voters
  | part :: rest =>
      let phone := digitsOnly part in
      if phoneOk phone
      then voters ++ [ {| NAME := name; MOBILE := phone |} ]
      else scanParts name rest voters
  end.

(** [line.split(',').map(p => ...)]: each field is trimmed and loses
    every double quote. *)
Definition partsOf (line : string) : list string :=
  map (fun p => JS.remove_all (Ascii.eqb JS.DQUOTE) (JS.trim p)) (JS.split "," line).

(** The body of the [forEach] callback for one line. *)
Definition eachLine (line : string) (index : nat) (voters : list Voter)
    : list Voter :=
  if Nat.eqb index 0 then voters
  else
    let parts := partsOf line in
    if Nat.leb 2 (length parts) then
      match parts with
      | name :: rest => scanParts name rest voters
      | [] => voters
      end
    else voters.

(** [lines.forEach((line, index) => ...)] from position [index] on. *)
Fixpoint forEachLine (lines : list string) (index : nat) (voters : list Voter)
    : list Voter :=
  match lines with
  | [] => voters
  | line :: rest => forEachLine rest (S index) (eachLine line index voters)
  end.

(** [text.split('\n').filter(line => line.trim())] *)
Definition linesOf (text : string) : list string :=
  List.filter (fun line => JS.truthy (JS.trim line)) (JS.split JS.LF text).

(** The array [voters] after the loop. *)
Definition parseCSV (text : string) : list Voter :=
  forEachLine (linesOf text) 0 [].

(** [handleQuickUpload]: PDF, CSV or Excel. *)
Definition handleQuickUpload (clk : nat -> Clock) (file : option File)
    (pdf : PdfReply) (excel : ExcelReply) (s : State) : State :=
  match file with
  | None => s
  | Some file =>
      let fileName := JS.toLowerCase (file_name file) in
      if negb (JS.endsWith fileName ".xlsx") && negb (JS.endsWith fileName ".xls")
         && negb (JS.endsWith fileName ".csv") && negb (JS.endsWith fileName ".pdf")
      then
        addLog (clk 0%nat)
          (Some "Please upload a PDF, Excel (.xlsx, .xls) or CSV file")
          (Some "error") s
      else
        let s := addLog (clk 0%nat)
                   (Some ("Loading " ++ file_name file ++ "...")%string)
                   (Some "info") s in
        if JS.endsWith fileName ".pdf" then
          let s := fetch (ExtractPdf file) s in
          match pdf with
          | PdfBody true data _ => extracted clk 1 data s
          | PdfBody false _ detail =>
              addLog (clk 1%nat)
                (Some ("PDF extraction failed: " ++ show detail)%string)
                (Some "error") s
          | PdfThrows message =>
              addLog (clk 1%nat) (Some ("File error: " ++ message)%string)
                (Some "error") s
          end
        else if JS.endsWith fileName ".csv" then
          let voters := parseCSV (file_text file) in
          if Nat.ltb 0 (length voters) then
            addLog (clk 1%nat)
              (Some ("Loaded " ++ JS.of_Z (Z.of_nat (length voters))
                     ++ " voters with phone numbers from CSV")%string)
              (Some "success") (setExtractedVoters voters s)
          else
            addLog (clk 1%nat)
              (Some "No valid phone numbers found in CSV. Expected columns: NAME, PHONE")
              (Some "error") s
        else
          let s := fetch (UploadExcel file) s in
          match excel with
          | ExcelBody true voters _ =>
              addLog (clk 1%nat)
                (Some ("Loaded " ++ JS.of_Z (Z.of_nat (length voters))
                       ++ " voters from Excel")%string)
                (Some "success") (setExtractedVoters voters s)
          | ExcelBody false _ detail =>
              addLog (clk 1%nat)
                (Some ("Excel parsing failed: " ++ show detail)%string)
                (Some "error") s
          | ExcelThrows message =>
              addLog (clk 1%nat) (Some ("File error: " ++ message)%string)
                (Some "error") s
          end
  end.

End DashboardJsx.

(* ===================================================================== *)
(** * unnamed/part_001: the console with the noise filter *)
(* ===================================================================== *)

Module Part001.

Record State := mkState {
  connected : bool;
  isRunning : bool;
  logs : list LogEntry;
  stats : option Stats;
  qrCodeUrl : option Z;
  showQrModal : bool
}.

Definition initial : State :=
  {| connected := false; isRunning := false; logs := [];
     stats := Some (mkStats 0 0 0 0); qrCodeUrl := None; showQrModal := false |}.

Definition setConnected (b : bool) (s : State) : State :=
  {| connected := b; isRunning := isRunning s; logs := logs s; stats := stats s;
     qrCodeUrl := qrCodeUrl s; showQrModal := showQrModal s |}.
Definition setIsRunning (b : bool) (s : State) : State :=
  {| connected := connected s; isRunning := b; logs := logs s; stats := stats s;
     qrCodeUrl := qrCodeUrl s; showQrModal := showQrModal s |}.
Definition setLogs (f : list LogEntry -> list LogEntry) (s : State) : State :=
  {| connected := connected s; isRunning := isRunning s; logs := f (logs s);
     stats := stats s; qrCodeUrl := qrCodeUrl s; showQrModal := showQrModal s |}.
Definition setStats (v : option Stats) (s : State) : State :=
  {| connected := connected s; isRunning := isRunning s; logs := logs s; stats := v;
     qrCodeUrl := qrCodeUrl s; showQrModal := showQrModal s |}.
(** The QR image address is [`${API_BASE}/api/whatsapp/qr?t=${Date.now()}`]:
    only its time stamp varies, and that is what the cell records. *)
Definition setQrCodeUrl (v : option Z) (s : State) : State :=
  {| connected := connected s; isRunning := isRunning s; logs := logs s;
     stats := stats s; qrCodeUrl := v; showQrModal := showQrModal s |}.
Definition setShowQrModal (b : bool) (s : State) : State :=
  {| connected := connected s; isRunning := isRunning s; logs := logs s;
     stats := stats s; qrCodeUrl := qrCodeUrl s; showQrModal := b |}.

(** The filter at the head of [addLog]. *)
Definition noisy (message : string) : bool :=
  JS.includes message "<unknown>" || JS.includes message "0x"
  || JS.includes message "Stacktrace".

(** [addLog(message, type = 'info')]. Reading [message.includes] on
    [undefined] throws a [TypeError]: the result is [None] and no state
    is written. *)
Definition addLog (clk : Clock) (message : option string) (type : option string)
    (s : State) : option State :=
  match message with
  | None => None
  | Some m =>
      if noisy m then Some s
      else
        let timestamp := timeString clk in
        Some (setLogs (pushLog {| log_id := now clk; log_timestamp := timestamp;
                                  log_message := message;
                                  log_type := type_or_info type |}) s)
  end.

(** [ws.onmessage]; [None] when the handler throws. *)
Definition onmessage (clk : Clock) (data : Frame) (s : State) : option State :=
  if String.eqb (data_type data) "log" then
    match addLog clk (data_message data) (data_log_type data) s with
    | None => None
    | Some s =>
        match data_stats data with
        | Some v => Some (setStats (Some v) s)
        | None => Some s
        end
    end
  else if String.eqb (data_type data) "stats" then
    Some (setStats (data_stats data) s)
  else if String.eqb (data_type data) "complete" then
    addLog clk (Some "Campaign completed!") (Some "success") (setIsRunning false s)
  else if String.eqb (data_type data) "error" then
    addLog clk (data_message data) (Some "error") s
  else if String.eqb (data_type data) "qr_waiting" then
    addLog clk (Some "Waiting for WhatsApp QR scan...") (Some "warning") s
  else if String.eqb (data_type data) "qr_ready" then
    addLog clk (Some "QR Code ready - Scan with WhatsApp!") (Some "info")
      (setShowQrModal true (setQrCodeUrl (Some (now clk)) s))
  else if String.eqb (data_type data) "whatsapp_ready" then
    addLog clk (Some "WhatsApp connected!") (Some "success")
      (setQrCodeUrl None (setShowQrModal false s))
  else Some s.

(** A frame whose handler throws changes nothing: in every branch the
    only call that can throw is the first [addLog] on the frame's own
    [message], before any setter has run. *)
Definition handle (clk : Clock) (data : Frame) (s : State) : State :=
  match onmessage clk data s with
  | Some s' => s'
  | None => s
  end.

Definition deliver (frames : list (Clock * Frame)) (s : State) : State :=
  fold_left (fun s cf => handle (fst cf) (snd cf) s) frames s.

End Part001.

(* ===================================================================== *)
(** * config/devConfig: the developer bypass *)
(* ===================================================================== *)

(** A plan object, with the fields the handlers read. The entries of
    [PLANS] and [getDevPlan()] carry all of them; the plan that the
    landing page passes to the wizard as its [plan] prop ([defaultPlan] of
    App.jsx, the cards of the pricing section) has a [name] and a [price]
    only, so [id], [campaigns] and [maxMessages] read as [undefined]
    ([None]). [price] is the display string (['2,499']). *)
Record Plan := mkPlan {
  plan_id : option string;
  plan_name : string;
  price : string;
  campaigns : option Z;
  maxMessages : option Z
}.

Module DevConfig.

Definition DEV_EMAILS : list string :=
  ["nameisvijju001@gmail.com"; "charansaikondilla@gmail.com"].

(** [DEV_EMAILS.includes(x)] *)
Definition includes_email (x : string) : bool :=
  existsb (String.eqb x) DEV_EMAILS.

(** [isDevAccount(email)]; [!email] holds for [undefined] and for the
    empty string. *)
Definition isDevAccount (email : option string) : bool :=
  match email with
  | None => false
  | Some e => if JS.truthy e then includes_email (JS.toLowerCase e) else false
  end.

Definition getDevPlan : Plan :=
  {| plan_id := Some "dev"; plan_name := "Developer"; price := "0";
     campaigns := Some 999; maxMessages := Some 999999 |}.

End DevConfig.

(* ===================================================================== *)
(** * App.jsx: the plan handed to the wizard *)
(* ===================================================================== *)

Module App.

(** [defaultPlan], the [plan] prop of the wizard that [App] mounts:
    [{ name: 'Municipal', price: '2,499', period: '/campaign' }]. *)
Definition defaultPlan : Plan :=
  {| plan_id := None; plan_name := "Municipal"; price := "2,499";
     campaigns := None; maxMessages := None |}.

End App.

(* ===================================================================== *)
(** * unnamed/part_000: the campaign wizard (PaymentModal) *)
(* ===================================================================== *)

Module PaymentModal.

Definition PLANS : list Plan :=
  [ {| plan_id := Some "ward"; plan_name := "Ward"; price := "999";
       campaigns := Some 1; maxMessages := Some 500 |};
    {| plan_id := Some "municipal"; plan_name := "Municipal"; price := "2,499";
       campaigns := Some 3; maxMessages := Some 2000 |};
    {| plan_id := Some "assembly"; plan_name := "Assembly"; price := "4,999";
       campaigns := Some 5; maxMessages := Some 10000 |} ].

(** ** Persistent storage *)

(** The object kept under ['voteflow_user_campaigns'], as it reads after
    [JSON.parse]: a member that was [undefined] when the object was
    written is absent, a [NaN] has become [null]. [planId] and the members
    after [remaining] are absent from the default object
    [{ total: 0, remaining: 0 }]. *)
Record QuotaRecord := mkQuota {
  planId : option string;
  planName : option string;
  total : JS.field;
  remaining : JS.field;
  purchaseDate : option Z;
  quota_paymentId : option string
}.

(** The values this component serialises into [localStorage]. *)
Inductive Stored :=
| UserCampaigns (q : QuotaRecord)
| PendingCampaign (voters : list Voter) (message : string) (plan : Plan)
    (timestamp : Z)
| PaidCampaign (campaignId : option string) (paymentId : option string)
    (timestamp : Z) (isDev : bool).

Definition KEY_USER : string := "voteflow_user_campaigns".
Definition KEY_PENDING : string := "voteflow_pending_campaign".
Definition KEY_PAID : string := "voteflow_paid_campaign".

(** ** Requests and replies *)

Inductive Request :=
| ExtractPdf (file : File)
| VerifyPaymentReq (payment_id : string) (plan_id : option string)
    (amount : option Z)
| CampaignStart (voters_data : list Voter) (message_template : string)
    (plan_id : option string) (max_messages : option Z)
    (payment_id : option string).

(** What [await fetch(...)] followed by [await res.json()] gives: an
    exception (network failure, malformed body), or the parsed body. *)
Inductive ExtractReply :=
| ExtractThrows
| ExtractData (success : bool) (voters : option (list Voter))
    (detail : option string).

Inductive VerifyReply :=
| VerifyThrows
| VerifyData (verified : bool) (message : option string).

Inductive StartReply :=
| StartThrows
| StartData (success : bool) (campaign_id : option string)
    (detail : option string).

(** ** Effects visible outside the component, in order of occurrence *)

Inductive Effect :=
| Fetch (r : Request)
| ShowError (msg : string)          (* a call of [setError] *)
| WindowOpen                        (* [window.open(RAZORPAY_LINK, '_blank')] *)
| OnClose                           (* the [onClose] prop *)
| Navigate (campaignId : option string) (voters : list Voter)
    (message : string).             (* [navigate('/dashboard', ...)] *)

(** ** Component state *)

Record State := mkState {
  step : Z;
  selectedPlan : Plan;
  votersFile : option File;
  extractedVoters : list Voter;
  messageTemplate : string;
  isExtracting : bool;
  isProcessing : bool;
  error : string;
  paymentId : string
}.

(** The component together with its surroundings. *)
Record World := mkWorld {
  ui : State;
  localStorage : gmap string Stored;
  effects : list Effect
}.

Definition with_ui (f : State -> State) (w : World) : World :=
  {| ui := f (ui w); localStorage := localStorage w; effects := effects w |}.
Definition with_storage (f : gmap string Stored -> gmap string Stored)
    (w : World) : World :=
  {| ui := ui w; localStorage := f (localStorage w); effects := effects w |}.
Definition emit (e : Effect) (w : World) : World :=
  {| ui := ui w; localStorage := localStorage w; effects := effects w ++ [e] |}.

Definition set_step (v : Z) (s : State) : State :=
  mkState v (selectedPlan s) (votersFile s) (extractedVoters s)
    (messageTemplate s) (isExtracting s) (isProcessing s) (error s) (paymentId s).
Definition set_selectedPlan (v : Plan) (s : State) : State :=
  mkState (step s) v (votersFile s) (extractedVoters s)
    (messageTemplate s) (isExtracting s) (isProcessing s) (error s) (paymentId s).
Definition set_votersFile (v : option File) (s : State) : State :=
  mkState (step s) (selectedPlan s) v (extractedVoters s)
    (messageTemplate s) (isExtracting s) (isProcessing s) (error s) (paymentId s).
Definition set_extractedVoters (v : list Voter) (s : State) : State :=
  mkState (step s) (selectedPlan s) (votersFile s) v
    (messageTemplate s) (isExtracting s) (isProcessing s) (error s) (paymentId s).
Definition set_messageTemplate (v : string) (s : State) : State :=
  mkState (step s) (selectedPlan s) (votersFile s) (extractedVoters s)
    v (isExtracting s) (isProcessing s) (error s) (paymentId s).
Definition set_isExtracting (v : bool) (s : State) : State :=
  mkState (step s) (selectedPlan s) (votersFile s) (extractedVoters s)
    (messageTemplate s) v (isProcessing s) (error s) (paymentId s).
Definition set_isProcessing (v : bool) (s : State) : State :=
  mkState (step s) (selectedPlan s) (votersFile s) (extractedVoters s)
    (messageTemplate s) (isExtracting s) v (error s) (paymentId s).
Definition set_error (v : string) (s : State) : State :=
  mkState (step s) (selectedPlan s) (votersFile s) (extractedVoters s)
    (messageTemplate s) (isExtracting s) (isProcessing s) v (paymentId s).
Definition set_paymentId (v : string) (s : State) : State :=
  mkState (step s) (selectedPlan s) (votersFile s) (extractedVoters s)
    (messageTemplate s) (isExtracting s) (isProcessing s) (error s) v.

Definition setStep v := with_ui (set_step v).
Definition setSelectedPlan v := with_ui (set_selectedPlan v).
Definition setVotersFile v := with_ui (set_votersFile v).
Definition setExtractedVoters v := with_ui (set_extractedVoters v).
Definition setMessageTemplate v := with_ui (set_messageTemplate v).
Definition setIsExtracting v := with_ui (set_isExtracting v).
Definition setIsProcessing v := with_ui (set_isProcessing v).
Definition setPaymentId v := with_ui (set_paymentId v).
(** [setError(msg)] writes the error slot; the call is also recorded. *)
Definition setError (msg : string) (w : World) : World :=
  emit (ShowError msg) (with_ui (set_error msg) w).

Definition fetch (r : Request) : World -> World := emit (Fetch r).
Definition setItem (k : string) (v : Stored) : World -> World :=
  with_storage (fun m => <[k := v]> m).
Definition removeItem (k : string) : World -> World :=
  with_storage (fun m => delete k m).

(** The props and the signed-in user. *)
Record Env := mkEnv {
  initialPlan : option Plan;
  userEmail : option string
}.

Definition isDevUser (env : Env) : bool := DevConfig.isDevAccount (userEmail env).

(** The state at mount: [useState(initialPlan ? 1 : 0)] and
    [useState(isDevUser ? getDevPlan() : (initialPlan || PLANS[1]))]. *)
Definition mount (env : Env) (ls : gmap string Stored) : World :=
  {| ui := {| step := match initialPlan env with Some _ => 1 | None => 0 end;
              selectedPlan :=
                if isDevUser env then DevConfig.getDevPlan
                else match initialPlan env with
                     | Some p => p
                     | None => nth 1 PLANS DevConfig.getDevPlan
                     end;
              votersFile := None; extractedVoters := [];
              messageTemplate := EmptyString; isExtracting := false;
              isProcessing := false; error := EmptyString; paymentId := EmptyString |};
     localStorage := ls;
     effects := [] |}.

(** ** Handlers *)

(** The default template; the source holds a Telugu greeting here, and
    the handlers only ever test that a template is non-empty. *)
Definition defaultMessage : string :=
  "Namaskaram! Mee votu maa balam. Mee viluvaina votuto mammalni gelipinchandi. Dhanyavadalu".

(** [sanitizeInput] *)
Definition sanitizeInput (input : string) : string :=
  JS.replace_char "'" "&#x27;"
    (JS.replace_char JS.DQUOTE "&quot;"
       (JS.replace_char ">" "&gt;"
          (JS.replace_char "<" "&lt;" input))).

(** [handlePlanSelect] *)
Definition handlePlanSelect (plan : Plan) (w : World) : World :=
  setStep 1 (setSelectedPlan plan w).

Definition MAX_FILE_SIZE : Z := 10 * 1024 * 1024.

(** [handleFileUpload]; [file] is [e.target.files[0]]. *)
Definition handleFileUpload (file : option File) (reply : ExtractReply)
    (w : World) : World :=
  match file with
  | None => w
  | Some file =>
      if negb (JS.endsWith (JS.toLowerCase (file_name file)) ".pdf") then
        setError "Only PDF files are allowed" w
      else if file_size file >? MAX_FILE_SIZE then
        setError "File size must be less than 10MB" w
      else
        let plan := selectedPlan (ui w) in
        let w := setVotersFile (Some file) w in
        let w := setIsExtracting true w in
        let w := setError EmptyString w in
        let w := fetch (ExtractPdf file) w in
        let w :=
          match reply with
          | ExtractData true (Some all) _ =>
              let maxVoters := maxMessages plan in
              let voters := JS.slice_upto maxVoters all in
              let w :=
                if JS.gt_opt (Z.of_nat (length all)) maxVoters then
                  setError ("Plan limit: Only first " ++ JS.of_opt_Z maxVoters
                            ++ " voters loaded") w
                else w in
              setStep 2 (setExtractedVoters voters w)
          | ExtractData true None _ =>
              (* [data.data.voters] throws: the [catch] block *)
              setError "Server error. Make sure backend is running." w
          | ExtractData false _ detail =>
              setError (JS.or_else detail "Failed to extract voters") w
          | ExtractThrows =>
              setError "Server error. Make sure backend is running." w
          end in
        setIsExtracting false w
  end.

(** [handleDevStartCampaign]. The function closes over the state of the
    render in which it was created ([snap]). *)
Definition handleDevStartCampaign (snap : State) (clk : Z) (reply : StartReply)
    (w : World) : World :=
  let message := JS.or_str (messageTemplate snap) defaultMessage in
  let w := setIsProcessing true w in
  let w := setError EmptyString w in
  let w := fetch (CampaignStart (extractedVoters snap) message (Some "dev")
                    (Some 999999) None) w in
  let w :=
    match reply with
    | StartData true campaign_id _ =>
        let w := setItem KEY_PAID (PaidCampaign campaign_id None clk true) w in
        let w := emit OnClose w in
        emit (Navigate campaign_id (extractedVoters snap) message) w
    | StartData false _ detail =>
        setError (JS.or_else detail "Failed to start campaign") w
    | StartThrows =>
        setError "Failed to start campaign. Please try again." w
    end in
  setIsProcessing false w.

(** [handleProceedToPayment] *)
Definition handleProceedToPayment (env : Env) (clk : Z) (reply : StartReply)
    (w : World) : World :=
  let snap := ui w in
  let w :=
    if negb (JS.truthy (JS.trim (messageTemplate snap)))
    then setMessageTemplate defaultMessage w else w in
  if isDevUser env then handleDevStartCampaign snap clk reply w
  else setStep 3 w.

(** [handlePayment] *)
Definition handlePayment (clk : Z) (w : World) : World :=
  let s := ui w in
  let sanitizedMessage :=
    sanitizeInput (JS.or_str (messageTemplate s) defaultMessage) in
  let w := setItem KEY_PENDING
             (PendingCampaign (extractedVoters s) sanitizedMessage
                (selectedPlan s) clk) w in
  let w := emit WindowOpen w in
  setStep 4 w.

(** [/^pay_[a-zA-Z0-9]{10,30}$/] *)
Definition paymentIdPattern : RegExp.pattern :=
  RegExp.literal_then "pay_" (RegExp.Repeat (RegExp.Class JS.is_alnum) 10 30).

(** The object [{ total: 0, remaining: 0 }] that stands for a missing
    record. *)
Definition defaultUserData : QuotaRecord :=
  {| planId := None; planName := None; total := JS.Val 0; remaining := JS.Val 0;
     purchaseDate := None; quota_paymentId := None |}.

(** [JSON.parse(existingData)], as far as the members of a quota record
    go: an object of another shape has none of them, but for the
    [paymentId] of a paid-campaign record. (The members of its own that
    such an object has would be carried along by the write-back; they are
    not represented.) *)
Definition parseUserData (v : Stored) : QuotaRecord :=
  match v with
  | UserCampaigns q => q
  | PendingCampaign _ _ _ _ =>
      {| planId := None; planName := None; total := JS.Absent;
         remaining := JS.Absent; purchaseDate := None; quota_paymentId := None |}
  | PaidCampaign _ paymentId _ _ =>
      {| planId := None; planName := None; total := JS.Absent;
         remaining := JS.Absent; purchaseDate := None;
         quota_paymentId := paymentId |}
  end.

(** [a !== b] on two values that are a string or [undefined]. *)
Definition strictly_differ (a b : option string) : bool :=
  match a, b with
  | Some x, Some y => negb (String.eqb x y)
  | None, None => false
  | _, _ => true
  end.

(** [userData.planId !== selectedPlan.id] *)
Definition planId_differs (q : QuotaRecord) (plan : Plan) : bool :=
  strictly_differ (planId q) (plan_id plan).

(** The block under the comment "Update campaign count": the new value
    of [userData]. *)
Definition updateUserData (existingData : option Stored) (plan : Plan)
    (payment : string) (clk : Z) : QuotaRecord :=
  let userData :=
    match existingData with
    | Some v => parseUserData v
    | None => defaultUserData
    end in
  if planId_differs userData plan then
    {| planId := plan_id plan;
       planName := Some (plan_name plan);
       total := JS.of_option (campaigns plan);
       remaining :=
         JS.stored (JS.minus (JS.toNumber (JS.of_option (campaigns plan))) 1);
       purchaseDate := Some clk;
       quota_paymentId := Some payment |}
  else
    {| planId := planId userData;
       planName := planName userData;
       total := total userData;
       remaining :=
         JS.stored (JS.max0 (JS.minus (JS.toNumber (remaining userData)) 1));
       purchaseDate := purchaseDate userData;
       quota_paymentId := quota_paymentId userData |}.

(** [handleVerifyPayment]. The second reply is consulted only when the
    start request is sent. *)
Definition handleVerifyPayment (clk : Z) (verifyReply : VerifyReply)
    (startReply : StartReply) (w : World) : World :=
  let s := ui w in
  let plan := selectedPlan s in
  let w := setIsProcessing true w in
  let w := setError EmptyString w in
  if negb (RegExp.test_whole paymentIdPattern (paymentId s)) then
    let w := setError
      "Invalid Payment ID format. It should look like: pay_xxxxxxxxxxxxxxx" w in
    setIsProcessing false w
  else
    let w := fetch (VerifyPaymentReq (paymentId s) (plan_id plan)
                      (JS.parseInt (JS.remove_all (Ascii.eqb ",") (price plan)))) w in
    let w :=
      match verifyReply with
      | VerifyThrows =>
          setError "Failed to verify payment. Please try again." w
      | VerifyData false message =>
          let w := setError
            (JS.or_else message
               "Payment verification failed. Please check your Payment ID.") w in
          setIsProcessing false w
      | VerifyData true _ =>
          let message := JS.or_str (messageTemplate s) defaultMessage in
          let w := fetch (CampaignStart (extractedVoters s) message
                            (plan_id plan) (maxMessages plan)
                            (Some (paymentId s))) w in
          match startReply with
          | StartThrows =>
              setError "Failed to verify payment. Please try again." w
          | StartData false _ detail =>
              setError (JS.or_else detail "Failed to start campaign") w
          | StartData true campaign_id _ =>
              let w := removeItem KEY_PENDING w in
              let existingData := localStorage w !! KEY_USER in
              let userData := updateUserData existingData plan (paymentId s) clk in
              let w := setItem KEY_USER (UserCampaigns userData) w in
              let w := setItem KEY_PAID
                         (PaidCampaign campaign_id (Some (paymentId s)) clk false) w in
              let w := emit OnClose w in
              emit (Navigate campaign_id (extractedVoters s) message) w
          end
      end in
    setIsProcessing false w.

(** ** The wizard as a transition system *)

(** What the operator can do, with the clock reading and the replies of
    the backend that the handler meets. A handler runs to its end before
    the next action is taken, that is, every reply arrives before the
    operator does anything else: the intermediate renders of an [async]
    handler, between its [await]s, are not states of this system. They
    are states of [Interleaved], below, where the handlers are cut at
    their [await]s. *)
Inductive Action :=
| ClickPlan (i : nat)                       (* a plan card, [PLANS[i]] *)
| PickFile (file : option File) (reply : ExtractReply)
| ClickChangePlan                           (* [setStep(0)] *)
| TypeMessage (value : string)              (* the textarea, [maxLength=1000] *)
| ClickContinue (clk : Z) (reply : StartReply)
| ClickPay (clk : Z)
| TypePaymentId (value : string)            (* [setPaymentId(value.trim())] *)
| ClickVerify (clk : Z) (verifyReply : VerifyReply) (startReply : StartReply)
| ClickGoBack                               (* [setStep(3)] *)
| ClickClose.                               (* the close button, the overlay *)

Definition is_OnClose (e : Effect) : bool :=
  match e with OnClose => true | _ => false end.
Definition is_Navigate (e : Effect) : bool :=
  match e with Navigate _ _ _ => true | _ => false end.
Definition is_Fetch (e : Effect) : bool :=
  match e with Fetch _ => true | _ => false end.

(** The parent unmounts the modal once [onClose] has been called. *)
Definition closed (w : World) : bool := existsb is_OnClose (effects w).
(** Control has passed to the console: [navigate('/dashboard', ...)]. *)
Definition launched (w : World) : bool := existsb is_Navigate (effects w).

(** The control behind an action is rendered ([step === k]) and not
    disabled. *)
Definition enabled (a : Action) (w : World) : bool :=
  let s := ui w in
  negb (closed w) &&
  match a with
  | ClickPlan i => (step s =? 0) && Nat.ltb i (length PLANS)
  | PickFile _ _ => (step s =? 1) && negb (isExtracting s)
  | ClickChangePlan => step s =? 1
  | TypeMessage value => (step s =? 2) && Nat.leb (String.length value) 1000
  | ClickContinue _ _ => step s =? 2
  | ClickPay _ => step s =? 3
  | TypePaymentId _ => step s =? 4
  | ClickVerify _ _ _ =>
      (step s =? 4)
      && negb (isProcessing s || negb (JS.truthy (paymentId s))
               || Nat.ltb (String.length (paymentId s)) 10)
  | ClickGoBack => step s =? 4
  | ClickClose => true
  end.

Definition perform (env : Env) (a : Action) (w : World) : World :=
  match a with
  | ClickPlan i =>
      match nth_error PLANS i with
      | Some plan => handlePlanSelect plan w
      | None => w
      end
  | PickFile file reply => handleFileUpload file reply w
  | ClickChangePlan => setStep 0 w
  | TypeMessage value => setMessageTemplate value w
  | ClickContinue clk reply => handleProceedToPayment env clk reply w
  | ClickPay clk => handlePayment clk w
  | TypePaymentId value => setPaymentId (JS.trim value) w
  | ClickVerify clk verifyReply startReply =>
      handleVerifyPayment clk verifyReply startReply w
  | ClickGoBack => setStep 3 w
  | ClickClose => emit OnClose w
  end.

(** The worlds visited by a sequence of actions, each enabled when it is
    taken; [None] when some action is not available. *)
Fixpoint run (env : Env) (acts : list Action) (w : World) : option (list World) :=
  match acts with
  | [] => Some []
  | a :: rest =>
      if enabled a w then
        let w' := perform env a w in
        match run env rest w' with
        | Some ws => Some (w' :: ws)
        | None => None
        end
      else None
  end.

(** The states of the wizard. *)
Inductive WizardState :=
| PlanSelection | Ingestion | Composition | PaymentPending
| PaymentVerification | Launched | Cancelled.

Definition wizardState (w : World) : option WizardState :=
  if launched w then Some Launched
  else if closed w then Some Cancelled
  else if step (ui w) =? 0 then Some PlanSelection
  else if step (ui w) =? 1 then Some Ingestion
  else if step (ui w) =? 2 then Some Composition
  else if step (ui w) =? 3 then Some PaymentPending
  else if step (ui w) =? 4 then Some PaymentVerification
  else None.

End PaymentModal.

(* ===================================================================== *)
(** * unnamed/part_000: the wizard between the [await]s *)
(* ===================================================================== *)

(** [handleFileUpload], [handleDevStartCampaign] and [handleVerifyPayment]
    are [async]: each runs up to a [fetch], returns to the event loop, and
    goes on when the reply is there. In between the component renders and
    the operator can use whatever control is offered. Here every handler
    is cut at its [await]s ([await fetch(...)] and the [await res.json()]
    after it count as one), and the handlers that wait are part of the
    state. A handler that goes on reads the cells of the render in which
    it was created ([snap]), and the storage as it is by then. *)
Module Interleaved.

Import PaymentModal.

(** A handler waiting for a reply. *)
Inductive Suspended :=
| AwaitExtract (snap : State)      (* [handleFileUpload], /api/extract-pdf *)
| AwaitDevStart (snap : State)     (* [handleDevStartCampaign], /api/campaign/start *)
| AwaitVerify (snap : State)       (* [handleVerifyPayment], /api/verify-payment *)
| AwaitStart (snap : State).       (* [handleVerifyPayment], /api/campaign/start *)

Inductive Reply :=
| Extracted (r : ExtractReply)
| Verified (r : VerifyReply)
| Started (r : StartReply).

Record Session := mkSession {
  world : World;
  suspended : list Suspended       (* oldest first *)
}.

Definition start (w : World) : Session := {| world := w; suspended := [] |}.

Definition on_world (f : World -> World) (s : Session) : Session :=
  {| world := f (world s); suspended := suspended s |}.
Definition suspend (p : Suspended) (s : Session) : Session :=
  {| world := world s; suspended := suspended s ++ [p] |}.

(** The controls of the modal. [Pay] reads the clock. *)
Inductive Control :=
| PlanCard (i : nat)
| FileInput (file : option File)
| ChangePlan
| Textarea (value : string)
| Continue
| Pay (clk : Z)
| PaymentIdInput (value : string)
| Verify
| GoBack
| Close.

Inductive Event :=
| Press (c : Control)
| Settle (i : nat) (clk : Z) (reply : Reply).   (* the [i]-th waiting handler goes on *)

(** The control is rendered ([step === k]) and not disabled. The upload
    button is [disabled={isExtracting}] and the verify button
    [disabled={isProcessing || !paymentId || paymentId.length < 10}]; the
    Continue button has no [disabled] attribute. *)
Definition available (c : Control) (w : World) : bool :=
  let s := ui w in
  negb (closed w) &&
  match c with
  | PlanCard i => (step s =? 0) && Nat.ltb i (length PLANS)
  | FileInput _ => (step s =? 1) && negb (isExtracting s)
  | ChangePlan => step s =? 1
  | Textarea value => (step s =? 2) && Nat.leb (String.length value) 1000
  | Continue => step s =? 2
  | Pay _ => step s =? 3
  | PaymentIdInput _ => step s =? 4
  | Verify =>
      (step s =? 4)
      && negb (isProcessing s || negb (JS.truthy (paymentId s))
               || Nat.ltb (String.length (paymentId s)) 10)
  | GoBack => step s =? 4
  | Close => true
  end.

(** [handleFileUpload] up to [await fetch(...)]. *)
Definition handleFileUpload_begin (file : option File) (s : Session) : Session :=
  match file with
  | None => s
  | Some file =>
      if negb (JS.endsWith (JS.toLowerCase (file_name file)) ".pdf") then
        on_world (setError "Only PDF files are allowed") s
      else if file_size file >? MAX_FILE_SIZE then
        on_world (setError "File size must be less than 10MB") s
      else
        let snap := ui (world s) in
        let s := on_world (setVotersFile (Some file)) s in
        let s := on_world (setIsExtracting true) s in
        let s := on_world (setError EmptyString) s in
        let s := on_world (fetch (ExtractPdf file)) s in
        suspend (AwaitExtract snap) s
  end.

(** [handleFileUpload] from the reply on. *)
Definition handleFileUpload_resume (snap : State) (reply : ExtractReply)
    (w : World) : World :=
  let plan := selectedPlan snap in
  let w :=
    match reply with
    | ExtractData true (Some all) _ =>
        let maxVoters := maxMessages plan in
        let voters := JS.slice_upto maxVoters all in
        let w :=
          if JS.gt_opt (Z.of_nat (length all)) maxVoters then
            setError ("Plan limit: Only first " ++ JS.of_opt_Z maxVoters
                      ++ " voters loaded") w
          else w in
        setStep 2 (setExtractedVoters voters w)
    | ExtractData true None _ =>
        setError "Server error. Make sure backend is running." w
    | ExtractData false _ detail =>
        setError (JS.or_else detail "Failed to extract voters") w
    | ExtractThrows =>
        setError "Server error. Make sure backend is running." w
    end in
  setIsExtracting false w.

(** [handleDevStartCampaign] up to [await fetch(...)]. *)
Definition handleDevStartCampaign_begin (snap : State) (s : Session) : Session :=
  let message := JS.or_str (messageTemplate snap) defaultMessage in
  let s := on_world (setIsProcessing true) s in
  let s := on_world (setError EmptyString) s in
  let s := on_world (fetch (CampaignStart (extractedVoters snap) message
                              (Some "dev") (Some 999999) None)) s in
  suspend (AwaitDevStart snap) s.

(** [handleDevStartCampaign] from the reply on. *)
Definition handleDevStartCampaign_resume (snap : State) (clk : Z)
    (reply : StartReply) (w : World) : World :=
  let message := JS.or_str (messageTemplate snap) defaultMessage in
  let w :=
    match reply with
    | StartData true campaign_id _ =>
        let w := setItem KEY_PAID (PaidCampaign campaign_id None clk true) w in
        let w := emit OnClose w in
        emit (Navigate campaign_id (extractedVoters snap) message) w
    | StartData false _ detail =>
        setError (JS.or_else detail "Failed to start campaign") w
    | StartThrows =>
        setError "Failed to start campaign. Please try again." w
    end in
  setIsProcessing false w.

(** [handleProceedToPayment], and the first part of
    [handleDevStartCampaign] for a bypass account. *)
Definition handleProceedToPayment_begin (env : Env) (s : Session) : Session :=
  let snap := ui (world s) in
  let s :=
    if negb (JS.truthy (JS.trim (messageTemplate snap)))
    then on_world (setMessageTemplate defaultMessage) s else s in
  if isDevUser env then handleDevStartCampaign_begin snap s
  else on_world (setStep 3) s.

(** [handleVerifyPayment] up to the first [await fetch(...)]. *)
Definition handleVerifyPayment_begin (s : Session) : Session :=
  let snap := ui (world s) in
  let plan := selectedPlan snap in
  let s := on_world (setIsProcessing true) s in
  let s := on_world (setError EmptyString) s in
  if negb (RegExp.test_whole paymentIdPattern (paymentId snap)) then
    let s := on_world (setError
      "Invalid Payment ID format. It should look like: pay_xxxxxxxxxxxxxxx") s in
    on_world (setIsProcessing false) s
  else
    let s := on_world
      (fetch (VerifyPaymentReq (paymentId snap) (plan_id plan)
                (JS.parseInt (JS.remove_all (Ascii.eqb ",") (price plan))))) s in
    suspend (AwaitVerify snap) s.

(** [handleVerifyPayment] from the verification reply to its end or to
    the second [await fetch(...)]. *)
Definition handleVerifyPayment_verified (snap : State) (reply : VerifyReply)
    (w : World) : World * option Suspended :=
  let plan := selectedPlan snap in
  match reply with
  | VerifyThrows =>
      let w := setError "Failed to verify payment. Please try again." w in
      (setIsProcessing false w, None)
  | VerifyData false message =>
      let w := setError
        (JS.or_else message
           "Payment verification failed. Please check your Payment ID.") w in
      let w := setIsProcessing false w in
      (setIsProcessing false w, None)
  | VerifyData true _ =>
      let message := JS.or_str (messageTemplate snap) defaultMessage in
      let w := fetch (CampaignStart (extractedVoters snap) message
                        (plan_id plan) (maxMessages plan)
                        (Some (paymentId snap))) w in
      (w, Some (AwaitStart snap))
  end.

(** [handleVerifyPayment] from the reply to the start request on. *)
Definition handleVerifyPayment_started (snap : State) (clk : Z)
    (reply : StartReply) (w : World) : World :=
  let plan := selectedPlan snap in
  let message := JS.or_str (messageTemplate snap) defaultMessage in
  let w :=
    match reply with
    | StartThrows =>
        setError "Failed to verify payment. Please try again." w
    | StartData false _ detail =>
        setError (JS.or_else detail "Failed to start campaign") w
    | StartData true campaign_id _ =>
        let w := removeItem KEY_PENDING w in
        let existingData := localStorage w !! KEY_USER in
        let userData := updateUserData existingData plan (paymentId snap) clk in
        let w := setItem KEY_USER (UserCampaigns userData) w in
        let w := setItem KEY_PAID
                   (PaidCampaign campaign_id (Some (paymentId snap)) clk false) w in
        let w := emit OnClose w in
        emit (Navigate campaign_id (extractedVoters snap) message) w
    end in
  setIsProcessing false w.

Definition press (env : Env) (c : Control) (s : Session) : Session :=
  match c with
  | PlanCard i =>
      match nth_error PLANS i with
      | Some plan => on_world (handlePlanSelect plan) s
      | None => s
      end
  | FileInput file => handleFileUpload_begin file s
  | ChangePlan => on_world (setStep 0) s
  | Textarea value => on_world (setMessageTemplate value) s
  | Continue => handleProceedToPayment_begin env s
  | Pay clk => on_world (handlePayment clk) s
  | PaymentIdInput value => on_world (setPaymentId (JS.trim value)) s
  | Verify => handleVerifyPayment_begin s
  | GoBack => on_world (setStep 3) s
  | Close => on_world (emit OnClose) s
  end.

(** A waiting handler goes on with the reply to its request; [None] when
    the reply is not one to that request. *)
Definition settle (p : Suspended) (clk : Z) (reply : Reply) (w : World)
    : option (World * option Suspended) :=
  match p, reply with
  | AwaitExtract snap, Extracted r => Some (handleFileUpload_resume snap r w, None)
  | AwaitDevStart snap, Started r =>
      Some (handleDevStartCampaign_resume snap clk r w, None)
  | AwaitVerify snap, Verified r => Some (handleVerifyPayment_verified snap r w)
  | AwaitStart snap, Started r =>
      Some (handleVerifyPayment_started snap clk r w, None)
  | _, _ => None
  end.

Fixpoint remove_nth {A} (i : nat) (l : list A) : list A :=
  match l, i with
  | [], _ => []
  | _ :: rest, O => rest
  | x :: rest, S j => x :: remove_nth j rest
  end.

Definition waiting_next (next : option Suspended) : list Suspended :=
  match next with
  | Some p => [p]
  | None => []
  end.

(** One event; [None] when the control is not available or no handler
    waits for that reply. A closed modal offers no control, but the
    handlers that wait still go on when their replies come: what they
    write to the storage and their calls of [onClose] and [navigate]
    happen all the same, and their setters write cells that no render
    reads any more. *)
Definition advance (env : Env) (e : Event) (s : Session) : option Session :=
  match e with
  | Press c =>
      if available c (world s) then Some (press env c s) else None
  | Settle i clk reply =>
      match nth_error (suspended s) i with
      | Some p =>
          match settle p clk reply (world s) with
          | Some (w, next) =>
              Some {| world := w;
                      suspended := remove_nth i (suspended s) ++ waiting_next next |}
          | None => None
          end
      | None => None
      end
  end.

Fixpoint run (env : Env) (events : list Event) (s : Session)
    : option (list Session) :=
  match events with
  | [] => Some []
  | e :: rest =>
      match advance env e s with
      | Some s' =>
          match run env rest s' with
          | Some ss => Some (s' :: ss)
          | None => None
          end
      | None => None
      end
  end.

(** ** The actions of [PaymentModal.run] as events *)




(** The handlers of [handleVerifyPayment] that wait. *)
Definition paying (p : Suspended) : bool :=
  match p with
  | AwaitVerify _ | AwaitStart _ => true
  | _ => false
  end.

Definition bypassing (p : Suspended) : bool :=
  match p with
  | AwaitDevStart _ => true
  | _ => false
  end.

End Interleaved.

(* ===================================================================== *)
(** * Vocabulary of the statements *)
(* ===================================================================== *)

Import PaymentModal.

(** Pushing entries one after the other onto a log. *)
Definition pushAll (entries : list LogEntry) (prev : list LogEntry) : list LogEntry :=
  fold_left (fun l e => pushLog e l) entries prev.

(** Frames of type [log] numbered from 1, as a campaign sends them. *)
Definition logFrame (i : nat) : Frame :=
  {| data_type := "log";
     data_message := Some (JS.of_Z (Z.of_nat i));
     data_log_type := None;
     data_stats := None |}.

Definition logEntryOf (clk : nat -> Clock) (i : nat) : LogEntry :=
  {| log_id := now (clk i); log_timestamp := timeString (clk i);
     log_message := Some (JS.of_Z (Z.of_nat i)); log_type := "info" |}.

Definition sequentialLogs (clk : nat -> Clock) (n : nat) : list (Clock * Frame) :=
  map (fun i => (clk i, logFrame i)) (seq 1 n).

Definition completeFrame : Frame :=
  {| data_type := "complete"; data_message := None;
     data_log_type := None; data_stats := None |}.

Definition errorFrame (message : string) : Frame :=
  {| data_type := "error"; data_message := Some message;
     data_log_type := None; data_stats := None |}.

Definition clock0 : Clock := {| now := 0; timeString := "00:00:00" |}.

(** A campaign in flight on an open socket. *)
Definition DashboardJsx_running : DashboardJsx.State :=
  DashboardJsx.setIsRunning true
    (DashboardJsx.setConnected true DashboardJsx.initial).
Definition Part001_running : Part001.State :=
  Part001.setIsRunning true (Part001.setConnected true Part001.initial).

Definition statsFrame (sent total : Z) : Frame :=
  {| data_type := "stats"; data_message := None; data_log_type := None;
     data_stats := Some {| st_total := total; st_sent := sent;
                           st_failed := 0; st_progress := 100 * sent / total |} |}.

Definition logFrameA : Frame :=
  {| data_type := "log"; data_message := Some "A";
     data_log_type := Some "info"; data_stats := None |}.

Definition counters (sent total : Z) : Stats :=
  {| st_total := total; st_sent := sent; st_failed := 0;
     st_progress := 100 * sent / total |}.

(** The shape of a payment reference in the words of the specification:
    the fixed prefix, then 10 to 30 alphanumeric characters. *)
Definition paymentReferenceShape (s : string) : Prop :=
  exists rest : string,
    s = ("pay_" ++ rest)%string
    /\ (10 <= String.length rest <= 30)%nat
    /\ Forall (fun c => JS.is_alnum c = true) (JS.chars rest).

Definition INVALID_FORMAT : string :=
  "Invalid Payment ID format. It should look like: pay_xxxxxxxxxxxxxxx".

Definition verified (r : VerifyReply) : bool :=
  match r with VerifyData true _ => true | _ => false end.
Definition started (r : StartReply) : bool :=
  match r with StartData true _ _ => true | _ => false end.

(** The draft used in the examples: the Municipal plan at the
    verification step, with a stored record for the same plan. *)
Definition municipal : Plan := nth 1 PLANS DevConfig.getDevPlan.

Definition storedQuota (plan : string) (left : Z) : QuotaRecord :=
  {| planId := Some plan; planName := Some "Municipal"; total := JS.Val 3;
     remaining := JS.Val left; purchaseDate := Some 1700000000000;
     quota_paymentId := Some "pay_FIRSTpurchase01" |}.

Definition verifying (reference : string) (left : Z) : World :=
  {| ui := {| step := 4; selectedPlan := municipal; votersFile := None;
              extractedVoters := [ {| NAME := "Asha"; MOBILE := "9876543210" |} ];
              messageTemplate := "Vote for us"; isExtracting := false;
              isProcessing := false; error := EmptyString;
              paymentId := reference |};
     localStorage := {[ KEY_USER := UserCampaigns (storedQuota "municipal" left) ]};
     effects := [] |}.

(** The notice of [handleFileUpload] when the plan limit cuts the list. *)
Definition planLimitNotice (maxVoters : Z) : string :=
  "Plan limit: Only first " ++ JS.of_Z maxVoters ++ " voters loaded".

(** A scanned roll of eleven megabytes, above the ceiling of the wizard. *)
Definition bigPdf : File :=
  {| file_name := "voters.pdf"; file_size := 11 * 1024 * 1024;
     file_text := EmptyString |}.

Definition smallPdf : File :=
  {| file_name := "Ward12.PDF"; file_size := 204800; file_text := EmptyString |}.

(** The wizard at the ingestion step with the Ward plan (500 messages). *)
Definition ingesting : World :=
  {| ui := {| step := 1; selectedPlan := nth 0 PLANS DevConfig.getDevPlan;
              votersFile := None; extractedVoters := [];
              messageTemplate := EmptyString; isExtracting := false;
              isProcessing := false; error := EmptyString;
              paymentId := EmptyString |};
     localStorage := ∅;
     effects := [] |}.

(** [n] extracted contacts. *)
Definition contacts (n : nat) : list Voter :=
  map (fun i => {| NAME := JS.of_Z (Z.of_nat i); MOBILE := "9876543210" |}) (seq 1 n).

(** The local shape of a mobile number, in the words of the
    specification: exactly ten digits, the first of them 6, 7, 8 or 9. *)
Definition mobileNumberShape (digits : string) : bool :=
  Nat.eqb (String.length digits) 10
  && forallb JS.is_digit (JS.chars digits)
  && match JS.chars digits with
     | d :: _ => JS.in_range 54 57 d
     | [] => false
     end.

(** A field normalises to a mobile number when its digits have that shape. *)
Definition normalisesToMobile (field : string) : bool :=
  mobileNumberShape (DashboardJsx.digitsOnly field).

(** The contact of one line given as its fields: field 0 is the name, the
    first of the other fields that normalises to a mobile number gives the
    number, and a line without such a field gives nothing. *)
Definition lineContact (fields : list string) : list Voter :=
  match fields with
  | name :: others =>
      match List.find normalisesToMobile others with
      | Some field => [ {| NAME := name; MOBILE := DashboardJsx.digitsOnly field |} ]
      | None => []
      end
  | [] => []
  end.

(** The contacts of a text as the specification words them: every line
    but the first, split on commas. *)
Definition claimedContacts (text : string) : list Voter :=
  flat_map (fun line => lineContact (JS.split "," line))
    (List.tl (JS.split JS.LF text)).

Definition lines2 (a b : string) : string := (a ++ String JS.LF b)%string.

(** A developer account and an ordinary operator. *)
Definition devEnv : Env :=
  {| initialPlan := None; userEmail := Some "NameIsVijju001@gmail.com" |}.
Definition operatorEnv : Env :=
  {| initialPlan := None; userEmail := Some "operator@example.org" |}.

(** An ordinary operator who opens the wizard from the page: [App] hands
    it [defaultPlan]. *)
Definition landingEnv : Env :=
  {| initialPlan := Some App.defaultPlan;
     userEmail := Some "operator@example.org" |}.

(** The wizard at the message step. *)
Definition composing (plan : Plan) : World :=
  {| ui := {| step := 2; selectedPlan := plan; votersFile := Some smallPdf;
              extractedVoters := contacts 3;
              messageTemplate := "Vote for us"; isExtracting := false;
              isProcessing := false; error := EmptyString;
              paymentId := EmptyString |};
     localStorage := ∅;
     effects := [ShowError EmptyString; Fetch (ExtractPdf smallPdf)] |}.

(** The start request of the bypass branch. *)
Definition devStartRequest (s : State) : Request :=
  CampaignStart (extractedVoters s)
    (JS.or_str (messageTemplate s) defaultMessage) (Some "dev") (Some 999999)
    None.

(* ===================================================================== *)
(** * Dashboard.jsx: starting, stopping and the socket *)
(* ===================================================================== *)

(** The rest of the console: the cells and handlers of [Dashboard] around
    the ones of [DashboardJsx] (whose state is the [view] here). *)
Module Console.

(** Requests other than the uploads. *)
Inductive Call :=
| Health                                   (* GET /health *)
| Start (voters_data : list Voter) (message_template : option string)
| Stop (campaign : string).                (* POST /api/campaign/<id>/stop *)

Inductive HealthReply :=
| HealthThrows
| HealthResponse (ok : bool).

Inductive StartReply :=
| StartThrows (message : string)
| StartBody (success : bool) (campaign_id : option string)
    (detail : option string).

Inductive StopReply :=
| StopThrows (message : string)
| StopDone.

(** A [WebSocket] made by [connectWebSocket]: the campaign in its address
    and whether [close()] has been called on it. *)
Record Socket := mkSocket {
  sock_campaign : option string;
  sock_closeCalled : bool
}.

Record World := mkWorld {
  view : DashboardJsx.State;
  campaignId : option string;
  messageTemplate : string;
  backendStatus : string;
  sockets : list Socket;          (* every socket made so far, oldest first *)
  wsRef : option nat;             (* [wsRef.current], an index of [sockets] *)
  calls : list Call               (* oldest first *)
}.

Definition initial : World :=
  {| view := DashboardJsx.initial; campaignId := None;
     messageTemplate := EmptyString; backendStatus := "checking";
     sockets := []; wsRef := None; calls := [] |}.

Definition on_view (f : DashboardJsx.State -> DashboardJsx.State) (w : World)
    : World :=
  mkWorld (f (view w)) (campaignId w) (messageTemplate w) (backendStatus w)
    (sockets w) (wsRef w) (calls w).
Definition setCampaignId (v : option string) (w : World) : World :=
  mkWorld (view w) v (messageTemplate w) (backendStatus w)
    (sockets w) (wsRef w) (calls w).
Definition setMessageTemplate (v : string) (w : World) : World :=
  mkWorld (view w) (campaignId w) v (backendStatus w)
    (sockets w) (wsRef w) (calls w).
Definition setBackendStatus (v : string) (w : World) : World :=
  mkWorld (view w) (campaignId w) (messageTemplate w) v
    (sockets w) (wsRef w) (calls w).
Definition call (c : Call) (w : World) : World :=
  mkWorld (view w) (campaignId w) (messageTemplate w) (backendStatus w)
    (sockets w) (wsRef w) (calls w ++ [c]).

Definition addLog (clk : Clock) (message : string) (type : string) : World -> World :=
  on_view (DashboardJsx.addLog clk (Some message) (Some type)).
Definition setIsRunning (b : bool) : World -> World :=
  on_view (DashboardJsx.setIsRunning b).

Definition closeSocket (s : Socket) : Socket :=
  {| sock_campaign := sock_campaign s; sock_closeCalled := true |}.

(** [connectWebSocket(campId)]: close the socket in [wsRef] if there is
    one, make a new one and keep it in [wsRef]. *)
Definition connectWebSocket (campId : option string) (w : World) : World :=
  let old :=
    match wsRef w with
    | Some i => alter closeSocket i (sockets w)
    | None => sockets w
    end in
  mkWorld (view w) (campaignId w) (messageTemplate w) (backendStatus w)
    (old ++ [ {| sock_campaign := campId; sock_closeCalled := false |} ])
    (Some (length old)) (calls w).

(** [checkBackendHealth] *)
Definition checkBackendHealth (clk : Clock) (reply : HealthReply) (w : World)
    : World :=
  let w := call Health w in
  match reply with
  | HealthResponse true =>
      addLog clk "Backend server connected" "success"
        (setBackendStatus "online" w)
  | HealthResponse false => w
  | HealthThrows =>
      addLog clk "Backend server offline. Run: cd backend && python main.py"
        "error" (setBackendStatus "offline" w)
  end.

(** [!campaignId] *)
Definition noCampaign (c : option string) : bool :=
  match c with
  | Some s => negb (JS.truthy s)
  | None => true
  end.

(** [startCampaign]; the [k]-th call of [addLog] reads the clock [clk k]. *)
Definition startCampaign (clk : nat -> Clock) (reply : StartReply) (w : World)
    : World :=
  let voters := DashboardJsx.extractedVoters (view w) in
  if Nat.eqb (length voters) 0 then
    addLog (clk 0%nat) "No voters loaded. Upload a PDF first." "warning" w
  else
    let template := messageTemplate w in
    let w := addLog (clk 0%nat) "Starting campaign..." "system" w in
    let w := setIsRunning true w in
    let w := call (Start voters
                     (if JS.truthy template then Some template else None)) w in
    match reply with
    | StartBody true campaign_id _ =>
        let w := setCampaignId campaign_id w in
        let w := connectWebSocket campaign_id w in
        addLog (clk 1%nat)
          ("Campaign " ++ DashboardJsx.show campaign_id ++ " started") "success" w
    | StartBody false _ detail =>
        setIsRunning false
          (addLog (clk 1%nat) ("Failed to start: " ++ DashboardJsx.show detail)
             "error" w)
    | StartThrows message =>
        setIsRunning false
          (addLog (clk 1%nat) ("Start error: " ++ message) "error" w)
    end.

(** [stopCampaign] *)
Definition stopCampaign (clk : Clock) (reply : StopReply) (w : World) : World :=
  if noCampaign (campaignId w) then w
  else
    let w := call (Stop (DashboardJsx.show (campaignId w))) w in
    match reply with
    | StopDone =>
        setIsRunning false (addLog clk "Campaign stopped" "warning" w)
    | StopThrows message =>
        addLog clk ("Stop error: " ++ message) "error" w
    end.

(** What can happen to the mounted console. The socket events come from
    the runtime; nothing is assumed about the order in which it sends
    them beyond that they belong to a socket that has been made. *)
Inductive Action :=
| ClickMain (clk : nat -> Clock) (startReply : StartReply) (stopReply : StopReply)
| PickPdf (clk : nat -> Clock) (file : option File) (reply : DashboardJsx.PdfReply)
| PickQuick (clk : nat -> Clock) (file : option File)
    (pdf : DashboardJsx.PdfReply) (excel : DashboardJsx.ExcelReply)
| TypeTemplate (value : string)
| SocketOpen (i : nat) (clk : Clock)
| SocketMessage (i : nat) (clk : Clock) (data : Frame)
| SocketClose (i : nat) (clk : Clock).

(** The main button is [disabled={backendStatus !== 'online'}], the PDF
    button [disabled={isExtracting}]. *)
Definition enabled (a : Action) (w : World) : bool :=
  match a with
  | ClickMain _ _ _ => String.eqb (backendStatus w) "online"
  | PickPdf _ _ _ => negb (DashboardJsx.isExtracting (view w))
  | PickQuick _ _ _ _ => true
  | TypeTemplate _ => true
  | SocketOpen i _ | SocketMessage i _ _ | SocketClose i _ =>
      Nat.ltb i (length (sockets w))
  end.

(** The main button: [onClick={isRunning ? stopCampaign : startCampaign}]. *)
Definition perform (a : Action) (w : World) : World :=
  match a with
  | ClickMain clk startReply stopReply =>
      if DashboardJsx.isRunning (view w)
      then stopCampaign (clk 0%nat) stopReply w
      else startCampaign clk startReply w
  | PickPdf clk file reply =>
      on_view (DashboardJsx.handleFileUpload clk file reply) w
  | PickQuick clk file pdf excel =>
      on_view (DashboardJsx.handleQuickUpload clk file pdf excel) w
  | TypeTemplate value => setMessageTemplate value w
  | SocketOpen _ clk => on_view (DashboardJsx.onopen clk) w
  | SocketMessage _ clk data => on_view (DashboardJsx.onmessage clk data) w
  | SocketClose _ clk => on_view (DashboardJsx.onclose clk) w
  end.

Fixpoint run (acts : list Action) (w : World) : option (list World) :=
  match acts with
  | [] => Some []
  | a :: rest =>
      if enabled a w then
        let w' := perform a w in
        match run rest w' with
        | Some ws => Some (w' :: ws)
        | None => None
        end
      else None
  end.

(** The console after its mount effect, [checkBackendHealth()]. *)
Definition boot (clk : Clock) (reply : HealthReply) : World :=
  checkBackendHealth clk reply initial.

(** The sockets on which [close()] has not been called. *)
Definition liveSockets (w : World) : list Socket :=
  List.filter (fun s => negb (sock_closeCalled s)) (sockets w).

Definition is_Start (c : Call) : bool :=
  match c with Start _ _ => true | _ => false end.

End Console.

(* ===================================================================== *)
(** * Navbar.jsx: the Console link *)
(* ===================================================================== *)

Module Navbar.

Inductive Outcome :=
| Ignored            (* not signed in: the sign-in button takes over *)
| ToDashboard        (* [navigate('/dashboard')] *)
| OpenWizard.        (* [onLaunchCampaign?.()] *)

(** [handleConsoleClick]; [hasPaid] is the string under
    ['voteflow_paid_campaign'], if any. The handler also closes the mobile
    menu, which is not part of this outcome. *)
Definition handleConsoleClick (isSignedIn : bool) (userEmail : option string)
    (storage : gmap string PaymentModal.Stored) : Outcome :=
  if negb isSignedIn then Ignored
  else if DevConfig.isDevAccount userEmail then ToDashboard
  else
    match storage !! PaymentModal.KEY_PAID with
    | Some _ => ToDashboard
    | None => OpenWizard
    end.

End Navbar.

(** A successful start reply. *)
Definition startSucceeded (r : Console.StartReply) : bool :=
  match r with Console.StartBody true _ _ => true | _ => false end.

Definition startedCampaign (r : Console.StartReply) : option string :=
  match r with Console.StartBody _ c _ => c | Console.StartThrows _ => None end.

(** The console with [n] voters loaded and the backend online. *)
Definition readyConsole (n : nat) : Console.World :=
  Console.on_view (DashboardJsx.setExtractedVoters (contacts n))
    (Console.boot clock0 (Console.HealthResponse true)).

Definition tick (k : nat) : Clock :=
  {| now := 1700000000000 + Z.of_nat k; timeString := "12:00:00" |}.

(** The sockets are closed in the order they were made: all but the last
    have had [close()] called, and [wsRef] holds the last. *)
Definition socketsInOrder (w : Console.World) : Prop :=
  match Console.wsRef w with
  | None => Console.sockets w = []
  | Some i =>
      exists olds cur,
        Console.sockets w = olds ++ [cur]
        /\ i = length olds
        /\ Forall (fun s => Console.sock_closeCalled s = true) olds
  end.

(** A session of the console: a CSV with two rows is loaded, a campaign
    is started and stopped, and a second one is started. *)
Definition votersCsv : File :=
  {| file_name := "voters.csv"; file_size := 64;
     file_text := lines2 "Name,Phone"
                    (lines2 "Asha,9876543210" "Bala,9123456780") |}.

Definition consoleSession : list Console.Action :=
  [ Console.PickQuick tick (Some votersCsv) (DashboardJsx.PdfThrows "unused")
      (DashboardJsx.ExcelThrows "unused");
    Console.ClickMain tick (Console.StartBody true (Some "cmp_1") None)
      Console.StopDone;
    Console.ClickMain tick (Console.StartThrows "unused") Console.StopDone;
    Console.ClickMain tick (Console.StartBody true (Some "cmp_2") None)
      Console.StopDone ].

(** The count under the list of the console:
    [extractedVoters.filter(v => v.MOBILE && v.MOBILE !== 'N/A').length]. *)
Definition withMobile (voters : list Voter) : nat :=
  length (List.filter
            (fun v => JS.truthy (MOBILE v) && negb (String.eqb (MOBILE v) "N/A"))
            voters).

(** The kinds of file that [handleQuickUpload] tells apart, by the
    lower-cased name. *)
Definition isPdfName (file : File) : bool :=
  JS.endsWith (JS.toLowerCase (file_name file)) ".pdf".
Definition isCsvName (file : File) : bool :=
  JS.endsWith (JS.toLowerCase (file_name file)) ".csv".
Definition isExcelName (file : File) : bool :=
  JS.endsWith (JS.toLowerCase (file_name file)) ".xlsx"
  || JS.endsWith (JS.toLowerCase (file_name file)) ".xls".

Definition upperCasePdf : File :=
  {| file_name := "ROLL.PDF"; file_size := 4096; file_text := EmptyString |}.

(** A line of the terminal that the noise filter of [unnamed/part_001]
    lets through. *)
Definition quiet (e : LogEntry) : bool :=
  match log_message e with
  | Some m => negb (Part001.noisy m)
  | None => false
  end.

(** A [log] frame with a message and, possibly, counters. *)
Definition logFrameWith (message : string) (v : option Stats) : Frame :=
  {| data_type := "log"; data_message := Some message;
     data_log_type := None; data_stats := v |}.

(** The four characters that [sanitizeInput] replaces. *)
Definition isMarkup (c : ascii) : bool :=
  Ascii.eqb c "<" || Ascii.eqb c ">" || Ascii.eqb c JS.DQUOTE || Ascii.eqb c "'".

Definition noMarkup (s : string) : bool :=
  forallb (fun c => negb (isMarkup c)) (JS.chars s).

(** Any reply to the extraction request but a success with a list. *)
Definition extractionFailed (r : ExtractReply) : bool :=
  match r with
  | ExtractData true (Some _) _ => false
  | _ => true
  end.

(** The campaign id of a start reply. *)
Definition startedId (r : StartReply) : option string :=
  match r with StartData _ c _ => c | StartThrows => None end.

(** The invariant of the stored quota record: both counts are numbers,
    and what remains lies between zero and the total. *)
Definition quotaOk (q : QuotaRecord) : Prop :=
  exists r t : Z,
    remaining q = JS.Val r /\ total q = JS.Val t /\ 0 <= r <= t.

(** The stored record after [k] launches paid for plan [plan], one after
    the other. *)
Fixpoint launches (k : nat) (existing : option Stored) (plan : Plan)
    (payment : string) (clk : Z) : option Stored :=
  match k with
  | O => existing
  | S k' =>
      Some (UserCampaigns
              (updateUserData (launches k' existing plan payment clk)
                 plan payment clk))
  end.

Definition remainingOf (v : option Stored) : JS.field :=
  match v with
  | Some (UserCampaigns q) => remaining q
  | _ => JS.Val 0
  end.

(** The wizard at rest: one of the five steps is shown and no request is
    in progress. *)
Definition atRest (w : World) : Prop :=
  0 <= step (ui w) <= 4
  /\ isExtracting (ui w) = false
  /\ isProcessing (ui w) = false.

(** The number of times the wizard has handed over to the console. *)
Definition launchCount (w : World) : nat :=
  length (List.filter is_Navigate (effects w)).

(** A start request that carries a payment reference of the right shape. *)
Definition paidStart (e : Effect) : bool :=
  match e with
  | Fetch (CampaignStart _ _ _ _ (Some ref)) =>
      RegExp.test_whole paymentIdPattern ref
  | Fetch (CampaignStart _ _ _ _ None) => false
  | _ => true
  end.

(** What a bypass account may cause: no payment page, no verification
    request, and start requests only as plan [dev] without a reference. *)
Definition bypassEffect (e : Effect) : bool :=
  match e with
  | Fetch (VerifyPaymentReq _ _ _) => false
  | WindowOpen => false
  | Fetch (CampaignStart _ _ plan _ pid) =>
      match plan with Some id => String.eqb id "dev" | None => false end
      && match pid with None => true | Some _ => false end
  | _ => true
  end.

(** A session of an operator who pays, with one refused verification. *)
Definition payingSession : list Action :=
  [ ClickPlan 1;
    PickFile (Some smallPdf) (ExtractData true (Some (contacts 3)) None);
    TypeMessage "Vote for us";
    ClickContinue 1700000000000 StartThrows;
    ClickPay 1700000001000;
    TypePaymentId "pay_ABC123xyz9";
    ClickVerify 1700000002000 (VerifyData false None) StartThrows;
    ClickVerify 1700000003000 (VerifyData true None)
      (StartData true (Some "cmp_7") None) ].

(** A session of a developer. *)
Definition bypassSession : list Action :=
  [ ClickPlan 0;
    PickFile (Some smallPdf) (ExtractData true (Some (contacts 3)) None);
    ClickContinue 1700000000000 (StartData false None None);
    ClickContinue 1700000005000 (StartData true (Some "cmp_8") None) ].

(** Once the wizard has handed over it is closed, the paid-campaign
    record is in the storage, and it has handed over once. *)
Definition launchedOnce (w : World) : Prop :=
  (launched w = true ->
   closed w = true /\ is_Some (localStorage w !! KEY_PAID))
  /\ (launchCount w <= 1)%nat.

(** What holds of a session of a bypass account that started with the
    storage [ls]. *)
Definition bypassInvariant (ls : gmap string Stored) (w : World) : Prop :=
  0 <= step (ui w) <= 2
  /\ forallb bypassEffect (effects w) = true
  /\ localStorage w !! KEY_USER = ls !! KEY_USER
  /\ localStorage w !! KEY_PENDING = ls !! KEY_PENDING.

(** The payments in flight: the calls of [handleVerifyPayment] that wait
    for a reply. *)
Definition paymentsInFlight (s : Interleaved.Session) : nat :=
  length (List.filter Interleaved.paying (Interleaved.suspended s)).

(** What holds along a session of an account without the bypass, the
    handlers being interleaved with the operator: no bypass start waits,
    a launch and a payment in flight exclude each other and there is at
    most one of either, the in-progress flag is on while a payment is in
    flight, and a launch has closed the modal. *)
Definition operatorInvariant (s : Interleaved.Session) : Prop :=
  forallb (fun p => negb (Interleaved.bypassing p)) (Interleaved.suspended s)
  = true
  /\ (launchCount (Interleaved.world s) + paymentsInFlight s <= 1)%nat
  /\ (paymentsInFlight s = 1%nat ->
      isProcessing (ui (Interleaved.world s)) = true)
  /\ (launched (Interleaved.world s) = true ->
      closed (Interleaved.world s) = true).




(** The plan is changed while the extraction request is on its way. *)
Definition planChangedInFlight (file : File) (i : nat) (reply : ExtractReply)
    : list Interleaved.Event :=
  [ Interleaved.Press (Interleaved.FileInput (Some file));
    Interleaved.Press Interleaved.ChangePlan;
    Interleaved.Press (Interleaved.PlanCard i);
    Interleaved.Settle 0 0 (Interleaved.Extracted reply) ].

(** The session of [payingSession] with the handlers interleaved: the
    operator types on while the extraction runs, and closes the modal
    while the start request is on its way. *)
Definition interleavedPayingSession : list Interleaved.Event :=
  [ Interleaved.Press (Interleaved.PlanCard 1);
    Interleaved.Press (Interleaved.FileInput (Some smallPdf));
    Interleaved.Settle 0 0
      (Interleaved.Extracted (ExtractData true (Some (contacts 3)) None));
    Interleaved.Press (Interleaved.Textarea "Vote for us");
    Interleaved.Press Interleaved.Continue;
    Interleaved.Press (Interleaved.Pay 1700000001000);
    Interleaved.Press (Interleaved.PaymentIdInput "pay_ABC123xyz9");
    Interleaved.Press Interleaved.Verify;
    Interleaved.Settle 0 1700000002000
      (Interleaved.Verified (VerifyData true None));
    Interleaved.Press Interleaved.Close;
    Interleaved.Settle 0 1700000003000
      (Interleaved.Started (StartData true (Some "cmp_7") None)) ].


(* ===================================================================== *)
(** * The bounded log *)
(* ===================================================================== *)

Section SliceLast.
Context {A : Type}.
Implicit Types (l : list A) (n m : nat).

Lemma slice_last_length n l :
  length (JS.slice_last n l) = Nat.min n (length l).
Proof. unfold JS.slice_last. rewrite length_skipn. lia. Qed.

Lemma slice_last_all n l :
  (length l <= n)%nat -> JS.slice_last n l = l.
Proof.
  intros H. unfold JS.slice_last.
  replace (length l - n)%nat with 0%nat by lia. reflexivity.
Qed.

Lemma slice_last_snoc n l x :
  JS.slice_last (S n) (l ++ [x]) = JS.slice_last n l ++ [x].
Proof.
  unfold JS.slice_last. rewrite length_app, skipn_app. simpl length.
  replace (length l + 1 - S n)%nat with (length l - n)%nat by lia.
  replace (length l - n - length l)%nat with 0%nat by lia.
  reflexivity.
Qed.

Lemma slice_last_twice n m l :
  (n <= m)%nat -> JS.slice_last n (JS.slice_last m l) = JS.slice_last n l.
Proof.
  intros H. unfold JS.slice_last.
  rewrite length_skipn, skipn_skipn. f_equal. lia.
Qed.

(** The entries kept are a tail of the entries given: nothing is
    reordered, and eviction takes the oldest. *)
Lemma slice_last_suffix n l :
  exists evicted, l = evicted ++ JS.slice_last n l.
Proof.
  exists (firstn (length l - n) l). unfold JS.slice_last.
  symmetry. apply firstn_skipn.
Qed.
End SliceLast.

Lemma pushAll_snoc entries e prev :
  pushAll (entries ++ [e]) prev = pushLog e (pushAll entries prev).
Proof. unfold pushAll. rewrite fold_left_app. reflexivity. Qed.

(** After any number of pushes the log is the last 51 entries of
    everything it ever held, in insertion order. *)
Lemma pushAll_slice entries prev :
  (length prev <= 51)%nat ->
  pushAll entries prev = JS.slice_last 51 (prev ++ entries).
Proof.
  intros Hprev. induction entries as [|e entries IH] using rev_ind.
  - rewrite app_nil_r. unfold pushAll. simpl. symmetry. now apply slice_last_all.
  - rewrite pushAll_snoc, IH. unfold pushLog.
    rewrite slice_last_twice by lia.
    rewrite app_assoc. now rewrite slice_last_snoc.
Qed.

Lemma pushLog_length e prev :
  length (pushLog e prev) = S (Nat.min 50 (length prev)).
Proof.
  unfold pushLog. rewrite length_app, slice_last_length. simpl. lia.
Qed.

(** The bound that [pushLog] does keep: 51 entries. *)
Lemma pushLog_bound e prev : (length (pushLog e prev) <= 51)%nat.
Proof. rewrite pushLog_length. lia. Qed.

(** The bound is reached: a log of 50 or more entries has 51 after a push. *)
Lemma pushLog_full e prev :
  (50 <= length prev)%nat -> length (pushLog e prev) = 51%nat.
Proof. intros H. rewrite pushLog_length. lia. Qed.

Lemma DashboardJsx_deliver_logs clk (ids : list nat) s :
  DashboardJsx.logs
    (DashboardJsx.deliver (map (fun i => (clk i, logFrame i)) ids) s)
  = pushAll (map (logEntryOf clk) ids) (DashboardJsx.logs s).
Proof.
  revert s. induction ids as [|i ids IH]; intros s; [reflexivity|].
  cbn [map]. unfold DashboardJsx.deliver, pushAll in *. cbn [fold_left].
  rewrite IH. reflexivity.
Qed.

(** Every handler of the console writes the log through [addLog], so the
    log never grows beyond 51 entries. *)
Lemma DashboardJsx_addLog_bound clk m t s :
  (length (DashboardJsx.logs (DashboardJsx.addLog clk m t s)) <= 51)%nat.
Proof. apply pushLog_bound. Qed.

Lemma DashboardJsx_onmessage_bound clk data s :
  (length (DashboardJsx.logs s) <= 51)%nat ->
  (length (DashboardJsx.logs (DashboardJsx.onmessage clk data s)) <= 51)%nat.
Proof.
  intros H. unfold DashboardJsx.onmessage.
  repeat match goal with
         | |- context [if ?b then _ else _] => destruct b
         | |- context [match ?o with Some _ => _ | None => _ end] => destruct o
         end; cbn; try apply pushLog_bound; exact H.
Qed.

Lemma DashboardJsx_deliver_bound frames s :
  (length (DashboardJsx.logs s) <= 51)%nat ->
  (length (DashboardJsx.logs (DashboardJsx.deliver frames s)) <= 51)%nat.
Proof.
  revert s. induction frames as [|[c f] frames IH]; intros s H; [exact H|].
  apply IH. now apply DashboardJsx_onmessage_bound.
Qed.

Lemma Part001_addLog_bound clk m t s s' :
  Part001.addLog clk m t s = Some s' ->
  (length (Part001.logs s) <= 51)%nat ->
  (length (Part001.logs s') <= 51)%nat.
Proof.
  unfold Part001.addLog. intros E H.
  destruct m as [m|]; [|discriminate].
  destruct (Part001.noisy m); injection E as <-; [exact H|].
  apply pushLog_bound.
Qed.

Lemma Part001_handle_bound clk data s :
  (length (Part001.logs s) <= 51)%nat ->
  (length (Part001.logs (Part001.handle clk data s)) <= 51)%nat.
Proof.
  intros H. unfold Part001.handle.
  destruct (Part001.onmessage clk data s) as [s'|] eqn:E; [|exact H].
  unfold Part001.onmessage in E.
  repeat match type of E with
         | (if ?b then _ else _) = _ => destruct b
         end;
    try (injection E as <-; exact H);
    try (eapply Part001_addLog_bound; [exact E | exact H]).
  destruct (Part001.addLog clk (data_message data) (data_log_type data) s)
    as [s1|] eqn:E1; [|discriminate].
  apply Part001_addLog_bound in E1; [|exact H].
  destruct (data_stats data); injection E as <-; exact E1.
Qed.

Lemma Part001_deliver_bound frames s :
  (length (Part001.logs s) <= 51)%nat ->
  (length (Part001.logs (Part001.deliver frames s)) <= 51)%nat.
Proof.
  revert s. induction frames as [|[c f] frames IH]; intros s H; [exact H|].
  apply IH. now apply Part001_handle_bound.
Qed.

(** C1. Sixty sequential [log] frames delivered to an empty log leave 51
    entries, the frames 10 to 60 oldest first, in both revisions of the
    console: [prev.slice(-50)] keeps fifty old entries and the new one is
    appended to them. Insertion order is preserved and the oldest entries
    are the ones evicted, but the log holds one entry more than the
    capacity of 50. *)
Theorem addLog_sixty_frames_keep_51 (clk : nat -> Clock) :
  DashboardJsx.logs
    (DashboardJsx.deliver (sequentialLogs clk 60) DashboardJsx.initial)
  = map (logEntryOf clk) (seq 10 51)
  /\ Part001.logs (Part001.deliver (sequentialLogs clk 60) Part001.initial)
     = map (logEntryOf clk) (seq 10 51)
  /\ length (map (logEntryOf clk) (seq 10 51)) = 51%nat.
Proof.
  split; [|split].
  - unfold sequentialLogs. rewrite DashboardJsx_deliver_logs.
    rewrite pushAll_slice by (simpl; lia). reflexivity.
  - vm_compute. reflexivity.
  - reflexivity.
Qed.

(* ===================================================================== *)
(** * Terminal frames and the running indicator *)
(* ===================================================================== *)

(** An [error] frame leaves the running indicator on, in both revisions
    of the console. *)
Lemma error_frame_keeps_running :
  DashboardJsx.isRunning
    (DashboardJsx.onmessage clock0 (errorFrame "Campaign failed")
       DashboardJsx_running) = true
  /\ Part001.isRunning
       (Part001.handle clock0 (errorFrame "Campaign failed") Part001_running)
     = true.
Proof. split; reflexivity. Qed.

(** C2 (as the code has it). A [complete] frame switches the running
    indicator off; an [error] frame leaves the running indicator as it
    was; neither touches the state of the connection. This holds in both
    revisions of the console. What an [error] frame does is to the log
    only: [Dashboard.jsx] appends an entry of type [error] with the
    frame's message, whatever it is; [unnamed/part_001] appends it when
    the message is there and passes the noise filter, and leaves the log
    as it was when the message is missing (the handler throws) or
    noisy. *)
Theorem terminal_frames_running_flag (clk : Clock) (data : Frame)
    (s : DashboardJsx.State) (s1 : Part001.State) :
  data_type data = "complete" \/ data_type data = "error" ->
  let s' := DashboardJsx.onmessage clk data s in
  let s1' := Part001.handle clk data s1 in
  let entry := {| log_id := now clk; log_timestamp := timeString clk;
                  log_message := data_message data; log_type := "error" |} in
  DashboardJsx.connected s' = DashboardJsx.connected s
  /\ Part001.connected s1' = Part001.connected s1
  /\ DashboardJsx.isRunning s'
     = (if String.eqb (data_type data) "complete" then false
        else DashboardJsx.isRunning s)
  /\ Part001.isRunning s1'
     = (if String.eqb (data_type data) "complete" then false
        else Part001.isRunning s1)
  /\ (data_type data = "error" ->
      DashboardJsx.logs s' = pushLog entry (DashboardJsx.logs s)
      /\ Part001.logs s1'
         = match data_message data with
           | Some message =>
               if Part001.noisy message then Part001.logs s1
               else pushLog entry (Part001.logs s1)
           | None => Part001.logs s1
           end).
Proof.
  intros H s' s1' entry. subst s' s1' entry.
  unfold DashboardJsx.onmessage, Part001.handle, Part001.onmessage.
  destruct H as [H|H]; rewrite H; cbn.
  - repeat split; try reflexivity; discriminate.
  - unfold Part001.addLog.
    destruct (data_message data) as [m|]; [destruct (Part001.noisy m)|];
      repeat split; reflexivity.
Qed.

Lemma terminal_frames_running_flag_witness :
  DashboardJsx.isRunning
    (DashboardJsx.onmessage clock0 completeFrame DashboardJsx_running) = false
  /\ DashboardJsx.connected
       (DashboardJsx.onmessage clock0 completeFrame DashboardJsx_running) = true.
Proof.
  pose proof (terminal_frames_running_flag clock0 completeFrame
                DashboardJsx_running Part001_running (or_introl eq_refl)) as H.
  cbv zeta in H. destruct H as (Hc & _ & Hr & _).
  split; [exact Hr | exact Hc].
Defined.

(* ===================================================================== *)
(** * Order of application *)
(* ===================================================================== *)

(** Frames are consumed from the left, one [onmessage] per frame. *)
Lemma DashboardJsx_deliver_app fs1 fs2 s :
  DashboardJsx.deliver (fs1 ++ fs2) s
  = DashboardJsx.deliver fs2 (DashboardJsx.deliver fs1 s).
Proof. unfold DashboardJsx.deliver. apply fold_left_app. Qed.

(** Moving the [log] frame in front of the two [stats] frames is a
    different order of the same three frames, and ends in the same state
    (here the three frames are handled at one clock reading). *)
Lemma reordering_with_same_final_state :
  let original :=
    [(clock0, statsFrame 1 10); (clock0, logFrameA); (clock0, statsFrame 2 10)] in
  let reordered :=
    [(clock0, logFrameA); (clock0, statsFrame 1 10); (clock0, statsFrame 2 10)] in
  Permutation original reordered
  /\ original <> reordered
  /\ DashboardJsx.deliver reordered DashboardJsx.initial
     = DashboardJsx.deliver original DashboardJsx.initial.
Proof.
  cbv zeta. split; [|split].
  - apply perm_swap.
  - discriminate.
  - reflexivity.
Qed.

(** C8 (as the code has it). Frames are applied in the order of receipt,
    one handler run per frame; a [log] frame with embedded counters does
    the append and the replacement in that one run. Delivering
    stats(1/10), log A, stats(2/10) ends with the counters 2/10 and adds
    exactly the entry A to the log; delivering the two [stats] frames in
    the opposite order ends with the counters 1/10, a different state. *)
Theorem telemetry_applied_in_receipt_order (c1 c2 c3 : Clock)
    (s : DashboardJsx.State) :
  (forall fs1 fs2,
      DashboardJsx.deliver (fs1 ++ fs2) s
      = DashboardJsx.deliver fs2 (DashboardJsx.deliver fs1 s))
  /\ (forall c m t v,
         DashboardJsx.onmessage c
           {| data_type := "log"; data_message := m; data_log_type := t;
              data_stats := Some v |} s
         = DashboardJsx.setStats (Some v) (DashboardJsx.addLog c m t s))
  /\ (let s' := DashboardJsx.deliver
                  [(c1, statsFrame 1 10); (c2, logFrameA); (c3, statsFrame 2 10)] s in
      DashboardJsx.stats s' = Some (counters 2 10)
      /\ DashboardJsx.logs s'
         = pushLog {| log_id := now c2; log_timestamp := timeString c2;
                      log_message := Some "A"; log_type := "info" |}
             (DashboardJsx.logs s))
  /\ (let s' := DashboardJsx.deliver
                  [(c1, statsFrame 2 10); (c2, logFrameA); (c3, statsFrame 1 10)] s in
      DashboardJsx.stats s' = Some (counters 1 10)
      /\ s' <> DashboardJsx.deliver
                 [(c1, statsFrame 1 10); (c2, logFrameA); (c3, statsFrame 2 10)] s).
Proof.
  split; [|split; [|split]].
  - intros. apply DashboardJsx_deliver_app.
  - reflexivity.
  - split; reflexivity.
  - split; [reflexivity|].
    intros H. apply (f_equal DashboardJsx.stats) in H. discriminate H.
Qed.

(* ===================================================================== *)
(** * Strings and patterns *)
(* ===================================================================== *)

Lemma str_chars s : JS.str (JS.chars s) = s.
Proof. apply string_of_list_ascii_of_string. Qed.

Lemma chars_str l : JS.chars (JS.str l) = l.
Proof. apply list_ascii_of_string_of_list_ascii. Qed.

Lemma chars_append (a b : string) :
  JS.chars (a ++ b)%string = JS.chars a ++ JS.chars b.
Proof. induction a as [|c a IH]; simpl; [reflexivity|]. now rewrite IH. Qed.

Lemma chars_length s : length (JS.chars s) = String.length s.
Proof. induction s as [|c s IH]; simpl; [reflexivity|]. now rewrite IH. Qed.

Lemma chars_inj a b : JS.chars a = JS.chars b -> a = b.
Proof. intros H. rewrite <- (str_chars a), <- (str_chars b). now rewrite H. Qed.

Section RepeatClass.
Variable p : ascii -> bool.

(** [[p]{lo,hi}] against the end of the input: between [lo] and [hi]
    code units, all of them in the class. *)
Lemma repeat_class_at_end hi : forall lo input,
  RegExp.repeat_matcher (RegExp.compile (RegExp.Class p)) lo hi input RegExp.at_end
  = Nat.leb lo (length input) && Nat.leb (length input) hi && forallb p input.
Proof.
  induction hi as [|hi IH]; intros lo input.
  - destruct lo, input; cbn; rewrite ?andb_false_r; reflexivity.
  - cbn [RegExp.repeat_matcher RegExp.compile].
    destruct input as [|x rest].
    + destruct lo; reflexivity.
    + rewrite IH. cbn [length forallb].
      destruct lo as [|lo]; cbn [Nat.pred Nat.leb RegExp.at_end].
      * rewrite orb_false_r. destruct (p x); cbn; [reflexivity|].
        now rewrite andb_false_r.
      * rewrite orb_false_r.
        destruct (p x); cbn; [reflexivity|].
        now rewrite !andb_false_r.
Qed.

Lemma compile_repeat_class lo hi input :
  RegExp.compile (RegExp.Repeat (RegExp.Class p) lo hi) input RegExp.at_end
  = Nat.leb lo (length input) && Nat.leb (length input) hi && forallb p input.
Proof. apply repeat_class_at_end. Qed.
End RepeatClass.

(** A literal in front of a pattern consumes exactly its own code units. *)
Lemma literal_then_spec (lit : list ascii) r input k :
  RegExp.compile (fold_right (fun c acc => RegExp.Seq (RegExp.Char c) acc) r lit)
    input k = true
  <-> exists rest, input = lit ++ rest /\ RegExp.compile r rest k = true.
Proof.
  revert input. induction lit as [|c lit IH]; intros input; cbn.
  - split; [intros H; now exists input | intros (rest & -> & H); exact H].
  - destruct input as [|x input].
    + split; [discriminate | intros (rest & H & _); discriminate H].
    + rewrite andb_true_iff, IH. split.
      * intros (Hx & rest & -> & H). apply Ascii.eqb_eq in Hx. subst x.
        now exists rest.
      * intros (rest & Heq & H). injection Heq as -> ->.
        split; [apply Ascii.eqb_refl | now exists rest].
Qed.

Lemma paymentIdPattern_spec s :
  RegExp.test_whole PaymentModal.paymentIdPattern s = true
  <-> paymentReferenceShape s.
Proof.
  unfold RegExp.test_whole, PaymentModal.paymentIdPattern, RegExp.literal_then,
    paymentReferenceShape.
  rewrite literal_then_spec.
  split.
  - intros (rest & Hs & H). rewrite compile_repeat_class in H.
    apply andb_true_iff in H as [H Hall]. apply andb_true_iff in H as [Hlo Hhi].
    apply Nat.leb_le in Hlo, Hhi.
    exists (JS.str rest). rewrite chars_str. repeat split.
    + apply chars_inj. rewrite chars_append, chars_str. exact Hs.
    + rewrite <- chars_length, chars_str. exact Hlo.
    + rewrite <- chars_length, chars_str. exact Hhi.
    + apply List.Forall_forall. intros c Hc.
      rewrite forallb_forall in Hall. apply Hall. exact Hc.
  - intros (rest & -> & [Hlo Hhi] & Hall).
    exists (JS.chars rest). split; [apply chars_append|].
    rewrite compile_repeat_class, chars_length.
    apply andb_true_iff; split; [apply andb_true_iff; split|].
    + now apply Nat.leb_le.
    + now apply Nat.leb_le.
    + apply forallb_forall. intros c Hc.
      rewrite List.Forall_forall in Hall. apply Hall. exact Hc.
Qed.

Lemma paymentIdPattern_fails s :
  RegExp.test_whole PaymentModal.paymentIdPattern s = false
  <-> ~ paymentReferenceShape s.
Proof.
  rewrite <- paymentIdPattern_spec.
  destruct (RegExp.test_whole PaymentModal.paymentIdPattern s); split;
    congruence.
Qed.

(* ===================================================================== *)
(** * The wizard: payment verification and the quota record *)
(* ===================================================================== *)

Lemma keys_distinct :
  KEY_PENDING <> KEY_USER /\ KEY_PAID <> KEY_USER /\ KEY_PENDING <> KEY_PAID.
Proof. repeat split; discriminate. Qed.

(** A reference of the wrong shape: the handler stops before it sends
    anything. *)
Lemma handleVerifyPayment_invalid clk vr sr w :
  RegExp.test_whole paymentIdPattern (paymentId (ui w)) = false ->
  handleVerifyPayment clk vr sr w
  = {| ui := set_isProcessing false (set_error INVALID_FORMAT (ui w));
       localStorage := localStorage w;
       effects := (effects w ++ [ShowError EmptyString])
                  ++ [ShowError INVALID_FORMAT] |}.
Proof. intros H. unfold handleVerifyPayment. rewrite H. reflexivity. Qed.

(** What a run of the handler leaves under ['voteflow_user_campaigns']. *)
Lemma handleVerifyPayment_quota clk vr sr w :
  localStorage (handleVerifyPayment clk vr sr w) !! KEY_USER
  = if RegExp.test_whole paymentIdPattern (paymentId (ui w))
       && verified vr && started sr
    then Some (UserCampaigns
                 (updateUserData (localStorage w !! KEY_USER)
                    (selectedPlan (ui w)) (paymentId (ui w)) clk))
    else localStorage w !! KEY_USER.
Proof.
  unfold handleVerifyPayment.
  destruct (RegExp.test_whole paymentIdPattern (paymentId (ui w)));
    [|reflexivity].
  destruct vr as [|[|] m]; try reflexivity.
  destruct sr as [|[|] c d]; try reflexivity.
  cbn. rewrite lookup_insert_ne by discriminate.
  rewrite lookup_insert_eq.
  rewrite lookup_delete_ne by discriminate. reflexivity.
Qed.


(** [a !== b] on ids is the negation of their equality, an absent id
    being equal to an absent id only. *)
Lemma strictly_differ_spec (a b : option string) :
  strictly_differ a b = true <-> a <> b.
Proof.
  destruct a as [x|], b as [y|]; cbn; try (split; congruence).
  destruct (String.eqb_spec x y); cbn; split; congruence.
Qed.



(** C10. Running [handleVerifyPayment] writes the stored quota record
    exactly when the reference has the right shape, the verification
    reply is [verified] and the reply to the start request is a success;
    on a rejection, a failed start or an exception it is what it was.
    No other action of the wizard touches it. *)
Theorem quota_written_only_on_verified_start (env : Env) (clk : Z)
    (vr : VerifyReply) (sr : StartReply) (a : Action) (w : World) :
  localStorage (handleVerifyPayment clk vr sr w) !! KEY_USER
  = (if RegExp.test_whole paymentIdPattern (paymentId (ui w))
        && verified vr && started sr
     then Some (UserCampaigns
                  (updateUserData (localStorage w !! KEY_USER)
                     (selectedPlan (ui w)) (paymentId (ui w)) clk))
     else localStorage w !! KEY_USER)
  /\ match a with
     | ClickVerify _ _ _ => True
     | _ => localStorage (perform env a w) !! KEY_USER
            = localStorage w !! KEY_USER
     end.
Proof.
  split; [apply handleVerifyPayment_quota|].
  destruct a; try exact I; cbn [perform]; try reflexivity.
  - destruct (nth_error PLANS i); reflexivity.
  - unfold handleFileUpload.
    destruct file as [file|]; [|reflexivity].
    destruct (negb _); [reflexivity|].
    destruct (_ >? _); [reflexivity|].
    destruct reply as [|[|] [all|] detail]; try reflexivity.
    cbn. destruct (JS.gt_opt _ _); reflexivity.
  - unfold handleProceedToPayment, handleDevStartCampaign.
    destruct (negb _), (isDevUser env); try reflexivity;
      destruct reply as [|[|] ? ?]; try reflexivity;
      cbn; now rewrite lookup_insert_ne by discriminate.
  - cbn. now rewrite lookup_insert_ne by discriminate.
Qed.


(** C4. The local check [paymentIdPattern.test(paymentId)] accepts a
    reference exactly when it is the prefix [pay_] followed by 10 to 30
    alphanumeric characters: [pay_ABC123xyz9] passes, [pay_123] and
    [xyz_ABC123xyz9] do not. When the check fails the handler sends no
    request: it writes the error slot (and clears the in-progress flag)
    and leaves every other cell of the state and the storage alone. *)
Theorem payment_reference_shape_check (clk : Z) (vr : VerifyReply)
    (sr : StartReply) (w : World) :
  (RegExp.test_whole paymentIdPattern (paymentId (ui w)) = true
   <-> paymentReferenceShape (paymentId (ui w)))
  /\ (paymentReferenceShape "pay_ABC123xyz9"
      /\ ~ paymentReferenceShape "pay_123"
      /\ ~ paymentReferenceShape "xyz_ABC123xyz9")
  /\ (~ paymentReferenceShape (paymentId (ui w)) ->
      let w' := handleVerifyPayment clk vr sr w in
      ui w' = set_isProcessing false (set_error INVALID_FORMAT (ui w))
      /\ localStorage w' = localStorage w
      /\ effects w'
         = effects w ++ [ShowError EmptyString; ShowError INVALID_FORMAT]
      /\ (forall r, In (Fetch r) (effects w') -> In (Fetch r) (effects w))).
Proof.
  split; [apply paymentIdPattern_spec|]. split.
  - split; [|split].
    + apply paymentIdPattern_spec. reflexivity.
    + apply paymentIdPattern_fails. reflexivity.
    + apply paymentIdPattern_fails. reflexivity.
  - intros Hshape w'. subst w'.
    apply paymentIdPattern_fails in Hshape.
    rewrite (handleVerifyPayment_invalid clk vr sr w Hshape). cbn.
    rewrite <- app_assoc. repeat split.
    intros r Hin. apply in_app_or in Hin as [Hin|Hin]; [exact Hin|].
    cbn in Hin. destruct Hin as [Hin|[Hin|[]]]; discriminate Hin.
Qed.

Lemma payment_reference_shape_check_witness :
  ~ paymentReferenceShape "pay_123"
  /\ effects (handleVerifyPayment 0 VerifyThrows StartThrows (verifying "pay_123" 2))
     = [ShowError EmptyString; ShowError INVALID_FORMAT]
  /\ error (ui (handleVerifyPayment 0 VerifyThrows StartThrows
                  (verifying "pay_123" 2))) = INVALID_FORMAT.
Proof.
  pose proof (payment_reference_shape_check 0 VerifyThrows StartThrows
                (verifying "pay_123" 2)) as (_ & (_ & Hshort & _) & Hfail).
  split; [exact Hshort|].
  destruct (Hfail Hshort) as (Hui & _ & Heff & _).
  split; [exact Heff|]. rewrite Hui. reflexivity.
Defined.

(* ===================================================================== *)
(** * The wizard: ingestion *)
(* ===================================================================== *)

Lemma slice_to_firstn {A} (e : Z) (l : list A) :
  0 <= e -> JS.slice_to e l = firstn (Z.to_nat e) l.
Proof.
  intros He. unfold JS.slice_to.
  destruct (Z.ltb_spec e 0) as [Hneg|_]; [lia|].
  destruct (Z.le_gt_cases e (Z.of_nat (length l))) as [Hle|Hgt].
  - now rewrite Z.min_l.
  - rewrite Z.min_r by lia. rewrite Nat2Z.id.
    rewrite firstn_all. symmetry. apply firstn_all2. lia.
Qed.

Lemma slice_to_length {A} (e : Z) (l : list A) :
  0 <= e -> Z.of_nat (length (JS.slice_to e l)) = Z.min (Z.of_nat (length l)) e.
Proof.
  intros He. rewrite slice_to_firstn by exact He.
  rewrite length_firstn. lia.
Qed.

(** The upload handler of the wizard on a file that passes its checks:
    the part before the request, then the part that runs on the reply,
    which reads the plan of the render in which the file was picked. *)
Lemma handleFileUpload_parts file reply w :
  JS.endsWith (JS.toLowerCase (file_name file)) ".pdf" = true ->
  file_size file <= MAX_FILE_SIZE ->
  handleFileUpload (Some file) reply w
  = Interleaved.handleFileUpload_resume (ui w) reply
      (fetch (ExtractPdf file)
         (setError EmptyString
            (setIsExtracting true (setVotersFile (Some file) w)))).
Proof.
  intros Hext Hsize. unfold handleFileUpload. rewrite Hext. cbn [negb].
  destruct (Z.gtb_spec (file_size file) MAX_FILE_SIZE) as [Hbig|_]; [lia|].
  reflexivity.
Qed.

(** C6 (what the code does). When the reply of a successful extraction
    arrives, whatever the wizard has been through since the file was
    picked, it moves to the message step. If the plan of the render in
    which the file was picked has a [maxMessages] (the entries of [PLANS],
    the developer plan), the wizard keeps the first [maxMessages] contacts
    of the reply, so the list has length min(length of the reply,
    [maxMessages]), and raises the plan-limit notice once if the reply
    was longer. If that plan has no such field (the plan handed in by the
    page), it keeps the whole reply and raises no notice. *)
Theorem voter_list_truncated_to_plan (snap : State) (all : list Voter)
    (detail : option string) (w : World) :
  let w' := Interleaved.handleFileUpload_resume snap
              (ExtractData true (Some all) detail) w in
  step (ui w') = 2
  /\ isExtracting (ui w') = false
  /\ match maxMessages (selectedPlan snap) with
     | Some cap =>
         0 <= cap ->
         let truncated := Z.of_nat (length all) >? cap in
         extractedVoters (ui w') = firstn (Z.to_nat cap) all
         /\ Z.of_nat (length (extractedVoters (ui w')))
            = Z.min (Z.of_nat (length all)) cap
         /\ error (ui w')
            = (if truncated then planLimitNotice cap else error (ui w))
         /\ effects w'
            = effects w
              ++ (if truncated then [ShowError (planLimitNotice cap)] else [])
     | None =>
         extractedVoters (ui w') = all
         /\ error (ui w') = error (ui w)
         /\ effects w' = effects w
     end.
Proof.
  cbv zeta. unfold Interleaved.handleFileUpload_resume.
  destruct (maxMessages (selectedPlan snap)) as [cap|].
  - cbn [JS.gt_opt JS.slice_upto JS.of_opt_Z].
    fold (planLimitNotice cap).
    destruct (Z.of_nat (length all) >? cap); cbn;
      rewrite ?app_nil_r;
      (split; [reflexivity|]); (split; [reflexivity|]);
      intros Hcap;
      (split; [apply slice_to_firstn; exact Hcap|]);
      (split; [apply slice_to_length; exact Hcap|]);
      repeat split.
  - cbn. repeat split.
Qed.

(** The same roll of 2001 contacts, read by an operator who came in from
    the page and by one who picked the Municipal card inside the wizard:
    the first keeps all of them and sees no notice, the second keeps 2000
    and sees the notice. *)
Lemma voter_list_truncated_to_plan_witness :
  let reply := ExtractData true (Some (contacts 2001)) None in
  let fromPage := handleFileUpload (Some smallPdf) reply (mount landingEnv ∅) in
  let picked :=
    handleFileUpload (Some smallPdf) reply
      (handlePlanSelect municipal (mount operatorEnv ∅)) in
  (length (extractedVoters (ui fromPage)) = 2001%nat
   /\ error (ui fromPage) = EmptyString)
  /\ (length (extractedVoters (ui picked)) = 2000%nat
      /\ error (ui picked) = "Plan limit: Only first 2000 voters loaded").
Proof.
  cbv zeta.
  assert (Hext : JS.endsWith (JS.toLowerCase (file_name smallPdf)) ".pdf" = true)
    by reflexivity.
  assert (Hsize : file_size smallPdf <= MAX_FILE_SIZE) by (vm_compute; discriminate).
  rewrite (handleFileUpload_parts smallPdf
             (ExtractData true (Some (contacts 2001)) None)
             (mount landingEnv ∅) Hext Hsize).
  rewrite (handleFileUpload_parts smallPdf
             (ExtractData true (Some (contacts 2001)) None)
             (handlePlanSelect municipal (mount operatorEnv ∅)) Hext Hsize).
  split.
  - match goal with
    | |- context [Interleaved.handleFileUpload_resume ?snap _ ?w] =>
        destruct (voter_list_truncated_to_plan snap (contacts 2001) None w)
          as (_ & _ & H);
        change (maxMessages (selectedPlan snap)) with (@None Z) in H
    end.
    destruct H as (Hv & He & _).
    split; [rewrite Hv; vm_compute; reflexivity | rewrite He; reflexivity].
  - match goal with
    | |- context [Interleaved.handleFileUpload_resume ?snap _ ?w] =>
        destruct (voter_list_truncated_to_plan snap (contacts 2001) None w)
          as (_ & _ & H);
        change (maxMessages (selectedPlan snap)) with (Some 2000) in H
    end.
    destruct (H ltac:(lia)) as (Hv & _ & He & _).
    split; [rewrite Hv; vm_compute; reflexivity
           | rewrite He; vm_compute; reflexivity].
Defined.

(** The wizard refuses a name that does not end in [.pdf] (in any case of
    the letters) and a file above ten megabytes, before any request. *)
Lemma wizard_rejects_wrong_extension file reply w :
  JS.endsWith (JS.toLowerCase (file_name file)) ".pdf" = false ->
  handleFileUpload (Some file) reply w = setError "Only PDF files are allowed" w.
Proof. intros H. unfold handleFileUpload. now rewrite H. Qed.

Lemma wizard_rejects_large_file file reply w :
  JS.endsWith (JS.toLowerCase (file_name file)) ".pdf" = true ->
  file_size file > MAX_FILE_SIZE ->
  handleFileUpload (Some file) reply w
  = setError "File size must be less than 10MB" w.
Proof.
  intros H Hbig. unfold handleFileUpload. rewrite H. cbn [negb].
  destruct (Z.gtb_spec (file_size file) MAX_FILE_SIZE); [reflexivity|lia].
Qed.

(** The console refuses a name that does not end in [.pdf]. *)
Lemma console_rejects_wrong_extension clk file reply s :
  JS.endsWith (file_name file) ".pdf" = false ->
  DashboardJsx.handleFileUpload clk (Some file) reply s
  = DashboardJsx.addLog (clk 0%nat) (Some "Please upload a PDF file")
      (Some "error") s.
Proof. intros H. unfold DashboardJsx.handleFileUpload. now rewrite H. Qed.

Lemma DashboardJsx_addLogs_sent clk lines : forall k s,
  DashboardJsx.sent (DashboardJsx.addLogs clk k lines s) = DashboardJsx.sent s.
Proof.
  induction lines as [|l lines IH]; intros k s; [reflexivity|].
  cbn [DashboardJsx.addLogs]. now rewrite IH.
Qed.

(** C7 at a file of eleven megabytes: the upload handler of the console
    has no size check and sends the file to the extraction service,
    whatever the state and the reply, where the handler of the wizard
    stops with its too-large error. *)
Theorem console_sends_oversized_pdf (clk : nat -> Clock)
    (reply : DashboardJsx.PdfReply) (s : DashboardJsx.State)
    (wreply : ExtractReply) (w : World) :
  file_size bigPdf > MAX_FILE_SIZE
  /\ DashboardJsx.sent (DashboardJsx.handleFileUpload clk (Some bigPdf) reply s)
     = DashboardJsx.sent s ++ [DashboardJsx.ExtractPdf bigPdf]
  /\ effects (handleFileUpload (Some bigPdf) wreply w)
     = effects w ++ [ShowError "File size must be less than 10MB"].
Proof.
  split; [reflexivity|]. split.
  - unfold DashboardJsx.handleFileUpload.
    change (JS.endsWith (file_name bigPdf) ".pdf") with true. cbn [negb].
    destruct reply as [msg|[|] data detail]; try reflexivity.
    cbn. apply DashboardJsx_addLogs_sent.
  - rewrite wizard_rejects_large_file by reflexivity. reflexivity.
Qed.

(* ===================================================================== *)
(** * The console: delimited text *)
(* ===================================================================== *)

Lemma digitsOnly_digits field :
  forallb JS.is_digit (JS.chars (DashboardJsx.digitsOnly field)) = true.
Proof.
  unfold DashboardJsx.digitsOnly, JS.remove_all. rewrite chars_str.
  apply forallb_forall. intros c Hc. apply filter_In in Hc as [_ Hc].
  now rewrite negb_involutive in Hc.
Qed.

(** The test of the source and the shape of the specification agree on
    what [digitsOnly] returns. *)
Lemma phoneOk_digitsOnly field :
  DashboardJsx.phoneOk (DashboardJsx.digitsOnly field) = normalisesToMobile field.
Proof.
  unfold normalisesToMobile, mobileNumberShape, DashboardJsx.phoneOk,
    RegExp.test_prefix.
  rewrite digitsOnly_digits, andb_true_r. f_equal. cbn [RegExp.compile].
  destruct (JS.chars (DashboardJsx.digitsOnly field)); [reflexivity|].
  apply andb_true_r.
Qed.

Lemma scanParts_spec name parts : forall voters,
  DashboardJsx.scanParts name parts voters
  = voters ++ lineContact (name :: parts).
Proof.
  induction parts as [|part rest IH]; intros voters; cbn.
  - now rewrite app_nil_r.
  - rewrite phoneOk_digitsOnly.
    destruct (normalisesToMobile part); [reflexivity|].
    rewrite IH. reflexivity.
Qed.

Lemma eachLine_spec line index voters :
  DashboardJsx.eachLine line (S index) voters
  = voters ++ lineContact (DashboardJsx.partsOf line).
Proof.
  unfold DashboardJsx.eachLine. cbn [Nat.eqb].
  destruct (DashboardJsx.partsOf line) as [|name [|p rest]]; cbn [length Nat.leb].
  - now rewrite app_nil_r.
  - now rewrite app_nil_r.
  - apply scanParts_spec.
Qed.

Lemma forEachLine_spec lines : forall index voters,
  DashboardJsx.forEachLine lines (S index) voters
  = voters ++ flat_map (fun line => lineContact (DashboardJsx.partsOf line)) lines.
Proof.
  induction lines as [|line rest IH]; intros index voters;
    cbn [DashboardJsx.forEachLine flat_map].
  - now rewrite app_nil_r.
  - rewrite IH, eachLine_spec, <- app_assoc. reflexivity.
Qed.

(** A text whose first line is blank: the line after it is the first one
    left by the filter, it is taken for the header, and the contact that
    the specification expects from it is not produced. *)
Lemma blank_first_line_hides_next_row :
  JS.split JS.LF (lines2 EmptyString "Asha,9876543210")
  = [EmptyString; "Asha,9876543210"]
  /\ claimedContacts (lines2 EmptyString "Asha,9876543210")
     = [ {| NAME := "Asha"; MOBILE := "9876543210" |} ]
  /\ DashboardJsx.parseCSV (lines2 EmptyString "Asha,9876543210") = []
  /\ DashboardJsx.parseCSV (lines2 EmptyString "Asha,9876543210")
     <> claimedContacts (lines2 EmptyString "Asha,9876543210").
Proof. repeat split. discriminate. Qed.

(** C5 (as the code has it). Lines that are empty or blank are dropped
    first. Of the lines left, the first never produces a contact; every
    other one is split on commas, each field trimmed and stripped of double
    quotes, field 0 is the name, and the first of the other fields whose
    digits are exactly ten and begin with 6 to 9 gives the mobile number;
    a line without such a field gives nothing. After a header, the row
    [Asha,9876543210] gives Asha with 9876543210 and the row [Bala,12345]
    gives nothing. *)
Theorem parseCSV_contacts (text : string) :
  DashboardJsx.parseCSV text
  = flat_map (fun line => lineContact (DashboardJsx.partsOf line))
      (List.tl (DashboardJsx.linesOf text))
  /\ (forall first others,
         JS.split JS.LF text = first :: others ->
         DashboardJsx.parseCSV text
         = flat_map (fun line => lineContact (DashboardJsx.partsOf line))
             (let kept := List.filter (fun l => JS.truthy (JS.trim l)) others in
              if JS.truthy (JS.trim first) then kept else List.tl kept))
  /\ DashboardJsx.parseCSV (lines2 "Name,Phone" "Asha,9876543210")
     = [ {| NAME := "Asha"; MOBILE := "9876543210" |} ]
  /\ DashboardJsx.parseCSV (lines2 "Name,Phone" "Bala,12345") = [].
Proof.
  assert (Hmain : DashboardJsx.parseCSV text
                  = flat_map (fun line => lineContact (DashboardJsx.partsOf line))
                      (List.tl (DashboardJsx.linesOf text))).
  { unfold DashboardJsx.parseCSV.
    destruct (DashboardJsx.linesOf text) as [|header rest]; [reflexivity|].
    cbn [DashboardJsx.forEachLine DashboardJsx.eachLine Nat.eqb List.tl].
    now rewrite forEachLine_spec. }
  split; [exact Hmain|]. split; [|split; reflexivity].
  intros first others Hsplit. rewrite Hmain.
  unfold DashboardJsx.linesOf. rewrite Hsplit. cbn [List.filter].
  destruct (JS.truthy (JS.trim first)); reflexivity.
Qed.

Lemma parseCSV_contacts_witness :
  DashboardJsx.parseCSV (lines2 "   " "Asha,9876543210") = [].
Proof.
  destruct (parseCSV_contacts (lines2 "   " "Asha,9876543210")) as (_ & H & _).
  rewrite (H "   " ["Asha,9876543210"] eq_refl). reflexivity.
Defined.

(* ===================================================================== *)
(** * The wizard: from the message step to the launch *)
(* ===================================================================== *)

Lemma launched_emit e w :
  launched (emit e w) = launched w || is_Navigate e.
Proof.
  unfold launched, emit. cbn [effects]. rewrite existsb_app. cbn.
  now rewrite orb_false_r.
Qed.

Lemma closed_emit e w :
  closed (emit e w) = closed w || is_OnClose e.
Proof.
  unfold closed, emit. cbn [effects]. rewrite existsb_app. cbn.
  now rewrite orb_false_r.
Qed.

Lemma launched_setError msg w : launched (setError msg w) = launched w.
Proof. unfold setError. rewrite launched_emit. apply orb_false_r. Qed.

Lemma closed_setError msg w : closed (setError msg w) = closed w.
Proof. unfold setError. rewrite closed_emit. apply orb_false_r. Qed.

Lemma launched_handleFileUpload file reply w :
  launched (handleFileUpload file reply w) = launched w.
Proof.
  unfold handleFileUpload.
  destruct file as [file|]; [|reflexivity].
  destruct (negb _); [apply launched_setError|].
  destruct (_ >? _); [apply launched_setError|].
  destruct reply as [|[|] [all|] detail];
    try (destruct (JS.gt_opt _ _));
    unfold launched; cbn; rewrite ?existsb_app; cbn;
    now rewrite ?orb_false_r.
Qed.

(** For an account without the bypass, the only action that can hand
    over to the console is the verification, and it is offered at the
    verification step only. *)
Lemma launch_needs_verification env a w :
  isDevUser env = false ->
  enabled a w = true ->
  launched w = false ->
  launched (perform env a w) = true ->
  wizardState w = Some PaymentVerification.
Proof.
  intros Hdev Hen Hnot Hlaunch.
  unfold enabled in Hen. apply andb_true_iff in Hen as [Hopen Hen].
  apply negb_true_iff in Hopen.
  assert (Hsame : forall w1, effects w1 = effects w -> launched w1 = true -> False).
  { intros w1 He Hl. unfold launched in *. rewrite He in Hl. congruence. }
  destruct a; cbn [perform] in Hlaunch.
  - exfalso. eapply Hsame; [|exact Hlaunch].
    destruct (nth_error PLANS i); reflexivity.
  - rewrite launched_handleFileUpload in Hlaunch. congruence.
  - exfalso. apply (Hsame _ eq_refl Hlaunch).
  - exfalso. apply (Hsame _ eq_refl Hlaunch).
  - exfalso. unfold handleProceedToPayment in Hlaunch. rewrite Hdev in Hlaunch.
    eapply Hsame; [|exact Hlaunch]. destruct (negb _); reflexivity.
  - unfold launched in Hlaunch, Hnot.
    change (effects (handlePayment clk w)) with (effects w ++ [WindowOpen])
      in Hlaunch.
    rewrite existsb_app, Hnot in Hlaunch. discriminate Hlaunch.
  - exfalso. apply (Hsame _ eq_refl Hlaunch).
  - apply andb_true_iff in Hen as [Hstep _].
    unfold wizardState. rewrite Hnot, Hopen.
    apply Z.eqb_eq in Hstep. rewrite Hstep. reflexivity.
  - exfalso. apply (Hsame _ eq_refl Hlaunch).
  - rewrite launched_emit in Hlaunch. cbn in Hlaunch.
    rewrite orb_false_r in Hlaunch. congruence.
Qed.

Lemma last_of_cons {A} (l : list A) : forall x d,
  List.last (x :: l) d = List.last l x.
Proof.
  induction l as [|y l IH]; intros x d; [reflexivity|].
  change (List.last (x :: y :: l) d) with (List.last (y :: l) d).
  rewrite !IH. reflexivity.
Qed.

(** Any run that ends launched has been at the verification step. *)
Lemma launched_run_visits_verification env :
  isDevUser env = false ->
  forall acts w ws,
    launched w = false ->
    run env acts w = Some ws ->
    launched (List.last ws w) = true ->
    wizardState w = Some PaymentVerification
    \/ exists mid, In mid ws /\ wizardState mid = Some PaymentVerification.
Proof.
  intros Hdev. induction acts as [|a acts IH]; intros w ws Hnot Hrun Hend.
  - injection Hrun as <-. cbn in Hend. congruence.
  - cbn [run] in Hrun.
    destruct (enabled a w) eqn:Hen; [|discriminate].
    destruct (run env acts (perform env a w)) as [ws'|] eqn:Hrest; [|discriminate].
    injection Hrun as <-.
    destruct (launched (perform env a w)) eqn:Hnext.
    + left. eapply launch_needs_verification; eassumption.
    + right.
      rewrite last_of_cons in Hend.
      destruct (IH _ _ Hnext Hrest Hend) as [Hmid|(mid & Hin & Hmid)].
      * exists (perform env a w). split; [now left | exact Hmid].
      * exists mid. split; [now right | exact Hmid].
Qed.

(** A developer account whose start request is refused stays at the
    message step: neither launched nor waiting for payment. *)
Lemma bypass_with_refused_start_stays_in_composition :
  let w' := handleProceedToPayment devEnv 1700000000000
              (StartData false None (Some "WhatsApp session not linked"))
              (composing DevConfig.getDevPlan) in
  isDevUser devEnv = true
  /\ wizardState (composing DevConfig.getDevPlan) = Some Composition
  /\ wizardState w' = Some Composition
  /\ wizardState w' <> Some Launched
  /\ wizardState w' <> Some PaymentPending
  /\ In (Fetch (devStartRequest (ui (composing DevConfig.getDevPlan)))) (effects w').
Proof.
  cbv zeta. repeat split; try discriminate.
  right. right. right. left. reflexivity.
Qed.

(** An ordinary operator can get to the launch, by way of the payment
    and the verification steps. *)
Lemma operator_run_reaches_launch :
  exists ws,
    run operatorEnv
      [ ClickContinue 1700000000000 StartThrows;
        ClickPay 1700000001000;
        TypePaymentId " pay_ABC123xyz9 ";
        ClickVerify 1700000002000 (VerifyData true None)
          (StartData true (Some "cmp_7") None) ]
      (composing municipal) = Some ws
    /\ map wizardState ws
       = [Some PaymentPending; Some PaymentVerification;
          Some PaymentVerification; Some Launched].
Proof. eexists. split; reflexivity. Qed.

(** C9 (as the code has it). Confirming the message at the message step:
    for a bypass account the start request is sent at once, and the
    wizard is launched when the reply is a success and stays at the
    message step with the error shown otherwise; for any other account
    the wizard moves to the payment step without sending anything, and
    every run from there on that ends launched has passed through the
    verification step. *)
Theorem confirm_message_transitions (env : Env) (clk : Z) (reply : StartReply)
    (acts : list Action) (ws : list World) (w : World) :
  wizardState w = Some Composition ->
  let w' := handleProceedToPayment env clk reply w in
  (isDevUser env = true ->
   (exists later,
       effects w'
       = effects w ++ [ShowError EmptyString; Fetch (devStartRequest (ui w))]
         ++ later)
   /\ wizardState w'
      = (if started reply then Some Launched else Some Composition)
   /\ (started reply = false -> JS.truthy (error (ui w')) = true))
  /\ (isDevUser env = false ->
      wizardState w' = Some PaymentPending
      /\ effects w' = effects w
      /\ (run env acts w = Some ws ->
          launched (List.last ws w) = true ->
          exists mid, In mid ws /\ wizardState mid = Some PaymentVerification)).
Proof.
  intros Hstate w'. subst w'.
  assert (Hfacts : launched w = false /\ closed w = false /\ step (ui w) = 2).
  { unfold wizardState in Hstate.
    destruct (launched w); [discriminate|].
    destruct (closed w); [discriminate|].
    repeat split.
    destruct (Z.eqb_spec (step (ui w)) 0); [discriminate|].
    destruct (Z.eqb_spec (step (ui w)) 1); [discriminate|].
    destruct (Z.eqb_spec (step (ui w)) 2); [assumption|].
    destruct (Z.eqb_spec (step (ui w)) 3); [discriminate|].
    destruct (Z.eqb_spec (step (ui w)) 4); discriminate. }
  destruct Hfacts as (Hl & Hc & Hs).
  unfold launched in Hl. unfold closed in Hc.
  split.
  - intros Hdev. unfold handleProceedToPayment, handleDevStartCampaign.
    rewrite Hdev.
    destruct (negb (JS.truthy (JS.trim (messageTemplate (ui w)))));
      destruct reply as [|[|] campaign detail];
      unfold wizardState, launched, closed, devStartRequest; cbn;
      rewrite <- ?app_assoc, ?existsb_app, ?Hl, ?Hc, ?Hs; cbn;
      (split; [eexists; reflexivity|]);
      (split; [reflexivity|]);
      try discriminate; intros _;
      try reflexivity;
      unfold JS.or_else; destruct detail as [[|? ?]|]; reflexivity.
  - intros Hdev. unfold handleProceedToPayment. rewrite Hdev.
    split; [|split].
    + destruct (negb _); unfold wizardState, launched, closed; cbn;
        now rewrite Hl, Hc.
    + destruct (negb _); reflexivity.
    + intros Hrun Hend.
      destruct (launched_run_visits_verification env Hdev acts w ws Hl Hrun Hend)
        as [Hhere|Hmid]; [congruence | exact Hmid].
Qed.

Lemma confirm_message_transitions_witness :
  wizardState
    (handleProceedToPayment operatorEnv 1700000000000 StartThrows (composing municipal))
  = Some PaymentPending
  /\ wizardState
       (handleProceedToPayment devEnv 1700000000000
          (StartData true (Some "cmp_42") None) (composing DevConfig.getDevPlan))
     = Some Launched.
Proof.
  split.
  - destruct (confirm_message_transitions operatorEnv 1700000000000 StartThrows
                [] [] (composing municipal) eq_refl) as (_ & Hop).
    destruct (Hop eq_refl) as (H & _). exact H.
  - destruct (confirm_message_transitions devEnv 1700000000000
                (StartData true (Some "cmp_42") None) [] []
                (composing DevConfig.getDevPlan) eq_refl) as (Hdev & _).
    destruct (Hdev eq_refl) as (_ & H & _). exact H.
Defined.

(* ===================================================================== *)
(** * The console: starting, stopping, sockets *)
(* ===================================================================== *)

(** What [startCampaign] does, by cases: with no voters loaded it
    sends nothing, opens no socket and leaves the running flag alone; with
    voters it sends one start request (the template, or nothing when the
    template is empty), and afterwards the running flag is on exactly when
    the reply was a success, in which case the campaign id is kept and one
    new socket is made for it after [close()] on the previous one. *)
Lemma startCampaign_outcome (clk : nat -> Clock) (reply : Console.StartReply)
    (w : Console.World) :
  let voters := DashboardJsx.extractedVoters (Console.view w) in
  let loaded := negb (Nat.eqb (length voters) 0) in
  let ok := loaded && startSucceeded reply in
  let w' := Console.startCampaign clk reply w in
  Console.calls w'
  = Console.calls w
    ++ (if loaded
        then [Console.Start voters
                (if JS.truthy (Console.messageTemplate w)
                 then Some (Console.messageTemplate w) else None)]
        else [])
  /\ DashboardJsx.isRunning (Console.view w')
     = (if loaded then startSucceeded reply
        else DashboardJsx.isRunning (Console.view w))
  /\ Console.campaignId w'
     = (if ok then startedCampaign reply else Console.campaignId w)
  /\ Console.sockets w'
     = (if ok
        then match Console.wsRef w with
             | Some i => alter Console.closeSocket i (Console.sockets w)
             | None => Console.sockets w
             end
             ++ [ {| Console.sock_campaign := startedCampaign reply;
                     Console.sock_closeCalled := false |} ]
        else Console.sockets w)
  /\ DashboardJsx.extractedVoters (Console.view w') = voters.
Proof.
  cbv zeta. unfold Console.startCampaign.
  destruct (Nat.eqb (length (DashboardJsx.extractedVoters (Console.view w))) 0).
  - cbn. rewrite app_nil_r. repeat split.
  - destruct reply as [m|[|] c d]; cbn; repeat split.
Qed.

Lemma alter_last {A} (f : A -> A) (olds : list A) (cur : A) :
  alter f (length olds) (olds ++ [cur]) = olds ++ [f cur].
Proof.
  induction olds as [|x olds IH]; [reflexivity|].
  cbn. f_equal. exact IH.
Qed.

Lemma connectWebSocket_inOrder campId w :
  socketsInOrder w -> socketsInOrder (Console.connectWebSocket campId w).
Proof.
  unfold socketsInOrder, Console.connectWebSocket. cbn.
  destruct (Console.wsRef w) as [i|].
  - intros (olds & cur & Hs & -> & Hall). rewrite Hs, alter_last.
    eexists _, _. split; [reflexivity|]. split; [reflexivity|].
    apply Forall_app. split; [exact Hall|]. now constructor.
  - intros ->. exists [], {| Console.sock_campaign := campId;
                            Console.sock_closeCalled := false |}.
    repeat split. constructor.
Qed.

Lemma perform_inOrder a w :
  socketsInOrder w -> socketsInOrder (Console.perform a w).
Proof.
  intros H. destruct a; cbn [Console.perform]; try exact H.
  destruct (DashboardJsx.isRunning (Console.view w)).
  - unfold Console.stopCampaign.
    destruct (Console.noCampaign (Console.campaignId w)); [exact H|].
    destruct stopReply; exact H.
  - unfold Console.startCampaign.
    destruct (Nat.eqb _ 0); [exact H|].
    destruct startReply as [m|[|] c d]; try exact H.
    change (socketsInOrder
              (Console.connectWebSocket c
                 (Console.setCampaignId c
                    (Console.call
                       (Console.Start
                          (DashboardJsx.extractedVoters (Console.view w))
                          (if JS.truthy (Console.messageTemplate w)
                           then Some (Console.messageTemplate w) else None))
                       w)))).
    apply connectWebSocket_inOrder. exact H.
Qed.

Lemma inOrder_one_live w :
  socketsInOrder w -> (length (Console.liveSockets w) <= 1)%nat.
Proof.
  unfold socketsInOrder, Console.liveSockets.
  destruct (Console.wsRef w) as [i|].
  - intros (olds & cur & -> & _ & Hall).
    rewrite List.filter_app, length_app.
    assert (Hnone : List.filter (fun s => negb (Console.sock_closeCalled s)) olds = []).
    { induction Hall as [|x olds Hx _ IH]; [reflexivity|].
      cbn. rewrite Hx. exact IH. }
    rewrite Hnone. cbn. destruct (negb _); cbn; lia.
  - intros ->. cbn. lia.
Qed.

Lemma run_inOrder acts : forall w ws,
  socketsInOrder w ->
  Console.run acts w = Some ws ->
  Forall socketsInOrder ws.
Proof.
  induction acts as [|a acts IH]; intros w ws Hw Hrun; cbn in Hrun.
  - injection Hrun as <-. constructor.
  - destruct (Console.enabled a w); [|discriminate].
    destruct (Console.run acts (Console.perform a w)) as [ws'|] eqn:E;
      [|discriminate].
    injection Hrun as <-.
    pose proof (perform_inOrder a w Hw) as Hnext.
    constructor; [exact Hnext|]. eapply IH; eassumption.
Qed.

(** X2. However the console is used after its mount, there is at most
    one socket on which [close()] has not been called: every start that
    succeeds closes the socket of the start before it. *)
Theorem console_keeps_one_live_socket (clk : Clock) (health : Console.HealthReply)
    (acts : list Console.Action) (ws : list Console.World) (w : Console.World) :
  Console.run acts (Console.boot clk health) = Some ws ->
  In w ws ->
  (length (Console.liveSockets w) <= 1)%nat.
Proof.
  intros Hrun Hin.
  assert (Hboot : socketsInOrder (Console.boot clk health)).
  { unfold Console.boot, Console.checkBackendHealth.
    destruct health as [|[|]]; reflexivity. }
  pose proof (run_inOrder acts _ _ Hboot Hrun) as Hall.
  rewrite List.Forall_forall in Hall.
  apply inOrder_one_live. apply Hall. exact Hin.
Qed.

Lemma console_keeps_one_live_socket_witness :
  match Console.run consoleSession (Console.boot clock0 (Console.HealthResponse true)) with
  | Some ws =>
      map (fun w => length (Console.sockets w)) ws = [0; 1; 1; 2]%nat
      /\ Forall (fun w => (length (Console.liveSockets w) <= 1)%nat) ws
  | None => False
  end.
Proof.
  destruct (Console.run consoleSession
              (Console.boot clock0 (Console.HealthResponse true)))
    as [ws|] eqn:E; [|vm_compute in E; discriminate E].
  split.
  - vm_compute in E. injection E as <-. reflexivity.
  - apply List.Forall_forall. intros w Hin.
    exact (console_keeps_one_live_socket clock0 (Console.HealthResponse true)
             consoleSession ws w E Hin).
Defined.

(** What [stopCampaign] does, by cases: without a campaign id it does
    nothing at all; with one it sends one stop request, and the running
    flag goes off when the request returns and stays as it was when the
    request throws. It never calls [close()] on the socket and keeps the
    campaign id. *)
Lemma stopCampaign_outcome (clk : Clock) (reply : Console.StopReply)
    (w : Console.World) :
  let w' := Console.stopCampaign clk reply w in
  let idle := Console.noCampaign (Console.campaignId w) in
  (idle = true -> w' = w)
  /\ Console.calls w'
     = Console.calls w
       ++ (if idle then []
           else [Console.Stop (DashboardJsx.show (Console.campaignId w))])
  /\ DashboardJsx.isRunning (Console.view w')
     = (if idle then DashboardJsx.isRunning (Console.view w)
        else match reply with
             | Console.StopDone => false
             | Console.StopThrows _ => DashboardJsx.isRunning (Console.view w)
             end)
  /\ Console.sockets w' = Console.sockets w
  /\ Console.wsRef w' = Console.wsRef w
  /\ Console.campaignId w' = Console.campaignId w.
Proof.
  cbv zeta. unfold Console.stopCampaign.
  destruct (Console.noCampaign (Console.campaignId w)).
  - rewrite app_nil_r. repeat split.
  - destruct reply; cbn; repeat split; discriminate.
Qed.

Lemma stopCampaign_outcome_witness :
  Console.stopCampaign clock0 Console.StopDone
    (Console.boot clock0 (Console.HealthResponse true))
  = Console.boot clock0 (Console.HealthResponse true).
Proof.
  exact (proj1 (stopCampaign_outcome clock0 Console.StopDone
                  (Console.boot clock0 (Console.HealthResponse true))) eq_refl).
Defined.

(** X3. A start reply that reports success without a campaign id (or
    with an empty one) leaves the console running with no way to stop it:
    from then on the main button calls [stopCampaign], which returns at
    its first line, so a click changes nothing and sends nothing. *)
Theorem start_without_id_cannot_be_stopped (clk : nat -> Clock)
    (c d : option string) (w : Console.World) :
  DashboardJsx.extractedVoters (Console.view w) <> [] ->
  Console.noCampaign c = true ->
  let w1 := Console.startCampaign clk (Console.StartBody true c d) w in
  DashboardJsx.isRunning (Console.view w1) = true
  /\ forall clk' startReply stopReply,
       Console.perform (Console.ClickMain clk' startReply stopReply) w1 = w1.
Proof.
  intros Hv Hc w1. subst w1. unfold Console.startCampaign.
  destruct (DashboardJsx.extractedVoters (Console.view w)) as [|v vs] eqn:E;
    [congruence|].
  cbn [length Nat.eqb]. split; [reflexivity|].
  intros clk' startReply stopReply. cbn [Console.perform].
  cbn. unfold Console.stopCampaign. cbn. rewrite Hc. reflexivity.
Qed.

Lemma start_without_id_cannot_be_stopped_witness :
  let w1 := Console.startCampaign tick (Console.StartBody true None None)
              (readyConsole 2) in
  DashboardJsx.isRunning (Console.view w1) = true
  /\ Console.perform (Console.ClickMain tick (Console.StartThrows "unused")
                        Console.StopDone) w1 = w1.
Proof.
  cbv zeta.
  destruct (start_without_id_cannot_be_stopped tick None None (readyConsole 2)
              ltac:(discriminate) eq_refl) as (Hrun & Hclick).
  split; [exact Hrun | apply Hclick].
Defined.

(* ===================================================================== *)
(** * The console: the log under every handler *)
(* ===================================================================== *)

Lemma DashboardJsx_addLogs_bound clk lines : forall k s,
  (length (DashboardJsx.logs s) <= 51)%nat ->
  (length (DashboardJsx.logs (DashboardJsx.addLogs clk k lines s)) <= 51)%nat.
Proof.
  induction lines as [|l lines IH]; intros k s H; [exact H|].
  cbn [DashboardJsx.addLogs]. apply IH. apply pushLog_bound.
Qed.

Lemma DashboardJsx_extracted_bound clk k data s :
  (length (DashboardJsx.logs (DashboardJsx.extracted clk k data s)) <= 51)%nat.
Proof.
  unfold DashboardJsx.extracted. apply DashboardJsx_addLogs_bound.
  apply pushLog_bound.
Qed.

Lemma DashboardJsx_handleFileUpload_bound clk file reply s :
  (length (DashboardJsx.logs s) <= 51)%nat ->
  (length (DashboardJsx.logs (DashboardJsx.handleFileUpload clk file reply s))
   <= 51)%nat.
Proof.
  intros H. unfold DashboardJsx.handleFileUpload.
  destruct file as [file|]; [|exact H].
  destruct (negb _); [apply pushLog_bound|].
  destruct reply as [m|[|] data detail]; cbn [DashboardJsx.logs DashboardJsx.setIsExtracting];
    try apply pushLog_bound.
  apply DashboardJsx_extracted_bound.
Qed.

Lemma DashboardJsx_handleQuickUpload_bound clk file pdf excel s :
  (length (DashboardJsx.logs s) <= 51)%nat ->
  (length (DashboardJsx.logs (DashboardJsx.handleQuickUpload clk file pdf excel s))
   <= 51)%nat.
Proof.
  intros H. unfold DashboardJsx.handleQuickUpload.
  destruct file as [file|]; [|exact H].
  destruct (_ && _); [apply pushLog_bound|].
  destruct (JS.endsWith _ ".pdf").
  - destruct pdf as [m|[|] data detail]; try apply pushLog_bound.
    apply DashboardJsx_extracted_bound.
  - destruct (JS.endsWith _ ".csv").
    + destruct (Nat.ltb 0 _); apply pushLog_bound.
    + destruct excel as [m|[|] voters detail]; apply pushLog_bound.
Qed.

Lemma Console_perform_bound a w :
  (length (DashboardJsx.logs (Console.view w)) <= 51)%nat ->
  (length (DashboardJsx.logs (Console.view (Console.perform a w))) <= 51)%nat.
Proof.
  intros H. destruct a; cbn [Console.perform Console.on_view Console.view
                              Console.setMessageTemplate].
  - destruct (DashboardJsx.isRunning (Console.view w)).
    + unfold Console.stopCampaign.
      destruct (Console.noCampaign _); [exact H|].
      destruct stopReply; apply pushLog_bound.
    + unfold Console.startCampaign.
      destruct (Nat.eqb _ 0); [apply pushLog_bound|].
      destruct startReply as [m|[|] c d]; apply pushLog_bound.
  - now apply DashboardJsx_handleFileUpload_bound.
  - now apply DashboardJsx_handleQuickUpload_bound.
  - exact H.
  - apply pushLog_bound.
  - now apply DashboardJsx_onmessage_bound.
  - apply pushLog_bound.
Qed.

(** X4. Whatever the operator and the socket do after the mount, in any
    order and with any replies of the backend, the terminal never shows
    more than 51 lines: every handler writes the log through [addLog]. *)
Theorem console_log_stays_within_51 (clk : Clock) (health : Console.HealthReply)
    (acts : list Console.Action) (ws : list Console.World) (w : Console.World) :
  Console.run acts (Console.boot clk health) = Some ws ->
  In w ws ->
  (length (DashboardJsx.logs (Console.view w)) <= 51)%nat.
Proof.
  assert (Hboot : (length (DashboardJsx.logs
                             (Console.view (Console.boot clk health))) <= 51)%nat).
  { destruct health as [|[|]]; cbn; lia. }
  revert Hboot. generalize (Console.boot clk health) as w0.
  revert ws. induction acts as [|a acts IH]; intros ws w0 H0 Hrun Hin;
    cbn in Hrun.
  - injection Hrun as <-. destruct Hin.
  - destruct (Console.enabled a w0); [|discriminate].
    destruct (Console.run acts (Console.perform a w0)) as [ws'|] eqn:E;
      [|discriminate].
    injection Hrun as <-.
    pose proof (Console_perform_bound a w0 H0) as H1.
    destruct Hin as [<-|Hin]; [exact H1|].
    eapply IH; eassumption.
Qed.

Lemma console_log_stays_within_51_witness :
  match Console.run consoleSession (Console.boot clock0 (Console.HealthResponse true)) with
  | Some ws =>
      map (fun w => length (DashboardJsx.logs (Console.view w))) ws
      = [3; 5; 6; 8]%nat
      /\ Forall (fun w => (length (DashboardJsx.logs (Console.view w)) <= 51)%nat) ws
  | None => False
  end.
Proof.
  destruct (Console.run consoleSession
              (Console.boot clock0 (Console.HealthResponse true)))
    as [ws|] eqn:E; [|vm_compute in E; discriminate E].
  split.
  - vm_compute in E. injection E as <-. reflexivity.
  - apply List.Forall_forall. intros w Hin.
    exact (console_log_stays_within_51 clock0 (Console.HealthResponse true)
             consoleSession ws w E Hin).
Defined.

(** X5. The main button is disabled unless the health probe of the mount
    answered with an ok response, and nothing probes again: when the probe
    throws or answers with an error status, no session of the console ever
    sends a start or a stop request. *)
Theorem console_sends_nothing_without_health (clk : Clock)
    (health : Console.HealthReply) (acts : list Console.Action)
    (ws : list Console.World) (w : Console.World) :
  health <> Console.HealthResponse true ->
  Console.run acts (Console.boot clk health) = Some ws ->
  In w ws ->
  Console.calls w = [Console.Health] /\ Console.sockets w = [].
Proof.
  intros Hbad.
  assert (Hboot : Console.backendStatus (Console.boot clk health) <> "online"
                  /\ Console.calls (Console.boot clk health) = [Console.Health]
                  /\ Console.sockets (Console.boot clk health) = []).
  { destruct health as [|[|]]; cbn; repeat split; try discriminate.
    congruence. }
  revert Hboot. generalize (Console.boot clk health) as w0.
  revert ws. induction acts as [|a acts IH]; intros ws w0 H0 Hrun Hin;
    cbn in Hrun.
  - injection Hrun as <-. destruct Hin.
  - destruct (Console.enabled a w0) eqn:Hen; [|discriminate].
    destruct (Console.run acts (Console.perform a w0)) as [ws'|] eqn:E;
      [|discriminate].
    injection Hrun as <-.
    assert (H1 : Console.backendStatus (Console.perform a w0) <> "online"
                 /\ Console.calls (Console.perform a w0) = [Console.Health]
                 /\ Console.sockets (Console.perform a w0) = []).
    { destruct H0 as (Hs & Hc & Hk).
      destruct a; cbn [Console.perform]; try (repeat split; assumption).
      cbn in Hen. apply String.eqb_eq in Hen. congruence. }
    destruct Hin as [<-|Hin]; [tauto|].
    eapply IH; eassumption.
Qed.

Lemma console_sends_nothing_without_health_witness :
  Console.run [Console.ClickMain tick (Console.StartBody true (Some "cmp_1") None)
                 Console.StopDone]
    (Console.boot clock0 (Console.HealthResponse false)) = None
  /\ match Console.run [Console.TypeTemplate "Vote for us";
                        Console.PickQuick tick (Some votersCsv)
                          (DashboardJsx.PdfThrows "unused")
                          (DashboardJsx.ExcelThrows "unused")]
             (Console.boot clock0 Console.HealthThrows) with
     | Some ws => Forall (fun w => Console.calls w = [Console.Health]) ws
     | None => False
     end.
Proof.
  split; [reflexivity|].
  destruct (Console.run _ (Console.boot clock0 Console.HealthThrows))
    as [ws|] eqn:E; [|vm_compute in E; discriminate E].
  apply List.Forall_forall. intros w Hin.
  refine (proj1 (console_sends_nothing_without_health clock0 Console.HealthThrows
                   _ ws w _ E Hin)).
  discriminate.
Defined.

(* ===================================================================== *)
(** * The console: uploads *)
(* ===================================================================== *)

Lemma DashboardJsx_addLogs_voters clk lines : forall k s,
  DashboardJsx.extractedVoters (DashboardJsx.addLogs clk k lines s)
  = DashboardJsx.extractedVoters s.
Proof.
  induction lines as [|l lines IH]; intros k s; [reflexivity|].
  cbn [DashboardJsx.addLogs]. now rewrite IH.
Qed.

Lemma DashboardJsx_extracted_sent clk k data s :
  DashboardJsx.sent (DashboardJsx.extracted clk k data s) = DashboardJsx.sent s.
Proof. unfold DashboardJsx.extracted. now rewrite DashboardJsx_addLogs_sent. Qed.

Lemma DashboardJsx_extracted_voters clk k data s :
  DashboardJsx.extractedVoters (DashboardJsx.extracted clk k data s)
  = DashboardJsx.pdf_voters data.
Proof. unfold DashboardJsx.extracted. now rewrite DashboardJsx_addLogs_voters. Qed.

(** X6. [handleQuickUpload] goes by the lower-cased file name, [.pdf]
    first, then [.csv], then the spreadsheets: it sends one request to the
    extraction service for a PDF, one to the spreadsheet service for
    [.xlsx] and [.xls], and none for a CSV or for any other name. The
    voters already loaded are replaced only by a successful reply or by a
    CSV that yields at least one contact; a refusal, an exception or a CSV
    without any valid number leaves them as they were. *)
Theorem quickUpload_dispatch (clk : nat -> Clock) (file : File)
    (pdf : DashboardJsx.PdfReply) (excel : DashboardJsx.ExcelReply)
    (s : DashboardJsx.State) :
  let s' := DashboardJsx.handleQuickUpload clk (Some file) pdf excel s in
  DashboardJsx.sent s'
  = DashboardJsx.sent s
    ++ (if isPdfName file then [DashboardJsx.ExtractPdf file]
        else if isCsvName file then []
        else if isExcelName file then [DashboardJsx.UploadExcel file]
        else [])
  /\ DashboardJsx.extractedVoters s'
     = (if isPdfName file then
          match pdf with
          | DashboardJsx.PdfBody true data _ => DashboardJsx.pdf_voters data
          | _ => DashboardJsx.extractedVoters s
          end
        else if isCsvName file then
          match DashboardJsx.parseCSV (file_text file) with
          | [] => DashboardJsx.extractedVoters s
          | voters => voters
          end
        else if isExcelName file then
          match excel with
          | DashboardJsx.ExcelBody true voters _ => voters
          | _ => DashboardJsx.extractedVoters s
          end
        else DashboardJsx.extractedVoters s).
Proof.
  cbv zeta. unfold DashboardJsx.handleQuickUpload, isPdfName, isCsvName, isExcelName.
  destruct (JS.endsWith (JS.toLowerCase (file_name file)) ".pdf") eqn:Hpdf;
    destruct (JS.endsWith (JS.toLowerCase (file_name file)) ".csv") eqn:Hcsv;
    destruct (JS.endsWith (JS.toLowerCase (file_name file)) ".xlsx") eqn:Hx;
    destruct (JS.endsWith (JS.toLowerCase (file_name file)) ".xls") eqn:Hxls;
    cbn [negb andb orb];
    rewrite ?app_nil_r;
    try (split; reflexivity);
    try (destruct pdf as [m|[|] data detail];
         rewrite ?DashboardJsx_extracted_sent, ?DashboardJsx_extracted_voters;
         split; reflexivity);
    try (destruct (DashboardJsx.parseCSV (file_text file)); cbn;
         rewrite ?app_nil_r; split; reflexivity);
    try (destruct excel as [m|[|] voters detail]; cbn; split; reflexivity).
Qed.

(** X7. The two PDF uploads of the console disagree on a name whose
    extension is not in lower case: [handleFileUpload] compares the name
    as it is and refuses the file without sending it, [handleQuickUpload]
    lower-cases the name first and sends the same file to the extraction
    service. *)
Theorem console_uploads_disagree_on_case (clk : nat -> Clock) (file : File)
    (reply : DashboardJsx.PdfReply) (excel : DashboardJsx.ExcelReply)
    (s : DashboardJsx.State) :
  JS.endsWith (file_name file) ".pdf" = false ->
  JS.endsWith (JS.toLowerCase (file_name file)) ".pdf" = true ->
  DashboardJsx.sent (DashboardJsx.handleFileUpload clk (Some file) reply s)
  = DashboardJsx.sent s
  /\ DashboardJsx.extractedVoters
       (DashboardJsx.handleFileUpload clk (Some file) reply s)
     = DashboardJsx.extractedVoters s
  /\ DashboardJsx.sent (DashboardJsx.handleQuickUpload clk (Some file) reply excel s)
     = DashboardJsx.sent s ++ [DashboardJsx.ExtractPdf file].
Proof.
  intros Hraw Hlow. split; [|split].
  - rewrite console_rejects_wrong_extension by exact Hraw. reflexivity.
  - rewrite console_rejects_wrong_extension by exact Hraw. reflexivity.
  - unfold DashboardJsx.handleQuickUpload. rewrite Hlow.
    rewrite !andb_false_r. cbn [negb andb].
    destruct reply as [m|[|] data detail];
      rewrite ?DashboardJsx_extracted_sent; reflexivity.
Qed.

Lemma console_uploads_disagree_on_case_witness :
  DashboardJsx.sent
    (DashboardJsx.handleFileUpload tick (Some upperCasePdf)
       (DashboardJsx.PdfThrows "unused") DashboardJsx.initial) = []
  /\ DashboardJsx.sent
       (DashboardJsx.handleQuickUpload tick (Some upperCasePdf)
          (DashboardJsx.PdfThrows "unused") (DashboardJsx.ExcelThrows "unused")
          DashboardJsx.initial)
     = [DashboardJsx.ExtractPdf upperCasePdf].
Proof.
  destruct (console_uploads_disagree_on_case tick upperCasePdf
              (DashboardJsx.PdfThrows "unused") (DashboardJsx.ExcelThrows "unused")
              DashboardJsx.initial eq_refl eq_refl) as (H1 & _ & H2).
  split; [exact H1 | exact H2].
Defined.

(** The contacts of a text, line by line. *)
Lemma parseCSV_by_line text :
  DashboardJsx.parseCSV text
  = flat_map (fun line => lineContact (DashboardJsx.partsOf line))
      (List.tl (DashboardJsx.linesOf text)).
Proof.
  unfold DashboardJsx.parseCSV.
  destruct (DashboardJsx.linesOf text) as [|header rest]; [reflexivity|].
  cbn [DashboardJsx.forEachLine DashboardJsx.eachLine Nat.eqb List.tl].
  now rewrite forEachLine_spec.
Qed.

Lemma lineContact_valid fields v :
  In v (lineContact fields) ->
  mobileNumberShape (MOBILE v) = true /\ [NAME v] = firstn 1 fields.
Proof.
  unfold lineContact. destruct fields as [|name others]; [intros []|].
  destruct (List.find normalisesToMobile others) as [field|] eqn:E; [|intros []].
  intros [<-|[]]. apply find_some in E as [_ E]. split; [exact E|reflexivity].
Qed.

Lemma lineContact_length fields : (length (lineContact fields) <= 1)%nat.
Proof.
  unfold lineContact. destruct fields as [|name others]; [cbn; lia|].
  destruct (List.find _ _); cbn; lia.
Qed.

Lemma flat_map_length_le {A B} (f : A -> list B) (l : list A) :
  (forall x, (length (f x) <= 1)%nat) ->
  (length (flat_map f l) <= length l)%nat.
Proof.
  intros Hf. induction l as [|x l IH]; cbn; [lia|].
  rewrite length_app. specialize (Hf x). lia.
Qed.

Lemma mobileNumberShape_counts m :
  mobileNumberShape m = true ->
  JS.truthy m && negb (String.eqb m "N/A") = true.
Proof.
  unfold mobileNumberShape. intros H.
  apply andb_true_iff in H as [H _]. apply andb_true_iff in H as [Hlen _].
  apply Nat.eqb_eq in Hlen.
  destruct m as [|c m]; [discriminate Hlen|]. cbn [JS.truthy andb].
  destruct (String.eqb_spec (String c m) "N/A") as [E|_];
    [rewrite E in Hlen; discriminate Hlen|].
  reflexivity.
Qed.

(** X8. Every contact that [parseCSV] returns has a mobile number of
    exactly ten digits that begins with 6, 7, 8 or 9, and carries as its
    name the first field of one of the lines after the header; a line
    gives at most one contact, so there are never more contacts than lines
    after the header; and the console counts every one of them as a voter
    with a mobile number. *)
Theorem parseCSV_contacts_are_valid (text : string) :
  (forall v, In v (DashboardJsx.parseCSV text) ->
     mobileNumberShape (MOBILE v) = true
     /\ exists line,
          In line (List.tl (DashboardJsx.linesOf text))
          /\ [NAME v] = firstn 1 (DashboardJsx.partsOf line))
  /\ (length (DashboardJsx.parseCSV text)
      <= length (DashboardJsx.linesOf text) - 1)%nat
  /\ withMobile (DashboardJsx.parseCSV text)
     = length (DashboardJsx.parseCSV text).
Proof.
  rewrite parseCSV_by_line.
  assert (Hvalid : forall v,
             In v (flat_map (fun line => lineContact (DashboardJsx.partsOf line))
                     (List.tl (DashboardJsx.linesOf text))) ->
             mobileNumberShape (MOBILE v) = true
             /\ exists line,
                  In line (List.tl (DashboardJsx.linesOf text))
                  /\ [NAME v] = firstn 1 (DashboardJsx.partsOf line)).
  { intros v Hin. apply in_flat_map in Hin as (line & Hline & Hv).
    apply lineContact_valid in Hv as [Hm Hn].
    split; [exact Hm|]. now exists line. }
  split; [exact Hvalid|]. split.
  - etransitivity.
    + apply flat_map_length_le. intros line. apply lineContact_length.
    + destruct (DashboardJsx.linesOf text); cbn; lia.
  - unfold withMobile. f_equal.
    apply forallb_filter_id. apply forallb_forall. intros v Hin.
    apply mobileNumberShape_counts. now apply Hvalid.
Qed.

Lemma parseCSV_contacts_are_valid_witness :
  let text := file_text votersCsv in
  length (DashboardJsx.parseCSV text) = 2%nat
  /\ Forall (fun v => mobileNumberShape (MOBILE v) = true)
       (DashboardJsx.parseCSV text).
Proof.
  cbv zeta. split; [reflexivity|].
  apply List.Forall_forall. intros v Hin.
  exact (proj1 (proj1 (parseCSV_contacts_are_valid (file_text votersCsv)) v Hin)).
Defined.

(* ===================================================================== *)
(** * unnamed/part_001: the noise filter *)
(* ===================================================================== *)

Lemma Forall_slice_last {A} (P : A -> Prop) n (l : list A) :
  Forall P l -> Forall P (JS.slice_last n l).
Proof.
  intros H. unfold JS.slice_last.
  rewrite <- (firstn_skipn (length l - n) l) in H.
  apply Forall_app in H. apply H.
Qed.

Lemma pushLog_Forall (P : LogEntry -> Prop) e prev :
  P e -> Forall P prev -> Forall P (pushLog e prev).
Proof.
  intros He Hp. unfold pushLog. apply Forall_app. split.
  - now apply Forall_slice_last.
  - now constructor.
Qed.

Lemma Part001_addLog_quiet clk m t s s' :
  Part001.addLog clk m t s = Some s' ->
  Forall (fun e => quiet e = true) (Part001.logs s) ->
  Forall (fun e => quiet e = true) (Part001.logs s').
Proof.
  unfold Part001.addLog. intros E H.
  destruct m as [m|]; [|discriminate].
  destruct (Part001.noisy m) eqn:Hn; injection E as <-; [exact H|].
  cbn. apply pushLog_Forall; [|exact H].
  unfold quiet. cbn. now rewrite Hn.
Qed.

Lemma Part001_handle_quiet clk data s :
  Forall (fun e => quiet e = true) (Part001.logs s) ->
  Forall (fun e => quiet e = true) (Part001.logs (Part001.handle clk data s)).
Proof.
  intros H. unfold Part001.handle.
  destruct (Part001.onmessage clk data s) as [s'|] eqn:E; [|exact H].
  unfold Part001.onmessage in E.
  repeat match type of E with
         | (if ?b then _ else _) = _ => destruct b
         end;
    try (injection E as <-; exact H);
    try (eapply Part001_addLog_quiet; [exact E | exact H]).
  destruct (Part001.addLog clk (data_message data) (data_log_type data) s)
    as [s1|] eqn:E1; [|discriminate].
  apply Part001_addLog_quiet in E1; [|exact H].
  destruct (data_stats data); injection E as <-; exact E1.
Qed.

(** X9. In the second revision of the console no telemetry frame can put
    a line that holds [<unknown>], [0x] or [Stacktrace] into the log: if
    the log has no such line, it has none after any sequence of frames. A
    [log] frame with such a message leaves the log as it is, and its
    embedded counters, if it has any, are applied all the same. *)
Theorem noise_never_reaches_the_log (frames : list (Clock * Frame))
    (clk : Clock) (message : string) (v : option Stats) (s : Part001.State) :
  Forall (fun e => quiet e = true) (Part001.logs s) ->
  Forall (fun e => quiet e = true) (Part001.logs (Part001.deliver frames s))
  /\ (Part001.noisy message = true ->
      Part001.logs (Part001.handle clk (logFrameWith message v) s)
      = Part001.logs s
      /\ Part001.stats (Part001.handle clk (logFrameWith message v) s)
         = match v with Some _ => v | None => Part001.stats s end).
Proof.
  intros H. split.
  - revert s H. induction frames as [|[c f] frames IH]; intros s H; [exact H|].
    apply IH. now apply Part001_handle_quiet.
  - intros Hn. unfold Part001.handle, Part001.onmessage, Part001.addLog. cbn.
    rewrite Hn. destruct v; split; reflexivity.
Qed.

Lemma noise_never_reaches_the_log_witness :
  let s' := Part001.handle clock0
              (logFrameWith "Stacktrace: 0x7ff6 <unknown>"
                 (Some (counters 3 10))) Part001.initial in
  Part001.logs s' = [] /\ Part001.stats s' = Some (counters 3 10).
Proof.
  cbv zeta.
  destruct (noise_never_reaches_the_log [] clock0 "Stacktrace: 0x7ff6 <unknown>"
              (Some (counters 3 10)) Part001.initial (List.Forall_nil _))
    as (_ & H).
  exact (H eq_refl).
Defined.

(* ===================================================================== *)
(** * The wizard: what is stored and sent *)
(* ===================================================================== *)

Lemma replace_char_In c rep s x :
  In x (JS.chars (JS.replace_char c rep s)) ->
  In x (JS.chars rep) \/ (In x (JS.chars s) /\ x <> c).
Proof.
  unfold JS.replace_char. rewrite chars_str. intros H.
  apply in_flat_map in H as (y & Hy & Hx).
  destruct (Ascii.eqb_spec y c) as [->|Hne].
  - now left.
  - destruct Hx as [<-|[]]. right. split; assumption.
Qed.

Lemma replace_char_absent c rep s :
  ~ In c (JS.chars s) -> JS.replace_char c rep s = s.
Proof.
  unfold JS.replace_char. intros H.
  rewrite <- (str_chars s) at 2. f_equal.
  induction (JS.chars s) as [|y l IH]; [reflexivity|].
  cbn [flat_map]. destruct (Ascii.eqb_spec y c) as [->|_].
  - exfalso. apply H. now left.
  - cbn. f_equal. apply IH. intros Hin. apply H. now right.
Qed.

Lemma noMarkup_spec s :
  noMarkup s = true <->
  (forall x, In x (JS.chars s) -> isMarkup x = false).
Proof.
  unfold noMarkup. rewrite forallb_forall. split; intros H x Hx.
  - apply negb_true_iff. now apply H.
  - apply negb_true_iff. now apply H.
Qed.

Lemma sanitizeInput_noMarkup input : noMarkup (sanitizeInput input) = true.
Proof.
  apply noMarkup_spec. intros x Hx. unfold sanitizeInput in Hx.
  assert (Hent : forall rep, In rep ["&#x27;"; "&quot;"; "&gt;"; "&lt;"]%string ->
                 In x (JS.chars rep) -> isMarkup x = false).
  { intros rep Hrep Hin.
    assert (Hall : forallb (fun r => forallb (fun c => negb (isMarkup c)) (JS.chars r))
                     ["&#x27;"; "&quot;"; "&gt;"; "&lt;"]%string = true)
      by reflexivity.
    rewrite forallb_forall in Hall. specialize (Hall rep Hrep).
    rewrite forallb_forall in Hall. apply negb_true_iff. now apply Hall. }
  apply replace_char_In in Hx as [Hx|[Hx H1]];
    [apply (Hent "&#x27;"%string); [now left | exact Hx]|].
  apply replace_char_In in Hx as [Hx|[Hx H2]];
    [apply (Hent "&quot;"%string); [right; now left | exact Hx]|].
  apply replace_char_In in Hx as [Hx|[Hx H3]];
    [apply (Hent "&gt;"%string); [right; right; now left | exact Hx]|].
  apply replace_char_In in Hx as [Hx|[Hx H4]];
    [apply (Hent "&lt;"%string); [right; right; right; now left | exact Hx]|].
  unfold isMarkup.
  destruct (Ascii.eqb_spec x "<"); [congruence|].
  destruct (Ascii.eqb_spec x ">"); [congruence|].
  destruct (Ascii.eqb_spec x JS.DQUOTE); [congruence|].
  destruct (Ascii.eqb_spec x "'"); [congruence|].
  reflexivity.
Qed.

Lemma sanitizeInput_clean input :
  noMarkup input = true -> sanitizeInput input = input.
Proof.
  intros H. rewrite noMarkup_spec in H. unfold sanitizeInput.
  assert (Hno : forall c, isMarkup c = true -> ~ In c (JS.chars input)).
  { intros c Hc Hin. apply H in Hin. congruence. }
  rewrite (replace_char_absent "<" _ input) by (apply Hno; reflexivity).
  rewrite (replace_char_absent ">" _ input) by (apply Hno; reflexivity).
  rewrite (replace_char_absent JS.DQUOTE _ input) by (apply Hno; reflexivity).
  rewrite (replace_char_absent "'" _ input) by (apply Hno; reflexivity).
  reflexivity.
Qed.

(** X10. The text that [sanitizeInput] returns holds none of the
    characters [<], [>], the double quote and the single quote; a text
    without them is returned as it is, so sanitising twice is the same as
    sanitising once. *)
Theorem sanitizeInput_removes_markup (input : string) :
  noMarkup (sanitizeInput input) = true
  /\ (noMarkup input = true -> sanitizeInput input = input)
  /\ sanitizeInput (sanitizeInput input) = sanitizeInput input.
Proof.
  split; [apply sanitizeInput_noMarkup|]. split; [apply sanitizeInput_clean|].
  apply sanitizeInput_clean. apply sanitizeInput_noMarkup.
Qed.

Lemma sanitizeInput_removes_markup_witness :
  sanitizeInput "Vote for us" = "Vote for us"
  /\ sanitizeInput "<b>It's time</b>" = "&lt;b&gt;It&#x27;s time&lt;/b&gt;".
Proof.
  split; [|reflexivity].
  exact (proj1 (proj2 (sanitizeInput_removes_markup "Vote for us")) eq_refl).
Defined.

Lemma or_else_truthy (a : option string) (b : string) :
  JS.truthy b = true -> JS.truthy (JS.or_else a b) = true.
Proof.
  intros Hb. unfold JS.or_else. destruct a as [s|]; [|exact Hb].
  destruct (JS.truthy s) eqn:E; [exact E | exact Hb].
Qed.

(** X11. When the extraction request of the wizard is refused, throws or
    answers without a list, the wizard stays where it is: the step, the
    plan, the contacts extracted before and the storage are unchanged, the
    in-progress flag is cleared and a non-empty error is shown after the
    one request. The file is kept as the selected file all the same. *)
Theorem wizard_extraction_failure (file : File) (reply : ExtractReply)
    (w : World) :
  isPdfName file = true ->
  file_size file <= MAX_FILE_SIZE ->
  extractionFailed reply = true ->
  let w' := handleFileUpload (Some file) reply w in
  step (ui w') = step (ui w)
  /\ selectedPlan (ui w') = selectedPlan (ui w)
  /\ extractedVoters (ui w') = extractedVoters (ui w)
  /\ votersFile (ui w') = Some file
  /\ isExtracting (ui w') = false
  /\ JS.truthy (error (ui w')) = true
  /\ localStorage w' = localStorage w
  /\ effects w'
     = effects w ++ [ShowError EmptyString; Fetch (ExtractPdf file);
                     ShowError (error (ui w'))].
Proof.
  intros Hext Hsize Hfail. cbv zeta. unfold isPdfName in Hext.
  unfold handleFileUpload. rewrite Hext. cbn [negb].
  destruct (Z.gtb_spec (file_size file) MAX_FILE_SIZE) as [Hbig|_]; [lia|].
  destruct reply as [|[|] [all|] detail]; try discriminate Hfail;
    cbn; rewrite <- ?app_assoc; repeat split;
    apply or_else_truthy; reflexivity.
Qed.

Lemma wizard_extraction_failure_witness :
  let w' := handleFileUpload (Some smallPdf)
              (ExtractData false None (Some "No voters found")) ingesting in
  step (ui w') = 1
  /\ error (ui w') = "No voters found"
  /\ votersFile (ui w') = Some smallPdf.
Proof.
  cbv zeta.
  assert (Hsize : file_size smallPdf <= MAX_FILE_SIZE) by (vm_compute; discriminate).
  destruct (wizard_extraction_failure smallPdf
              (ExtractData false None (Some "No voters found")) ingesting
              eq_refl Hsize eq_refl) as (Hs & _ & _ & Hf & _).
  split; [exact Hs|]. split; [reflexivity | exact Hf].
Defined.

Lemma replace_char_truthy c rep s :
  JS.truthy rep = true -> JS.truthy s = true ->
  JS.truthy (JS.replace_char c rep s) = true.
Proof.
  intros Hrep Hs. unfold JS.replace_char.
  destruct s as [|x s]; [discriminate Hs|]. cbn [JS.chars list_ascii_of_string flat_map].
  destruct (Ascii.eqb x c).
  - destruct rep as [|r rep]; [discriminate Hrep|]. reflexivity.
  - reflexivity.
Qed.

Lemma sanitizeInput_truthy s :
  JS.truthy s = true -> JS.truthy (sanitizeInput s) = true.
Proof.
  intros H. unfold sanitizeInput.
  repeat (apply replace_char_truthy; [reflexivity|]). exact H.
Qed.

(** X12. [handlePayment] saves the draft before the payment page opens:
    afterwards the storage holds, under ['voteflow_pending_campaign'], the
    contacts, the plan, the time and the message, which is the sanitised
    template (or the sanitised default when the template is empty), is
    never empty and holds no markup character; every other key is as it
    was, and the wizard is at the verification step. *)
Theorem handlePayment_saves_draft (clk : Z) (w : World) :
  let w' := handlePayment clk w in
  let message :=
    sanitizeInput (if JS.truthy (messageTemplate (ui w))
                   then messageTemplate (ui w) else defaultMessage) in
  localStorage w' !! KEY_PENDING
  = Some (PendingCampaign (extractedVoters (ui w)) message
            (selectedPlan (ui w)) clk)
  /\ noMarkup message = true
  /\ JS.truthy message = true
  /\ (forall k, k <> KEY_PENDING -> localStorage w' !! k = localStorage w !! k)
  /\ step (ui w') = 4
  /\ effects w' = effects w ++ [WindowOpen].
Proof.
  cbv zeta. unfold handlePayment. cbn. unfold JS.or_str.
  split; [apply lookup_insert_eq|].
  split; [apply sanitizeInput_noMarkup|].
  split.
  - apply sanitizeInput_truthy.
    destruct (JS.truthy (messageTemplate (ui w))) eqn:E; [exact E|reflexivity].
  - split; [|split; reflexivity].
    intros k Hk. now rewrite lookup_insert_ne.
Qed.

Lemma handlePayment_saves_draft_witness :
  localStorage (handlePayment 1700000001000 (verifying "pay_ABC123xyz9" 2)) !! KEY_USER
  = Some (UserCampaigns (storedQuota "municipal" 2)).
Proof.
  destruct (handlePayment_saves_draft 1700000001000 (verifying "pay_ABC123xyz9" 2))
    as (_ & _ & _ & Hother & _).
  rewrite (Hother KEY_USER) by discriminate.
  apply lookup_singleton_eq.
Defined.

(** X13. The two outcomes of [handleVerifyPayment]. When the reference
    has the right shape, the payment is verified and the start succeeds,
    the pending draft is removed, the quota record and the paid-campaign
    record are written, the modal is closed and the console is opened.
    In every other case the storage is exactly what it was, the wizard is
    neither closed nor launched by the handler, its step and drafted
    contacts and message are kept, the in-progress flag is cleared and a
    non-empty error is shown; the start request is sent only after a
    verified reply. *)
Theorem handleVerifyPayment_outcome (clk : Z) (vr : VerifyReply)
    (sr : StartReply) (w : World) :
  let w' := handleVerifyPayment clk vr sr w in
  let ref := paymentId (ui w) in
  let shape := RegExp.test_whole paymentIdPattern ref in
  (shape && verified vr && started sr = true ->
   localStorage w' !! KEY_PENDING = None
   /\ localStorage w' !! KEY_PAID
      = Some (PaidCampaign (startedId sr) (Some ref) clk false)
   /\ closed w' = true /\ launched w' = true)
  /\ (shape && verified vr && started sr = false ->
      localStorage w' = localStorage w
      /\ closed w' = closed w /\ launched w' = launched w
      /\ step (ui w') = step (ui w)
      /\ extractedVoters (ui w') = extractedVoters (ui w)
      /\ messageTemplate (ui w') = messageTemplate (ui w)
      /\ isProcessing (ui w') = false
      /\ JS.truthy (error (ui w')) = true)
  /\ ((exists v m p mm pid,
         In (Fetch (CampaignStart v m p mm pid)) (effects w')
         /\ ~ In (Fetch (CampaignStart v m p mm pid)) (effects w)) ->
      shape && verified vr = true).
Proof.
  cbv zeta. unfold handleVerifyPayment, closed, launched.
  destruct (RegExp.test_whole paymentIdPattern (paymentId (ui w))) eqn:Hshape;
    cbn [negb andb].
  - destruct vr as [|[|] m]; cbn [verified andb].
    + split; [discriminate|]. split.
      * intros _. cbn. rewrite !existsb_app. cbn.
        rewrite !orb_false_r. repeat split.
      * intros (v & m & p & mm & pid & Hin & Hnot). exfalso. apply Hnot.
        cbn in Hin. rewrite !in_app_iff in Hin. cbn in Hin.
        destruct Hin as [[[Hin|[H|[]]]|[H|[]]]|[H|[]]];
          [exact Hin | discriminate H | discriminate H | discriminate H].
    + destruct sr as [|[|] c d]; cbn [started andb].
      * split; [discriminate|]. split; [|reflexivity].
        intros _. cbn. rewrite !existsb_app. cbn.
        rewrite !orb_false_r. repeat split.
      * split; [|split; [discriminate|reflexivity]].
        intros _. cbn. rewrite !existsb_app. cbn. rewrite !orb_true_r.
        rewrite lookup_insert_ne by discriminate.
        rewrite lookup_insert_ne by discriminate.
        rewrite lookup_delete_eq. rewrite lookup_insert_eq.
        repeat split.
      * split; [discriminate|]. split; [|reflexivity].
        intros _. cbn. rewrite !existsb_app. cbn.
        rewrite !orb_false_r. repeat split.
        apply or_else_truthy. reflexivity.
    + split; [discriminate|]. split.
      * intros _. cbn. rewrite !existsb_app. cbn.
        rewrite !orb_false_r. repeat split.
        apply or_else_truthy. reflexivity.
      * intros (v & m' & p & mm & pid & Hin & Hnot). exfalso. apply Hnot.
        cbn in Hin. rewrite !in_app_iff in Hin. cbn in Hin.
        destruct Hin as [[[Hin|[H|[]]]|[H|[]]]|[H|[]]];
          [exact Hin | discriminate H | discriminate H | discriminate H].
  - split; [discriminate|]. split.
    + intros _. cbn. rewrite !existsb_app. cbn.
      rewrite !orb_false_r. repeat split.
    + intros (v & m' & p & mm & pid & Hin & Hnot). exfalso. apply Hnot.
      cbn in Hin. rewrite !in_app_iff in Hin. cbn in Hin.
      destruct Hin as [[Hin|[H|[]]]|[H|[]]];
        [exact Hin | discriminate H | discriminate H].
Qed.

Lemma handleVerifyPayment_outcome_witness :
  let w := handlePayment 1700000001000 (verifying "pay_ABC123xyz9" 2) in
  localStorage
    (handleVerifyPayment 1700000002000 (VerifyData false (Some "Amount mismatch"))
       StartThrows w) = localStorage w
  /\ localStorage
       (handleVerifyPayment 1700000002000 (VerifyData true None)
          (StartData true (Some "cmp_9") None) w) !! KEY_PENDING = None.
Proof.
  cbv zeta. split.
  - destruct (handleVerifyPayment_outcome 1700000002000
                (VerifyData false (Some "Amount mismatch")) StartThrows
                (handlePayment 1700000001000 (verifying "pay_ABC123xyz9" 2)))
      as (_ & Hfail & _).
    exact (proj1 (Hfail eq_refl)).
  - destruct (handleVerifyPayment_outcome 1700000002000
                (VerifyData true None) (StartData true (Some "cmp_9") None)
                (handlePayment 1700000001000 (verifying "pay_ABC123xyz9" 2)))
      as (Hok & _).
    exact (proj1 (Hok eq_refl)).
Defined.

(* ===================================================================== *)
(** * The wizard: the quota record over time *)
(* ===================================================================== *)

Lemma strictly_differ_false (a b : option string) :
  strictly_differ a b = false <-> a = b.
Proof.
  destruct (strictly_differ a b) eqn:H.
  - apply strictly_differ_spec in H. split; [discriminate | contradiction].
  - split; [|reflexivity]. intros _.
    destruct (decide (a = b)) as [Heq|Hne]; [exact Heq|].
    apply strictly_differ_spec in Hne. congruence.
Qed.

(** X14. The update of the quota record keeps [0 <= remaining <= total]:
    if the purchased plan has at least one campaign whenever the record is
    replaced, and the stored record satisfies the bound whenever it is
    kept, then the record written satisfies it. *)
Theorem quota_update_keeps_bounds (existing : option Stored) (plan : Plan)
    (payment : string) (clk : Z) :
  let old := match existing with
             | Some v => parseUserData v
             | None => defaultUserData
             end in
  (planId old <> plan_id plan ->
   exists quota, campaigns plan = Some quota /\ 1 <= quota) ->
  (planId old = plan_id plan -> quotaOk old) ->
  quotaOk (updateUserData existing plan payment clk).
Proof.
  intros old Hnew Hkept. unfold updateUserData. fold old.
  unfold planId_differs.
  destruct (strictly_differ (planId old) (plan_id plan)) eqn:Hd.
  - apply strictly_differ_spec in Hd.
    destruct (Hnew Hd) as (quota & -> & Hq).
    exists (quota - 1), quota. cbn. repeat split; lia.
  - apply strictly_differ_false in Hd.
    destruct (Hkept Hd) as (r & t & Hr & Ht & Hb).
    exists (Z.max 0 (r - 1)), t. cbn [remaining total]. rewrite Hr, Ht. cbn.
    repeat split; lia.
Qed.

Lemma quota_update_keeps_bounds_witness :
  quotaOk (updateUserData (Some (UserCampaigns (storedQuota "municipal" 0)))
             municipal "pay_ABC123xyz9" 1700000002000)
  /\ quotaOk (updateUserData None App.defaultPlan "pay_ABC123xyz9"
                1700000002000).
Proof.
  split.
  - apply quota_update_keeps_bounds.
    + intros H. exfalso. apply H. reflexivity.
    + intros _. exists 0, 3. cbn. repeat split; lia.
  - apply quota_update_keeps_bounds.
    + intros H. exfalso. apply H. reflexivity.
    + intros _. exists 0, 0. cbn. repeat split; lia.
Defined.

Lemma launches_state k : forall existing plan payment clk quota,
  campaigns plan = Some quota ->
  1 <= quota ->
  planId match existing with
         | Some v => parseUserData v
         | None => defaultUserData
         end <> plan_id plan ->
  exists q,
    launches (S k) existing plan payment clk = Some (UserCampaigns q)
    /\ planId q = plan_id plan
    /\ total q = JS.Val quota
    /\ remaining q = JS.Val (Z.max 0 (quota - Z.of_nat (S k))).
Proof.
  induction k as [|k IH]; intros existing plan payment clk quota Hq Hc Hnew.
  - cbn [launches]. eexists. split; [reflexivity|].
    unfold updateUserData, planId_differs.
    apply strictly_differ_spec in Hnew. rewrite Hnew, Hq. cbn.
    repeat split. f_equal. lia.
  - destruct (IH existing plan payment clk quota Hq Hc Hnew)
      as (q & Hl & Hid & Ht & Hr).
    change (launches (S (S k)) existing plan payment clk)
      with (Some (UserCampaigns
                    (updateUserData (launches (S k) existing plan payment clk)
                       plan payment clk))).
    rewrite Hl. eexists. split; [reflexivity|].
    unfold updateUserData. cbn [parseUserData].
    unfold planId_differs.
    apply strictly_differ_false in Hid. rewrite Hid.
    apply strictly_differ_false in Hid.
    cbn [planId total remaining]. rewrite Hr. cbn.
    repeat split; try assumption. f_equal. lia.
Qed.

(** X15. The client does not tell payment references apart: when a plan
    with at least one campaign is bought over a record of another plan (or,
    having an id, over none) and launched [k] times in all, with whatever
    reference, the same one included, the record counts every launch:
    [remaining] is the quota less [k], or zero once the quota is used
    up. *)
Theorem launches_count_down (k : nat) (existing : option Stored) (plan : Plan)
    (payment : string) (clk : Z) (quota : Z) :
  campaigns plan = Some quota ->
  1 <= quota ->
  planId match existing with
         | Some v => parseUserData v
         | None => defaultUserData
         end <> plan_id plan ->
  (1 <= k)%nat ->
  remainingOf (launches k existing plan payment clk)
  = JS.Val (Z.max 0 (quota - Z.of_nat k)).
Proof.
  intros Hq Hc Hnew Hk. destruct k as [|k]; [lia|].
  destruct (launches_state k existing plan payment clk quota Hq Hc Hnew)
    as (q & Hl & _ & _ & Hr).
  rewrite Hl. exact Hr.
Qed.

Lemma launches_count_down_witness :
  map (fun k => remainingOf (launches k None municipal "pay_ABC123xyz9" 0))
    [1; 2; 3; 4]%nat = [JS.Val 2; JS.Val 1; JS.Val 0; JS.Val 0].
Proof.
  assert (Hq : campaigns municipal = Some 3) by reflexivity.
  assert (Hc : 1 <= 3) by lia.
  assert (Hnew : planId defaultUserData <> plan_id municipal) by discriminate.
  cbn [map].
  rewrite (launches_count_down 1 None municipal "pay_ABC123xyz9" 0 3 Hq Hc Hnew)
    by lia.
  rewrite (launches_count_down 2 None municipal "pay_ABC123xyz9" 0 3 Hq Hc Hnew)
    by lia.
  rewrite (launches_count_down 3 None municipal "pay_ABC123xyz9" 0 3 Hq Hc Hnew)
    by lia.
  rewrite (launches_count_down 4 None municipal "pay_ABC123xyz9" 0 3 Hq Hc Hnew)
    by lia.
  reflexivity.
Defined.

(* ===================================================================== *)
(** * The bypass *)
(* ===================================================================== *)

Lemma lower_char_idem c : JS.lower_char (JS.lower_char c) = JS.lower_char c.
Proof. destruct c as [[] [] [] [] [] [] [] []]; reflexivity. Qed.

Lemma toLowerCase_idem s : JS.toLowerCase (JS.toLowerCase s) = JS.toLowerCase s.
Proof.
  unfold JS.toLowerCase. rewrite chars_str, map_map. f_equal.
  apply map_ext. intros c. apply lower_char_idem.
Qed.

Lemma toLowerCase_truthy s : JS.truthy (JS.toLowerCase s) = JS.truthy s.
Proof. destruct s; reflexivity. Qed.

(** X16. [isDevAccount] does not look at the case of the letters of the
    address: an address and its lower-cased form get the same answer,
    which is yes exactly when the lower-cased address is one of
    [DEV_EMAILS]; a missing or empty address is never a developer. *)
Theorem isDevAccount_ignores_case (email : string) :
  DevConfig.isDevAccount (Some (JS.toLowerCase email))
  = DevConfig.isDevAccount (Some email)
  /\ (DevConfig.isDevAccount (Some email) = true
      <-> In (JS.toLowerCase email) DevConfig.DEV_EMAILS)
  /\ DevConfig.isDevAccount None = false
  /\ DevConfig.isDevAccount (Some EmptyString) = false.
Proof.
  split; [|split; [|split; reflexivity]].
  - unfold DevConfig.isDevAccount.
    now rewrite toLowerCase_truthy, toLowerCase_idem.
  - unfold DevConfig.isDevAccount, DevConfig.includes_email.
    destruct (JS.truthy email) eqn:Ht.
    + rewrite existsb_exists. split.
      * intros (x & Hin & Hx). apply String.eqb_eq in Hx. now subst x.
      * intros Hin. exists (JS.toLowerCase email). split; [exact Hin|].
        apply String.eqb_refl.
    + destruct email; [|discriminate Ht]. split; [discriminate|].
      cbn. intros [H|[H|[]]]; discriminate H.
Qed.

Lemma isDevAccount_ignores_case_witness :
  DevConfig.isDevAccount (Some "CharanSaiKondilla@GMAIL.com") = true.
Proof.
  apply (proj1 (proj2 (isDevAccount_ignores_case "CharanSaiKondilla@GMAIL.com"))).
  right. left. reflexivity.
Defined.

(** X17. The bypass branch sends the template as it was typed whenever it
    is not empty, a blank one included, and the default message only for
    an empty template; the state, though, gets the default as soon as the
    template is blank. The request is made as plan [dev] with the ceiling
    999999 and without a payment reference, the quota record and the
    pending draft are never touched, and on success the paid-campaign
    record is written with the developer mark. *)
Theorem bypass_start_request (env : Env) (clk : Z) (reply : StartReply)
    (w : World) :
  isDevUser env = true ->
  let template := messageTemplate (ui w) in
  let w' := handleProceedToPayment env clk reply w in
  effects w'
  = (effects w
     ++ [ShowError EmptyString;
         Fetch (CampaignStart (extractedVoters (ui w))
                  (if JS.truthy template then template else defaultMessage)
                  (Some "dev") (Some 999999) None)])
    ++ (if started reply
        then [OnClose;
              Navigate (startedId reply) (extractedVoters (ui w))
                (if JS.truthy template then template else defaultMessage)]
        else [ShowError (error (ui w'))])
  /\ messageTemplate (ui w')
     = (if JS.truthy (JS.trim template) then template else defaultMessage)
  /\ localStorage w' !! KEY_USER = localStorage w !! KEY_USER
  /\ localStorage w' !! KEY_PENDING = localStorage w !! KEY_PENDING
  /\ localStorage w' !! KEY_PAID
     = (if started reply
        then Some (PaidCampaign (startedId reply) None clk true)
        else localStorage w !! KEY_PAID).
Proof.
  intros Hdev. cbv zeta.
  unfold handleProceedToPayment, handleDevStartCampaign, JS.or_str.
  rewrite Hdev.
  destruct (JS.truthy (JS.trim (messageTemplate (ui w)))); cbn [negb];
    destruct reply as [|[|] c d]; cbn;
    rewrite <- ?app_assoc;
    rewrite ?lookup_insert_eq, ?lookup_insert_ne by discriminate;
    repeat split.
Qed.

Lemma bypass_start_request_witness :
  let blank := setMessageTemplate "   " (composing DevConfig.getDevPlan) in
  let w' := handleProceedToPayment devEnv 1700000000000
              (StartData true (Some "cmp_3") None) blank in
  In (Fetch (CampaignStart (contacts 3) "   " (Some "dev") (Some 999999) None))
    (effects w')
  /\ messageTemplate (ui w') = defaultMessage.
Proof.
  cbv zeta.
  destruct (bypass_start_request devEnv 1700000000000
              (StartData true (Some "cmp_3") None)
              (setMessageTemplate "   " (composing DevConfig.getDevPlan)) eq_refl)
    as (Heff & Hmsg & _).
  split; [rewrite Heff | exact Hmsg].
  apply in_or_app. left. apply in_or_app. right. right. left. reflexivity.
Defined.

(* ===================================================================== *)
(** * The wizard: what holds along every session *)
(* ===================================================================== *)

Lemma run_Forall env (P : World -> Prop) :
  (forall a w, P w -> enabled a w = true -> P (perform env a w)) ->
  forall acts w ws, P w -> run env acts w = Some ws -> Forall P ws.
Proof.
  intros Hstep. induction acts as [|a acts IH]; intros w ws Hw Hrun;
    cbn in Hrun.
  - injection Hrun as <-. constructor.
  - destruct (enabled a w) eqn:Hen; [|discriminate].
    destruct (run env acts (perform env a w)) as [ws'|] eqn:E; [|discriminate].
    injection Hrun as <-.
    pose proof (Hstep a w Hw Hen) as Hnext.
    constructor; [exact Hnext|]. eapply IH; eassumption.
Qed.

Ltac crack :=
  repeat match goal with
         | |- context [match ?x with _ => _ end] => destruct x eqn:?
         end.

Ltac open_handlers :=
  unfold handlePlanSelect, handleFileUpload, handleProceedToPayment,
    handleDevStartCampaign, handlePayment, handleVerifyPayment.

Lemma perform_atRest env a w :
  atRest w -> enabled a w = true -> atRest (perform env a w).
Proof.
  unfold atRest. intros ((Hlo & Hhi) & He & Hp) Hen.
  unfold enabled in Hen. apply andb_true_iff in Hen as [_ Hen].
  destruct a; cbn [perform]; open_handlers; crack; cbn;
    repeat split; try assumption; try lia.
Qed.

Lemma mount_atRest env ls : atRest (mount env ls).
Proof.
  unfold atRest, mount. cbn. destruct (initialPlan env); repeat split; lia.
Qed.

(** X18. However a session of the wizard goes, after every action the
    wizard shows one of its five steps (0 to 4) and neither in-progress
    flag is left on: each handler clears the flag it has set on all of its
    paths, failures and exceptions included. *)
Theorem wizard_always_at_rest (env : Env) (ls : gmap string Stored)
    (acts : list Action) (ws : list World) (w : World) :
  run env acts (mount env ls) = Some ws ->
  In w ws ->
  atRest w /\ wizardState w <> None.
Proof.
  intros Hrun Hin.
  pose proof (run_Forall env atRest (perform_atRest env) acts _ ws
                (mount_atRest env ls) Hrun) as Hall.
  rewrite List.Forall_forall in Hall. specialize (Hall w Hin).
  split; [exact Hall|].
  destruct Hall as ((Hlo & Hhi) & _). unfold wizardState.
  destruct (launched w); [discriminate|].
  destruct (closed w); [discriminate|].
  destruct (Z.eqb_spec (step (ui w)) 0); [discriminate|].
  destruct (Z.eqb_spec (step (ui w)) 1); [discriminate|].
  destruct (Z.eqb_spec (step (ui w)) 2); [discriminate|].
  destruct (Z.eqb_spec (step (ui w)) 3); [discriminate|].
  destruct (Z.eqb_spec (step (ui w)) 4); [discriminate|].
  lia.
Qed.

Lemma wizard_always_at_rest_witness :
  match run operatorEnv payingSession (mount operatorEnv ∅) with
  | Some ws =>
      map wizardState ws
      = [Some Ingestion; Some Composition; Some Composition; Some PaymentPending;
         Some PaymentVerification; Some PaymentVerification;
         Some PaymentVerification; Some Launched]
      /\ Forall atRest ws
  | None => False
  end.
Proof.
  destruct (run operatorEnv payingSession (mount operatorEnv ∅))
    as [ws|] eqn:E; [|vm_compute in E; discriminate E].
  split.
  - vm_compute in E. injection E as <-. reflexivity.
  - apply List.Forall_forall. intros w Hin.
    exact (proj1 (wizard_always_at_rest operatorEnv ∅ payingSession ws w E Hin)).
Defined.

Lemma not_launched_count w : launched w = false -> launchCount w = 0%nat.
Proof.
  unfold launched, launchCount. induction (effects w) as [|e l IH]; [reflexivity|].
  cbn. destruct (is_Navigate e); [discriminate|]. exact IH.
Qed.

Lemma closed_disables a w : closed w = true -> enabled a w = false.
Proof. intros H. unfold enabled. now rewrite H. Qed.

Lemma perform_launchedOnce env a w :
  launchedOnce w -> enabled a w = true -> launchedOnce (perform env a w).
Proof.
  unfold launchedOnce. intros (Hl & _) Hen.
  assert (Hopen : closed w = false).
  { destruct (closed w) eqn:E; [|reflexivity].
    rewrite (closed_disables a w E) in Hen. discriminate Hen. }
  assert (Hnot : launched w = false).
  { destruct (launched w) eqn:E; [|reflexivity].
    destruct (Hl eq_refl) as (Hc & _). congruence. }
  pose proof (not_launched_count w Hnot) as Hcount.
  unfold launched, closed, launchCount in *.
  clear Hl Hen.
  destruct a; cbn [perform]; open_handlers; crack; cbn;
    rewrite ?List.filter_app, ?existsb_app, ?length_app, ?Hnot, ?Hopen, ?Hcount;
    cbn;
    (split; [first [discriminate | intros _; split; [reflexivity|];
                    rewrite ?lookup_insert_eq, ?lookup_insert_ne by discriminate;
                    eexists; reflexivity]
            | lia]).
Qed.

(** X20. After a launch the Console link of the navigation bar opens the
    console: on every path on which the wizard hands over, it has written
    the paid-campaign record that [handleConsoleClick] looks for, so a
    signed-in operator is sent to the dashboard and not back to the
    wizard. *)
Theorem console_link_opens_after_launch (env : Env) (acts : list Action)
    (ws : list World) (w0 w : World) (email : option string) :
  launched w0 = false ->
  run env acts w0 = Some ws ->
  In w ws ->
  launched w = true ->
  Navbar.handleConsoleClick true email (localStorage w) = Navbar.ToDashboard.
Proof.
  intros Hnot Hrun Hin Hl.
  assert (H0 : launchedOnce w0).
  { split; [congruence|]. rewrite not_launched_count by exact Hnot. lia. }
  pose proof (run_Forall env launchedOnce (perform_launchedOnce env) acts _ ws
                H0 Hrun) as Hall.
  rewrite List.Forall_forall in Hall. destruct (Hall w Hin) as (Hw & _).
  destruct (Hw Hl) as (_ & v & Hv).
  unfold Navbar.handleConsoleClick. cbn [negb].
  destruct (DevConfig.isDevAccount email); [reflexivity|].
  now rewrite Hv.
Qed.

Lemma console_link_opens_after_launch_witness :
  Navbar.handleConsoleClick true (userEmail operatorEnv) ∅ = Navbar.OpenWizard
  /\ match run operatorEnv payingSession (mount operatorEnv ∅) with
     | Some ws =>
         Navbar.handleConsoleClick true (userEmail operatorEnv)
           (localStorage (List.last ws (mount operatorEnv ∅)))
         = Navbar.ToDashboard
     | None => False
     end.
Proof.
  split; [reflexivity|].
  destruct (run operatorEnv payingSession (mount operatorEnv ∅))
    as [ws|] eqn:E; [|vm_compute in E; discriminate E].
  apply (console_link_opens_after_launch operatorEnv payingSession ws
           (mount operatorEnv ∅) _ _ eq_refl E).
  - vm_compute in E. injection E as <-.
    do 7 right. left. reflexivity.
  - vm_compute in E. injection E as <-. reflexivity.
Defined.

Lemma perform_paidStart env a w :
  isDevUser env = false ->
  forallb paidStart (effects w) = true ->
  forallb paidStart (effects (perform env a w)) = true.
Proof.
  intros Hdev H.
  destruct a; cbn [perform]; open_handlers; rewrite ?Hdev; crack;
    cbn -[RegExp.test_whole paymentIdPattern];
    rewrite ?forallb_app, ?H; cbn -[RegExp.test_whole paymentIdPattern];
    repeat match goal with
           | E : negb _ = false |- _ => apply negb_false_iff in E; rewrite E
           end;
    reflexivity.
Qed.

(** X21. An account without the bypass never gets a campaign started
    without a payment reference: in every session from the mount, each
    start request that the wizard sends carries a reference that has
    passed the shape check. *)
Theorem operator_start_requests_carry_reference (env : Env)
    (ls : gmap string Stored) (acts : list Action) (ws : list World)
    (w : World) (voters : list Voter) (message : string)
    (plan : option string) (ceiling : option Z) (reference : option string) :
  isDevUser env = false ->
  run env acts (mount env ls) = Some ws ->
  In w ws ->
  In (Fetch (CampaignStart voters message plan ceiling reference)) (effects w) ->
  exists ref, reference = Some ref /\ paymentReferenceShape ref.
Proof.
  intros Hdev Hrun Hin Hreq.
  assert (H0 : forallb paidStart (effects (mount env ls)) = true)
    by reflexivity.
  pose proof (run_Forall env (fun w => forallb paidStart (effects w) = true)
                (fun a w Hw _ => perform_paidStart env a w Hdev Hw)
                acts _ ws H0 Hrun) as Hall.
  rewrite List.Forall_forall in Hall. specialize (Hall w Hin).
  rewrite forallb_forall in Hall. specialize (Hall _ Hreq).
  unfold paidStart in Hall.
  destruct reference as [ref|]; [|discriminate Hall].
  exists ref. split; [reflexivity|]. now apply paymentIdPattern_spec.
Qed.

Lemma operator_start_requests_carry_reference_witness :
  match run operatorEnv payingSession (mount operatorEnv ∅) with
  | Some ws =>
      In (Fetch (CampaignStart (contacts 3) "Vote for us" (Some "municipal")
                   (Some 2000) (Some "pay_ABC123xyz9")))
         (effects (List.last ws (mount operatorEnv ∅)))
      /\ paymentReferenceShape "pay_ABC123xyz9"
  | None => False
  end.
Proof.
  destruct (run operatorEnv payingSession (mount operatorEnv ∅))
    as [ws|] eqn:E; [|vm_compute in E; discriminate E].
  assert (Hreq : In (Fetch (CampaignStart (contacts 3) "Vote for us"
                              (Some "municipal") (Some 2000)
                              (Some "pay_ABC123xyz9")))
                   (effects (List.last ws (mount operatorEnv ∅)))).
  { vm_compute in E. injection E as <-. vm_compute. tauto. }
  split; [exact Hreq|].
  assert (Hin : In (List.last ws (mount operatorEnv ∅)) ws).
  { vm_compute in E. injection E as <-. do 7 right. left. reflexivity. }
  destruct (operator_start_requests_carry_reference operatorEnv ∅ payingSession
              ws _ _ _ _ _ _ eq_refl E Hin Hreq) as (ref & Href & Hshape).
  injection Href as <-. exact Hshape.
Defined.

Lemma perform_bypass env ls a w :
  isDevUser env = true ->
  bypassInvariant ls w -> enabled a w = true -> bypassInvariant ls (perform env a w).
Proof.
  unfold bypassInvariant. intros Hdev ((Hlo & Hhi) & He & Hu & Hp) Hen.
  unfold enabled in Hen. apply andb_true_iff in Hen as [_ Hen].
  destruct a; cbn [perform];
    try (apply andb_true_iff in Hen as [Hen _]);
    try (apply Z.eqb_eq in Hen);
    try lia;
    open_handlers; rewrite ?Hdev; crack; cbn;
    rewrite ?forallb_app, ?He; cbn;
    rewrite ?lookup_insert_ne by discriminate;
    repeat split; try assumption; try lia.
Qed.

(** X22. A bypass account never comes near the payment: in every session
    from the mount the wizard stays within the first three steps, the
    payment page is never opened, no verification request is sent, every
    start request goes out as plan [dev] without a reference, and the quota
    record and the pending draft in the storage are never written. *)
Theorem bypass_never_pays (env : Env) (ls : gmap string Stored)
    (acts : list Action) (ws : list World) (w : World) :
  isDevUser env = true ->
  run env acts (mount env ls) = Some ws ->
  In w ws ->
  0 <= step (ui w) <= 2
  /\ forallb bypassEffect (effects w) = true
  /\ localStorage w !! KEY_USER = ls !! KEY_USER
  /\ localStorage w !! KEY_PENDING = ls !! KEY_PENDING.
Proof.
  intros Hdev Hrun Hin.
  assert (H0 : bypassInvariant ls (mount env ls)).
  { unfold bypassInvariant, mount. cbn.
    destruct (initialPlan env); repeat split; lia. }
  pose proof (run_Forall env (bypassInvariant ls)
                (fun a w => perform_bypass env ls a w Hdev) acts _ ws H0 Hrun)
    as Hall.
  rewrite List.Forall_forall in Hall. exact (Hall w Hin).
Qed.

Lemma bypass_never_pays_witness :
  match run devEnv bypassSession (mount devEnv ∅) with
  | Some ws =>
      map wizardState ws
      = [Some Ingestion; Some Composition; Some Composition; Some Launched]
      /\ Forall (fun w => localStorage w !! KEY_USER = None) ws
  | None => False
  end
  /\ run devEnv (bypassSession ++ [ClickPay 0]) (mount devEnv ∅) = None.
Proof.
  split; [|reflexivity].
  destruct (run devEnv bypassSession (mount devEnv ∅))
    as [ws|] eqn:E; [|vm_compute in E; discriminate E].
  split.
  - vm_compute in E. injection E as <-. reflexivity.
  - apply List.Forall_forall. intros w Hin.
    destruct (bypass_never_pays devEnv ∅ bypassSession ws w eq_refl E Hin)
      as (_ & _ & Hu & _).
    rewrite Hu. apply lookup_empty.
Defined.

(* ===================================================================== *)
(** * The console: a campaign from start to stop *)
(* ===================================================================== *)

(** X1. Starting and then stopping a campaign: once a start has succeeded
    with a campaign id, the main button turns into the stop button; a stop
    that goes through sends the stop request for that id and switches the
    running flag off, and leaves everything else of the campaign in place:
    the campaign id is kept and the socket made by the start is still the
    one live socket, since [stopCampaign] never calls [close()]. *)
Theorem start_then_stop (clk clk' : nat -> Clock) (c d : option string)
    (ignored : Console.StartReply) (w : Console.World) :
  DashboardJsx.extractedVoters (Console.view w) <> [] ->
  Console.noCampaign c = false ->
  let w1 := Console.startCampaign clk (Console.StartBody true c d) w in
  let w2 := Console.perform (Console.ClickMain clk' ignored Console.StopDone) w1 in
  DashboardJsx.isRunning (Console.view w1) = true
  /\ DashboardJsx.isRunning (Console.view w2) = false
  /\ Console.calls w2
     = Console.calls w
       ++ [Console.Start (DashboardJsx.extractedVoters (Console.view w))
             (if JS.truthy (Console.messageTemplate w)
              then Some (Console.messageTemplate w) else None);
           Console.Stop (DashboardJsx.show c)]
  /\ Console.campaignId w2 = c
  /\ Console.sockets w2 = Console.sockets w1
  /\ List.last (Console.sockets w2) (Console.mkSocket None true)
     = {| Console.sock_campaign := c; Console.sock_closeCalled := false |}.
Proof.
  intros Hv Hc. cbv zeta.
  destruct (startCampaign_outcome clk (Console.StartBody true c d) w)
    as (Hcalls & Hrun & Hid & Hsock & _).
  assert (Hloaded : negb (Nat.eqb (length (DashboardJsx.extractedVoters
                                             (Console.view w))) 0) = true).
  { destruct (DashboardJsx.extractedVoters (Console.view w)); [congruence|].
    reflexivity. }
  rewrite Hloaded in Hcalls, Hrun, Hid, Hsock.
  cbn [startSucceeded startedCampaign andb] in Hrun, Hid, Hsock.
  cbn [Console.perform]. rewrite Hrun.
  destruct (stopCampaign_outcome (clk' 0%nat) Console.StopDone
              (Console.startCampaign clk (Console.StartBody true c d) w))
    as (_ & Hcalls2 & Hrun2 & Hsock2 & _ & Hid2).
  rewrite Hid, Hc in Hcalls2, Hrun2.
  split; [reflexivity|]. split; [exact Hrun2|].
  split; [rewrite Hcalls2, Hcalls, <- app_assoc; reflexivity|].
  split; [rewrite Hid2; exact Hid|].
  split; [exact Hsock2|].
  rewrite Hsock2, Hsock. apply last_last.
Qed.

Lemma start_then_stop_witness :
  let w1 := Console.startCampaign tick (Console.StartBody true (Some "cmp_1") None)
              (readyConsole 2) in
  let w2 := Console.perform
              (Console.ClickMain tick (Console.StartThrows "unused") Console.StopDone)
              w1 in
  DashboardJsx.isRunning (Console.view w2) = false
  /\ map Console.sock_closeCalled (Console.sockets w2) = [false].
Proof.
  cbv zeta.
  destruct (start_then_stop tick tick (Some "cmp_1") None
              (Console.StartThrows "unused") (readyConsole 2)
              ltac:(discriminate) eq_refl) as (_ & Hrun & _ & _ & Hsock & _).
  split; [exact Hrun|]. rewrite Hsock. reflexivity.
Defined.

(* ===================================================================== *)
(** * The wizard between the awaits *)
(* ===================================================================== *)


Lemma remove_nth_filter_length {A} (f : A -> bool) : forall (l : list A) i p,
  nth_error l i = Some p ->
  length (List.filter f l)
  = (length (List.filter f (Interleaved.remove_nth i l))
     + if f p then 1 else 0)%nat.
Proof.
  induction l as [|x l IH]; intros i p H.
  - destruct i; discriminate H.
  - destruct i as [|i].
    + injection H as ->. cbn. destruct (f p); cbn; lia.
    + cbn in H. cbn [Interleaved.remove_nth List.filter].
      destruct (f x); cbn [length]; rewrite (IH i p H); lia.
Qed.

Lemma remove_nth_forallb {A} (f : A -> bool) : forall (l : list A) i,
  forallb f l = true -> forallb f (Interleaved.remove_nth i l) = true.
Proof.
  induction l as [|x l IH]; intros i H; [destruct i; reflexivity|].
  cbn in H. apply andb_true_iff in H as [Hx Hl].
  destruct i as [|i]; cbn; [exact Hl|]. rewrite Hx. now apply IH.
Qed.

Lemma nth_error_forallb {A} (f : A -> bool) : forall (l : list A) i p,
  forallb f l = true -> nth_error l i = Some p -> f p = true.
Proof.
  intros l i p H Hn. rewrite forallb_forall in H. apply H.
  eapply nth_error_In. exact Hn.
Qed.

Lemma press_operatorInvariant env c s :
  isDevUser env = false ->
  operatorInvariant s ->
  Interleaved.available c (Interleaved.world s) = true ->
  operatorInvariant (Interleaved.press env c s).
Proof.
  intros Hdev (Hby & Hcnt & Hproc & Hcl) Hav.
  unfold Interleaved.available in Hav. apply andb_true_iff in Hav as [Hopen Hav].
  apply negb_true_iff in Hopen.
  assert (Hnot : launched (Interleaved.world s) = false).
  { destruct (launched (Interleaved.world s)); [|reflexivity].
    rewrite Hcl in Hopen by reflexivity. discriminate Hopen. }
  pose proof (not_launched_count _ Hnot) as HL.
  destruct s as [w susp]. cbn [Interleaved.world Interleaved.suspended] in *.
  unfold operatorInvariant, paymentsInFlight in *.
  cbn [Interleaved.world Interleaved.suspended] in *.
  unfold launched, closed, launchCount in *.
  destruct c; cbn [Interleaved.press].
  all: unfold Interleaved.handleFileUpload_begin,
         Interleaved.handleProceedToPayment_begin,
         Interleaved.handleVerifyPayment_begin,
         Interleaved.handleDevStartCampaign_begin,
         handlePlanSelect, handlePayment; rewrite ?Hdev.
  all: crack.
  all: cbn.
  all: rewrite ?List.filter_app, ?existsb_app, ?length_app, ?forallb_app,
         ?Hnot, ?Hopen, ?Hby, ?HL.
  all: cbn.
  all: rewrite ?Nat.add_0_r.
  all: try (repeat split; first [assumption | lia | discriminate]).
  all: apply andb_true_iff in Hav as [_ Hav]; apply negb_true_iff in Hav;
       apply orb_false_iff in Hav as [Hav _];
       apply orb_false_iff in Hav as [Hav _].
  all: assert (Hidle : length (List.filter Interleaved.paying susp) = 0%nat)
         by (destruct (length (List.filter Interleaved.paying susp))
               as [|[|n]]; [reflexivity | | lia];
             rewrite Hproc in Hav by reflexivity; discriminate Hav).
  all: rewrite Hidle; repeat split; first [lia | discriminate].
Qed.

Lemma launched_exists_count w :
  launched w = true -> (1 <= launchCount w)%nat.
Proof.
  unfold launched, launchCount. induction (effects w) as [|e l IH]; [discriminate|].
  cbn. destruct (is_Navigate e); cbn; [lia|]. exact IH.
Qed.

Lemma settle_operatorInvariant env i clk reply s s' :
  operatorInvariant s ->
  Interleaved.advance env (Interleaved.Settle i clk reply) s = Some s' ->
  operatorInvariant s'.
Proof.
  intros (Hby & Hcnt & Hproc & Hcl) Hadv.
  cbn [Interleaved.advance] in Hadv.
  destruct (nth_error (Interleaved.suspended s) i) as [p|] eqn:Hp;
    [|discriminate].
  destruct (Interleaved.settle p clk reply (Interleaved.world s))
    as [[w' next]|] eqn:Hs; [|discriminate].
  injection Hadv as <-.
  pose proof (remove_nth_filter_length Interleaved.paying _ _ _ Hp) as Hlen.
  pose proof (remove_nth_forallb _ _ i Hby) as Hby'.
  pose proof (nth_error_forallb _ _ _ _ Hby Hp) as Hp1.
  destruct s as [w susp]. cbn [Interleaved.world Interleaved.suspended] in *.
  unfold operatorInvariant, paymentsInFlight in *.
  cbn [Interleaved.world Interleaved.suspended] in *.
  set (rest := Interleaved.remove_nth i susp) in *.
  assert (Hnot : launched w = true -> (1 <= launchCount w)%nat)
    by apply launched_exists_count.
  unfold launched, closed, launchCount in *.
  destruct p as [snap|snap|snap|snap]; [| discriminate Hp1 | |];
    destruct reply as [r|r|r]; try discriminate Hs;
    cbn [Interleaved.settle Interleaved.paying] in *.
  - (* the extraction *)
    injection Hs as <- <-.
    unfold Interleaved.handleFileUpload_resume.
    destruct r as [|[|] [all|] detail]; try destruct (JS.gt_opt _ _); cbn;
      rewrite ?List.filter_app, ?existsb_app, ?length_app, ?forallb_app, ?Hby';
      cbn; rewrite ?Nat.add_0_r, ?orb_false_r, ?app_nil_r;
      repeat split; try lia; try exact Hcl; try (intros E; apply Hproc; lia).
  - (* the verification reply *)
    assert (HL : length (List.filter is_Navigate (effects w)) = 0%nat) by lia.
    assert (Hrest : length (List.filter Interleaved.paying rest) = 0%nat) by lia.
    assert (Hon : isProcessing (ui w) = true) by (apply Hproc; lia).
    destruct r as [|[|] m]; cbn in Hs; injection Hs as <- <-; cbn;
      rewrite ?List.filter_app, ?existsb_app, ?length_app, ?forallb_app, ?Hby';
      cbn; rewrite ?Nat.add_0_r, ?orb_false_r, ?app_nil_r, ?Hrest, ?HL;
      repeat split; try lia; try exact Hcl; try exact (fun _ => Hon).
  - (* the reply to the start request *)
    assert (HL : length (List.filter is_Navigate (effects w)) = 0%nat) by lia.
    assert (Hrest : length (List.filter Interleaved.paying rest) = 0%nat) by lia.
    injection Hs as <- <-.
    unfold Interleaved.handleVerifyPayment_started.
    destruct r as [|[|] c d]; cbn;
      rewrite ?List.filter_app, ?existsb_app, ?length_app, ?forallb_app, ?Hby';
      cbn; rewrite ?Nat.add_0_r, ?orb_false_r, ?orb_true_r, ?app_nil_r,
             ?Hrest, ?HL;
      repeat split; try lia; try exact Hcl.
Qed.

Lemma interleaved_run_Forall env (P : Interleaved.Session -> Prop) :
  (forall e s s', P s -> Interleaved.advance env e s = Some s' -> P s') ->
  forall events s ss,
    P s -> Interleaved.run env events s = Some ss -> Forall P ss.
Proof.
  intros Hstep. induction events as [|e events IH]; intros s ss Hs Hrun;
    cbn in Hrun.
  - injection Hrun as <-. constructor.
  - destruct (Interleaved.advance env e s) as [s'|] eqn:He; [|discriminate].
    destruct (Interleaved.run env events s') as [ss'|] eqn:E; [|discriminate].
    injection Hrun as <-.
    pose proof (Hstep e s s' Hs He) as Hnext.
    constructor; [exact Hnext|]. eapply IH; eassumption.
Qed.

Lemma advance_operatorInvariant env e s s' :
  isDevUser env = false ->
  operatorInvariant s ->
  Interleaved.advance env e s = Some s' ->
  operatorInvariant s'.
Proof.
  intros Hdev Hinv Hadv. destruct e as [c|i clk reply].
  - cbn [Interleaved.advance] in Hadv.
    destruct (Interleaved.available c (Interleaved.world s)) eqn:Hav;
      [|discriminate].
    injection Hadv as <-. now apply press_operatorInvariant.
  - eapply settle_operatorInvariant; eassumption.
Qed.

(** X19. For an account without the bypass, a session of the wizard hands
    over to the console at most once, however the operator's actions and
    the replies of the backend are interleaved: the verify button is
    disabled while a payment is in flight, so there is never more than
    one [navigate]; and once it has happened the modal is closed, no
    control of the wizard is available and no payment is in flight. *)
Theorem wizard_launches_at_most_once (env : Env)
    (events : list Interleaved.Event) (ss : list Interleaved.Session)
    (w0 : World) (s : Interleaved.Session) :
  isDevUser env = false ->
  launched w0 = false ->
  Interleaved.run env events (Interleaved.start w0) = Some ss ->
  In s ss ->
  (launchCount (Interleaved.world s) <= 1)%nat
  /\ (launched (Interleaved.world s) = true ->
      paymentsInFlight s = 0%nat
      /\ forall c, Interleaved.available c (Interleaved.world s) = false).
Proof.
  intros Hdev Hnot Hrun Hin.
  assert (H0 : operatorInvariant (Interleaved.start w0)).
  { unfold operatorInvariant, paymentsInFlight. cbn.
    rewrite (not_launched_count w0 Hnot), Hnot.
    repeat split; first [lia | discriminate]. }
  pose proof (interleaved_run_Forall env operatorInvariant
                (fun e s s' => advance_operatorInvariant env e s s' Hdev)
                events _ ss H0 Hrun) as Hall.
  rewrite List.Forall_forall in Hall.
  destruct (Hall s Hin) as (_ & Hcnt & _ & Hcl).
  split; [lia|]. intros Hl.
  pose proof (launched_exists_count _ Hl) as Hone.
  split; [lia|].
  intros c. unfold Interleaved.available. now rewrite (Hcl Hl).
Qed.

Lemma wizard_launches_at_most_once_witness :
  match Interleaved.run operatorEnv interleavedPayingSession
          (Interleaved.start (mount operatorEnv ∅)) with
  | Some ss =>
      map (fun s => launchCount (Interleaved.world s)) ss
      = [0; 0; 0; 0; 0; 0; 0; 0; 0; 0; 1]%nat
      /\ Forall (fun s => (launchCount (Interleaved.world s) <= 1)%nat) ss
  | None => False
  end
  /\ Interleaved.run operatorEnv
       (interleavedPayingSession ++ [Interleaved.Press Interleaved.GoBack])
       (Interleaved.start (mount operatorEnv ∅)) = None.
Proof.
  split; [|reflexivity].
  destruct (Interleaved.run operatorEnv interleavedPayingSession
              (Interleaved.start (mount operatorEnv ∅)))
    as [ss|] eqn:E; [|vm_compute in E; discriminate E].
  split.
  - vm_compute in E. injection E as <-. reflexivity.
  - apply List.Forall_forall. intros s Hin.
    exact (proj1 (wizard_launches_at_most_once operatorEnv
                    interleavedPayingSession ss (mount operatorEnv ∅) s
                    eq_refl eq_refl E Hin)).
Defined.



(** X25. The upload handler cuts the list by the plan of the render in
    which the file was picked: when the operator goes back and picks
    another card while the extraction request is on its way, the reply is
    cut at the limit of the plan left behind, and the wizard moves to the
    message step with the new plan selected. *)
Theorem plan_change_in_flight_keeps_old_limit (env : Env) (file : File)
    (i : nat) (plan : Plan) (all : list Voter) (detail : option string)
    (cap : Z) (w : World) :
  JS.endsWith (JS.toLowerCase (file_name file)) ".pdf" = true ->
  file_size file <= MAX_FILE_SIZE ->
  Interleaved.available (Interleaved.FileInput (Some file)) w = true ->
  maxMessages (selectedPlan (ui w)) = Some cap ->
  0 <= cap ->
  nth_error PLANS i = Some plan ->
  exists s1 s2 s3 s4,
    Interleaved.run env
      (planChangedInFlight file i (ExtractData true (Some all) detail))
      (Interleaved.start w) = Some [s1; s2; s3; s4]
    /\ selectedPlan (ui (Interleaved.world s4)) = plan
    /\ extractedVoters (ui (Interleaved.world s4)) = firstn (Z.to_nat cap) all
    /\ step (ui (Interleaved.world s4)) = 2
    /\ Interleaved.suspended s4 = [].
Proof.
  intros Hext Hsize Hav Hcap Hpos Hplan.
  assert (Hi : Nat.ltb i (length PLANS) = true).
  { apply Nat.ltb_lt. apply nth_error_Some. congruence. }
  pose proof Hav as Hopen. unfold Interleaved.available in Hopen.
  apply andb_true_iff in Hopen as [Hopen _].
  set (s1 := Interleaved.press env (Interleaved.FileInput (Some file))
               (Interleaved.start w)).
  set (s2 := Interleaved.press env Interleaved.ChangePlan s1).
  set (s3 := Interleaved.press env (Interleaved.PlanCard i) s2).
  assert (H1 : s1 = {| Interleaved.world :=
                         fetch (ExtractPdf file)
                           (setError EmptyString
                              (setIsExtracting true
                                 (setVotersFile (Some file) w)));
                       Interleaved.suspended := [Interleaved.AwaitExtract (ui w)] |}).
  { unfold s1. cbn [Interleaved.press].
    unfold Interleaved.handleFileUpload_begin. rewrite Hext. cbn [negb].
    destruct (Z.gtb_spec (file_size file) MAX_FILE_SIZE) as [Hbig|_]; [lia|].
    reflexivity. }
  assert (Hc1 : closed (Interleaved.world s1) = closed w).
  { rewrite H1. cbn [Interleaved.world]. unfold fetch.
    rewrite closed_emit, closed_setError. cbn [is_OnClose].
    now rewrite orb_false_r. }
  assert (Hs1 : step (ui (Interleaved.world s1)) = 1).
  { rewrite H1. cbn. unfold Interleaved.available in Hav.
    apply andb_true_iff in Hav as [_ Hav].
    apply andb_true_iff in Hav as [Hav _]. now apply Z.eqb_eq. }
  assert (A2 : Interleaved.available Interleaved.ChangePlan
                 (Interleaved.world s1) = true).
  { unfold Interleaved.available. now rewrite Hc1, Hopen, Hs1. }
  assert (A3 : Interleaved.available (Interleaved.PlanCard i)
                 (Interleaved.world s2) = true).
  { unfold Interleaved.available.
    change (closed (Interleaved.world s2))
      with (closed (Interleaved.world s1)).
    rewrite Hc1, Hopen. cbn [negb andb].
    apply andb_true_iff. split; [reflexivity | exact Hi]. }
  assert (H3 : s3 = {| Interleaved.world :=
                         handlePlanSelect plan
                           (setStep 0 (Interleaved.world s1));
                       Interleaved.suspended := Interleaved.suspended s1 |}).
  { unfold s3. cbn [Interleaved.press]. rewrite Hplan. reflexivity. }
  unfold planChangedInFlight. do 4 eexists. split.
  - cbn [Interleaved.run Interleaved.advance].
    change (Interleaved.world (Interleaved.start w)) with w.
    rewrite Hav. fold s1. rewrite A2. fold s2. rewrite A3. fold s3.
    rewrite H3, H1.
    cbn [Interleaved.suspended Interleaved.world nth_error Interleaved.settle
         Interleaved.remove_nth Interleaved.waiting_next app].
    reflexivity.
  - cbn [Interleaved.world Interleaved.suspended].
    unfold Interleaved.handleFileUpload_resume. rewrite Hcap.
    cbn [JS.slice_upto JS.gt_opt].
    destruct (_ >? _); cbn; rewrite slice_to_firstn by exact Hpos;
      repeat split.
Qed.

Lemma plan_change_in_flight_keeps_old_limit_witness :
  let assembly := nth 2 PLANS DevConfig.getDevPlan in
  match Interleaved.run operatorEnv
          (planChangedInFlight smallPdf 0
             (ExtractData true (Some (contacts 600)) None))
          (Interleaved.start (handlePlanSelect assembly (mount operatorEnv ∅)))
  with
  | Some ss =>
      map (fun s =>
             (plan_name (selectedPlan (ui (Interleaved.world s))),
              length (extractedVoters (ui (Interleaved.world s))),
              error (ui (Interleaved.world s)))) ss
      = [("Assembly", 0%nat, EmptyString); ("Assembly", 0%nat, EmptyString);
         ("Ward", 0%nat, EmptyString); ("Ward", 600%nat, EmptyString)]
  | None => False
  end.
Proof.
  cbv zeta.
  destruct (plan_change_in_flight_keeps_old_limit operatorEnv smallPdf 0
              (nth 0 PLANS DevConfig.getDevPlan) (contacts 600) None 10000
              (handlePlanSelect (nth 2 PLANS DevConfig.getDevPlan)
                 (mount operatorEnv ∅))
              eq_refl ltac:(vm_compute; discriminate) eq_refl eq_refl
              ltac:(lia) eq_refl)
    as (s1 & s2 & s3 & s4 & Hrun & _).
  rewrite Hrun. vm_compute in Hrun.
  injection Hrun as <- <- <- <-. vm_compute. reflexivity.
Defined.

Lemma updateUserData_unnamed_plan (existing : option Stored) (plan : Plan)
    (payment : string) (clk : Z) :
  plan_id plan = None ->
  match existing with
  | Some v => parseUserData v = defaultUserData
  | None => True
  end ->
  updateUserData existing plan payment clk = defaultUserData.
Proof.
  intros Hid Hold. unfold updateUserData, planId_differs. rewrite Hid.
  destruct existing as [v|]; [rewrite Hold|]; reflexivity.
Qed.

(** X26. The plan that the page hands to the wizard has no [id]: bought
    by an operator without a stored record, its absent id matches the
    absent [planId] of the default record, so every launch takes the
    branch of the known plan and writes [{ total: 0, remaining: 0 }],
    however many launches are paid for. Picked from the cards of the
    wizard, the same Municipal plan gives a record with [total] 3. *)
Theorem page_plan_purchases_leave_empty_quota (k : nat) (plan : Plan)
    (payment : string) (clk : Z) :
  plan_id plan = None ->
  (1 <= k)%nat ->
  launches k None plan payment clk = Some (UserCampaigns defaultUserData).
Proof.
  intros Hid Hk. destruct k as [|k]; [lia|]. clear Hk.
  induction k as [|k IH].
  - cbn [launches]. now rewrite updateUserData_unnamed_plan.
  - change (launches (S (S k)) None plan payment clk)
      with (Some (UserCampaigns
                    (updateUserData (launches (S k) None plan payment clk)
                       plan payment clk))).
    rewrite IH. now rewrite updateUserData_unnamed_plan.
Qed.

Lemma page_plan_purchases_leave_empty_quota_witness :
  remainingOf (launches 1 None App.defaultPlan "pay_ABC123xyz9" 0) = JS.Val 0
  /\ launches 2 None App.defaultPlan "pay_ABC123xyz9" 0
     = Some (UserCampaigns
               {| planId := None; planName := None; total := JS.Val 0;
                  remaining := JS.Val 0; purchaseDate := None;
                  quota_paymentId := None |})
  /\ remainingOf (launches 1 None municipal "pay_ABC123xyz9" 0) = JS.Val 2.
Proof.
  split; [|split].
  - rewrite (page_plan_purchases_leave_empty_quota 1 App.defaultPlan
               "pay_ABC123xyz9" 0 eq_refl) by lia.
    reflexivity.
  - rewrite (page_plan_purchases_leave_empty_quota 2 App.defaultPlan
               "pay_ABC123xyz9" 0 eq_refl) by lia.
    reflexivity.
  - reflexivity.
Defined.
